(** * procfs/mountstats.go: the decoder of /proc/[pid]/mountstats

    A shallow embedding of [vendor/github.com/prometheus/procfs/mountstats.go]
    together with the few functions of Go's standard library it calls
    ([strconv.Atoi], [time.ParseDuration], [strings.Fields],
    [strings.TrimPrefix], [strings.TrimSuffix], [bufio.Scanner]).

    Conventions.
    - Go's [int] and [time.Duration] are 64-bit signed integers: they are
      modelled as [Z], with the wrap-around of multiplication and negation
      written out ([wrap64]).
    - Go strings are byte strings: [string] of the Standard Library.
    - A Go function returning [(T, error)] that yields either [(nil, err)]
      or [(v, nil)] returns a [result]; a run-time panic (slice index out
      of range) is the third constructor.  The two functions that return
      [(v, s.Err())] return the pair as it is. *)

From Stdlib Require Import ZArith List String Ascii Bool Lia SpecFloat.
Import ListNotations.

Local Open Scope string_scope.
Local Open Scope Z_scope.
Local Open Scope list_scope.

(** ** Errors, panics and results *)

(** The two sentinel errors of [strconv.NumError]. *)
Inductive NumErrKind : Type :=
| ErrSyntax
| ErrRange.

(** The three messages of [time.ParseDuration]. *)
Inductive DurationErrKind : Type :=
| InvalidDuration
| MissingUnit
| UnknownUnit (u : string).

Inductive error : Type :=
| ErrInvalidDeviceEntry (ss : list string)
    (* "invalid device entry: %v" *)
| ErrCannotParseFstype (t : string)
    (* "cannot parse MountStats for fstype %q" *)
| ErrNotEnoughNFSStats (ss : list string)
    (* "not enough information for NFS stats: %v" *)
| ErrNotEnoughNFSTransportStats (ss : list string)
    (* "not enough information for NFS transport stats: %v" *)
| ErrInvalidNFSBytesStats (ss : list string)
    (* "invalid NFS bytes stats: %v" *)
| ErrInvalidNFSEventsStats (ss : list string)
    (* "invalid NFS events stats: %v" *)
| ErrInvalidNFSPerOpStats (ss : list string)
    (* "invalid NFS per-operations stats: %v" *)
| ErrInvalidNFSTransportStats10 (ss : list string)
    (* "invalid NFS transport stats 1.0 statement: %v" *)
| ErrInvalidNFSTransportStats11 (ss : list string)
    (* "invalid NFS transport stats 1.1 statement: %v" *)
| ErrUnrecognizedTransportVersion (v : string)
    (* "unrecognized NFS transport stats version: %q" *)
| ErrNum (k : NumErrKind) (num : string)
    (* *strconv.NumError *)
| ErrDuration (k : DurationErrKind) (orig : string)
    (* errors.New("time: ...") *)
| ErrStream (msg : string).
    (* the error latched by the bufio.Scanner *)

Inductive panic : Type :=
| IndexOutOfRange (index : nat) (len : nat)
| SliceBoundsOutOfRange (low : nat) (len : nat).

Inductive result (A : Type) : Type :=
| Ok (a : A)
| Err (e : error)
| Panic (p : panic).

Arguments Ok {A} a.
Arguments Err {A} e.
Arguments Panic {A} p.

Definition bind {A B : Type} (r : result A) (k : A -> result B) : result B :=
  match r with
  | Ok a => k a
  | Err e => Err e
  | Panic p => Panic p
  end.

Notation "x <- e ;; k" := (bind e (fun x => k))
  (at level 61, e at next level, right associativity).

(** [xs[i]] on a slice: a run-time panic outside [0 <= i < len(xs)]. *)
Definition index {A : Type} (xs : list A) (i : nat) : result A :=
  match nth_error xs i with
  | Some x => Ok x
  | None => Panic (IndexOutOfRange i (List.length xs))
  end.

(** [xs[n:]] on a slice: a run-time panic when [n > len(xs)]. *)
Definition sliceFrom {A : Type} (n : nat) (xs : list A) : result (list A) :=
  if (n <=? List.length xs)%nat then Ok (skipn n xs)
  else Panic (SliceBoundsOutOfRange n (List.length xs)).

(** ** 64-bit integers *)

Definition wrap64 (z : Z) : Z := (z + 2 ^ 63) mod 2 ^ 64 - 2 ^ 63.

Definition minInt64 : Z := - 2 ^ 63.
Definition maxInt64 : Z := 2 ^ 63 - 1.
Definition maxUint64 : Z := 2 ^ 64 - 1.

(** ** Bytes and strings *)

Definition byteVal (c : ascii) : Z := Z.of_N (N_of_ascii c).

Definition isDigit (c : ascii) : bool :=
  (48 <=? byteVal c) && (byteVal c <=? 57).

Definition digitVal (c : ascii) : Z := byteVal c - 48.

Fixpoint hasPrefix (s prefix : string) : bool :=
  match prefix, s with
  | EmptyString, _ => true
  | String p prefix', String c s' => Ascii.eqb c p && hasPrefix s' prefix'
  | String _ _, EmptyString => false
  end.

Definition dropBytes (n : nat) (s : string) : string :=
  String.substring n (String.length s - n) s.

(** [strings.TrimPrefix]. *)
Definition TrimPrefix (s prefix : string) : string :=
  if hasPrefix s prefix then dropBytes (String.length prefix) s else s.

Definition hasSuffix (s suffix : string) : bool :=
  (String.length suffix <=? String.length s)%nat
  && String.eqb
       (dropBytes (String.length s - String.length suffix) s) suffix.

(** [strings.TrimSuffix]. *)
Definition TrimSuffix (s suffix : string) : string :=
  if hasSuffix s suffix
  then String.substring 0 (String.length s - String.length suffix) s
  else s.

(** [strings.Fields] splits around runs of white space as [unicode.IsSpace]
    has it.  Go decodes the string as UTF-8; no byte of the encoding of a
    white-space character is a continuation byte of another character, so
    the split is written over the bytes: [spaceWidth] is the number of
    bytes of the white-space character a string starts with, 0 when it
    starts with none. *)
Definition asciiSpace (c : ascii) : bool :=
  match byteVal c with
  | 9 | 10 | 11 | 12 | 13 | 32 => true
  | _ => false
  end.

Definition spaceWidth (s : string) : nat :=
  match s with
  | EmptyString => 0
  | String c0 rest =>
      if asciiSpace c0 then 1%nat
      else
        match byteVal c0, rest with
        | 194, String c1 _ =>
            (* U+0085, U+00A0 *)
            if (byteVal c1 =? 133) || (byteVal c1 =? 160) then 2%nat
            else 0%nat
        | 225, String c1 (String c2 _) =>
            (* U+1680 *)
            if (byteVal c1 =? 154) && (byteVal c2 =? 128) then 3%nat
            else 0%nat
        | 226, String c1 (String c2 _) =>
            (* U+2000..U+200A, U+2028, U+2029, U+202F, U+205F *)
            if ((byteVal c1 =? 128)
                && (((128 <=? byteVal c2) && (byteVal c2 <=? 138))
                    || (byteVal c2 =? 168) || (byteVal c2 =? 169)
                    || (byteVal c2 =? 175)))
               || ((byteVal c1 =? 129) && (byteVal c2 =? 159))
            then 3%nat else 0%nat
        | 227, String c1 (String c2 _) =>
            (* U+3000 *)
            if (byteVal c1 =? 128) && (byteVal c2 =? 128) then 3%nat
            else 0%nat
        | _, _ => 0%nat
        end
  end.

Definition flushField (cur : string) : list string :=
  match cur with
  | EmptyString => []
  | _ => [cur]
  end.

(** [skip] counts the bytes still to drop of the white-space character
    being read; [cur] is the field read so far. *)
Fixpoint fieldsFrom (s : string) (skip : nat) (cur : string) : list string :=
  match s with
  | EmptyString => flushField cur
  | String c rest =>
      match skip with
      | S k => fieldsFrom rest k cur
      | O =>
          match spaceWidth s with
          | O => fieldsFrom rest 0 (String.append cur (String c EmptyString))
          | S k => flushField cur ++ fieldsFrom rest k EmptyString
          end
      end
  end.

Definition Fields (s : string) : list string := fieldsFrom s 0 EmptyString.

(** ** strconv.Atoi

    [Atoi(s)] is [ParseInt(s, 10, 0)] narrowed to [int]; the fast path
    that newer Go versions take on short strings returns the same values. *)

Definition uintCutoff : Z := maxUint64 / 10 + 1.

(** The loop of [strconv.ParseUint] in base 10 with [bitSize] 64; the
    result is the pair [(n, err)] the Go function returns. *)
Fixpoint parseUintLoop (n : Z) (s : string) : Z * option NumErrKind :=
  match s with
  | EmptyString => (n, None)
  | String c rest =>
      if isDigit c then
        if uintCutoff <=? n then (maxUint64, Some ErrRange)
        else
          let n10 := n * 10 in
          let n1 := (n10 + digitVal c) mod 2 ^ 64 in
          if (n1 <? n10) || (maxUint64 <? n1) then (maxUint64, Some ErrRange)
          else parseUintLoop n1 rest
      else (0, Some ErrSyntax)
  end.

Definition ParseUint (s : string) : Z * option NumErrKind :=
  match s with
  | EmptyString => (0, Some ErrSyntax)
  | _ => parseUintLoop 0 s
  end.

(** The second half of [strconv.ParseInt]: the range of the unsigned
    value [un] that [ParseUint] returned with [err], and the sign. *)
Definition checkIntRange (neg : bool) (s0 : string)
    (r : Z * option NumErrKind) : result Z :=
  let '(un, err) := r in
  match err with
  | Some ErrSyntax => Err (ErrNum ErrSyntax s0)
  | _ =>
      let cutoff := 2 ^ 63 in
      if negb neg && (cutoff <=? un) then Err (ErrNum ErrRange s0)
      else if neg && (cutoff <? un) then Err (ErrNum ErrRange s0)
      else
        let n := wrap64 un in
        Ok (if neg then wrap64 (- n) else n)
  end.

Definition ParseInt (s : string) : result Z :=
  match s with
  | EmptyString => Err (ErrNum ErrSyntax s)
  | String c rest =>
      (* Pick off leading sign. *)
      let neg := Ascii.eqb c "-" in
      let body := if Ascii.eqb c "+" || neg then rest else s in
      (* Convert unsigned and check range. *)
      checkIntRange neg s (ParseUint body)
  end.

Definition Atoi (s : string) : result Z := ParseInt s.

(** The loop [for _, s := range ss { n, err := strconv.Atoi(s); ...;
    ns = append(ns, n) }] shared by the field-group decoders. *)
Fixpoint atoiLoop (ss : list string) (ns : list Z) : result (list Z) :=
  match ss with
  | [] => Ok ns
  | s :: rest =>
      n <- Atoi s ;;
      atoiLoop rest (ns ++ [n])
  end.

(** ** time.Duration *)

Definition Duration : Type := Z.

Definition Nanosecond : Duration := 1.
Definition Microsecond : Duration := 1000 * Nanosecond.
Definition Millisecond : Duration := 1000 * Microsecond.
Definition Second : Duration := 1000 * Millisecond.
Definition Minute : Duration := 60 * Second.
Definition Hour : Duration := 60 * Minute.

(** [time.Duration(n) * unit] on 64-bit integers. *)
Definition mulDuration (n : Z) (unit : Duration) : Duration :=
  wrap64 (n * unit).

(** ** time.ParseDuration

    The fraction of a number is the one place where Go computes in
    [float64]; the operations are those of IEEE 754 binary64
    ([SpecFloat] at precision 53 and maximal exponent 1024). *)

Definition float64 : Type := spec_float.

Definition f64ofZ (z : Z) : float64 := binary_normalize 53 1024 z 0 false.
Definition f64mul (x y : float64) : float64 := SFmul 53 1024 x y.
Definition f64div (x y : float64) : float64 := SFdiv 53 1024 x y.

(** [uint64(x)] for a finite [x >= 0] in range: truncation. *)
Definition f64toUint (x : float64) : Z :=
  match x with
  | S754_finite false m e =>
      if 0 <=? e then Zpos m * 2 ^ e else Zpos m / 2 ^ (- e)
  | _ => 0
  end.

(** [leadingInt]: [None] is [errLeadingInt]. *)
Fixpoint leadingInt (x : Z) (s : string) : option (Z * string) :=
  match s with
  | EmptyString => Some (x, s)
  | String c rest =>
      if isDigit c then
        if 2 ^ 63 / 10 <? x then None
        else
          let x' := x * 10 + digitVal c in
          if 2 ^ 63 <? x' then None else leadingInt x' rest
      else Some (x, s)
  end.

Fixpoint leadingFraction (x : Z) (scale : float64) (overflow : bool)
    (s : string) : Z * float64 * string :=
  match s with
  | EmptyString => (x, scale, s)
  | String c rest =>
      if isDigit c then
        if overflow then leadingFraction x scale true rest
        else if (2 ^ 63 - 1) / 10 <? x then leadingFraction x scale true rest
        else
          let y := x * 10 + digitVal c in
          if 2 ^ 63 <? y then leadingFraction x scale true rest
          else leadingFraction y (f64mul scale (f64ofZ 10)) false rest
      else (x, scale, s)
  end.

(** The unit is the longest prefix without ['.'] and digits. *)
Fixpoint splitUnit (s : string) : string * string :=
  match s with
  | EmptyString => (EmptyString, EmptyString)
  | String c rest =>
      if Ascii.eqb c "." || isDigit c then (EmptyString, s)
      else let '(u, rem) := splitUnit rest in (String c u, rem)
  end.

Definition microSign : string :=
  String (ascii_of_nat 194) (String (ascii_of_nat 181) EmptyString).
Definition greekMu : string :=
  String (ascii_of_nat 206) (String (ascii_of_nat 188) EmptyString).

Definition unitMap (u : string) : option Z :=
  if String.eqb u "ns" then Some Nanosecond
  else if String.eqb u "us" then Some Microsecond
  else if String.eqb u (String.append microSign "s") then Some Microsecond
  else if String.eqb u (String.append greekMu "s") then Some Microsecond
  else if String.eqb u "ms" then Some Millisecond
  else if String.eqb u "s" then Some Second
  else if String.eqb u "m" then Some Minute
  else if String.eqb u "h" then Some Hour
  else None.

(** One turn of [for s != ""]: the value of [d] and the rest of [s]
    after one number and its unit. *)
Definition parseDurationTerm (orig s : string) (d : Z) : result (Z * string) :=
  let invalid := ErrDuration InvalidDuration orig in
  match s with
  | EmptyString => Err invalid
  | String c0 _ =>
      if negb (Ascii.eqb c0 "." || isDigit c0) then Err invalid
      else
        match leadingInt 0 s with
        | None => Err invalid
        | Some (v, s1) =>
            let pre := negb (String.length s =? String.length s1)%nat in
            let '(f, scale, s2, post) :=
              match s1 with
              | String c1 s1' =>
                  if Ascii.eqb c1 "." then
                    let '(f, scale, s2) :=
                      leadingFraction 0 (f64ofZ 1) false s1' in
                    (f, scale, s2,
                     negb (String.length s1' =? String.length s2)%nat)
                  else (0, f64ofZ 1, s1, false)
              | EmptyString => (0, f64ofZ 1, s1, false)
              end in
            if negb pre && negb post then Err invalid
            else
              let '(u, s3) := splitUnit s2 in
              match u with
              | EmptyString => Err (ErrDuration MissingUnit orig)
              | _ =>
                  match unitMap u with
                  | None => Err (ErrDuration (UnknownUnit u) orig)
                  | Some unit =>
                      if 2 ^ 63 / unit <? v then Err invalid
                      else
                        v <- (let v := v * unit in
                              if 0 <? f then
                                let v :=
                                  (v + f64toUint
                                         (f64mul (f64ofZ f)
                                            (f64div (f64ofZ unit) scale)))
                                  mod 2 ^ 64 in
                                if 2 ^ 63 <? v then Err invalid else Ok v
                              else Ok v) ;;
                        let d := (d + v) mod 2 ^ 64 in
                        if 2 ^ 63 <? d then Err invalid else Ok (d, s3)
                  end
              end
        end
  end.

(** [for s != "" { ... }]; every turn shortens [s], so [fuel] above the
    length of [s] is never used up ([parseDurationLoop_fuel]). *)
Fixpoint parseDurationLoop (fuel : nat) (orig s : string) (d : Z) : result Z :=
  match s with
  | EmptyString => Ok d
  | String _ _ =>
      match fuel with
      | O => Err (ErrDuration InvalidDuration orig)
      | S fuel' =>
          r <- parseDurationTerm orig s d ;;
          parseDurationLoop fuel' orig (snd r) (fst r)
      end
  end.

Definition ParseDuration (orig : string) : result Duration :=
  let '(neg, s) :=
    match orig with
    | String c rest =>
        if Ascii.eqb c "-" || Ascii.eqb c "+" then (Ascii.eqb c "-", rest)
        else (false, orig)
    | EmptyString => (false, orig)
    end in
  if String.eqb s "0" then Ok 0
  else if String.eqb s "" then Err (ErrDuration InvalidDuration orig)
  else
    d <- parseDurationLoop (S (String.length s)) orig s 0 ;;
    if neg then Ok (wrap64 (- wrap64 d))
    else if 2 ^ 63 - 1 <? d then Err (ErrDuration InvalidDuration orig)
    else Ok d.

(** ** The data model of mountstats.go *)

(** Constants shared between multiple functions. *)
Definition deviceEntryLen : nat := 8.
Definition fieldBytesLen : nat := 8.
Definition fieldEventsLen : nat := 27.
Definition statVersion10 : string := "1.0".
Definition statVersion11 : string := "1.1".
Definition fieldTransport10Len : nat := 10.
Definition fieldTransport11Len : nat := 13.

Record NFSBytesStats : Type := mkNFSBytesStats {
  Read : Z;
  Write : Z;
  DirectRead : Z;
  DirectWrite : Z;
  ReadTotal : Z;
  WriteTotal : Z;
  ReadPages : Z;
  WritePages : Z
}.

Record NFSEventsStats : Type := mkNFSEventsStats {
  InodeRevalidate : Z;
  DnodeRevalidate : Z;
  DataInvalidate : Z;
  AttributeInvalidate : Z;
  VFSOpen : Z;
  VFSLookup : Z;
  VFSAccess : Z;
  VFSUpdatePage : Z;
  VFSReadPage : Z;
  VFSReadPages : Z;
  VFSWritePage : Z;
  VFSWritePages : Z;
  VFSGetdents : Z;
  VFSSetattr : Z;
  VFSFlush : Z;
  VFSFsync : Z;
  VFSLock : Z;
  VFSFileRelease : Z;
  CongestionWait : Z;
  Truncation : Z;
  WriteExtension : Z;
  SillyRename : Z;
  ShortRead : Z;
  ShortWrite : Z;
  JukeboxDelay : Z;
  PNFSRead : Z;
  PNFSWrite : Z
}.

Record NFSOperationStats : Type := mkNFSOperationStats {
  Operation : string;
  Requests : Z;
  Transmissions : Z;
  MajorTimeouts : Z;
  BytesSent : Z;
  BytesReceived : Z;
  CumulativeQueueTime : Duration;
  CumulativeTotalResponseTime : Duration;
  CumulativeTotalRequestTime : Duration
}.

Record NFSTransportStats : Type := mkNFSTransportStats {
  Port : Z;
  Bind : Z;
  Connect : Z;
  ConnectIdleTime : Z;
  IdleTime : Duration;
  Sends : Z;
  Receives : Z;
  BadTransactionIDs : Z;
  CumulativeActiveRequests : Z;
  CumulativeBacklog : Z;
  (* Stats below only available with stat version 1.1. *)
  MaximumRPCSlotsUsed : Z;
  CumulativeSendingQueue : Z;
  CumulativePendingQueue : Z
}.

Record MountStatsNFS : Type := mkMountStatsNFS {
  StatVersion : string;
  Age : Duration;
  Bytes : NFSBytesStats;
  Events : NFSEventsStats;
  Operations : list NFSOperationStats;
  Transport : NFSTransportStats
}.

(** The interface [MountStats] has one implementation. *)
Inductive MountStats : Type :=
| StatsNFS (stats : MountStatsNFS).

(** [Stats] is [None] for the nil interface value. *)
Record Mount : Type := mkMount {
  Device : string;
  MountPoint : string;   (* the field [Mount] *)
  Type_ : string;        (* the field [Type] *)
  Stats : option MountStats
}.

(** Zero values. *)
Definition zeroNFSBytesStats : NFSBytesStats :=
  mkNFSBytesStats 0 0 0 0 0 0 0 0.
Definition zeroNFSEventsStats : NFSEventsStats :=
  mkNFSEventsStats 0 0 0 0 0 0 0 0 0 0 0 0 0 0 0 0 0 0 0 0 0 0 0 0 0 0 0.
Definition zeroNFSTransportStats : NFSTransportStats :=
  mkNFSTransportStats 0 0 0 0 0 0 0 0 0 0 0 0 0.

(** ** parseMount *)

(** The table [format] of anchor words. *)
Definition format : list (nat * string) :=
  [(0%nat, "device"); (2%nat, "mounted"); (3%nat, "on"); (5%nat, "with");
   (6%nat, "fstype")].

(** [for _, f := range format { if ss[f.i] != f.s { return nil, err } }] *)
Fixpoint checkFormat (ss : list string) (fs : list (nat * string))
  : result unit :=
  match fs with
  | [] => Ok tt
  | (i, s) :: fs' =>
      t <- index ss i ;;
      if negb (String.eqb t s) then Err (ErrInvalidDeviceEntry ss)
      else checkFormat ss fs'
  end.

Definition parseMount (ss : list string) : result Mount :=
  if (List.length ss <? deviceEntryLen)%nat then Err (ErrInvalidDeviceEntry ss)
  else
    _ <- checkFormat ss format ;;
    dev <- index ss 1 ;;
    mnt <- index ss 4 ;;
    typ <- index ss 7 ;;
    Ok {| Device := dev; MountPoint := mnt; Type_ := typ; Stats := None |}.

(** ** The field-group decoders *)

Definition parseNFSBytesStats (ss : list string) : result NFSBytesStats :=
  if negb (List.length ss =? fieldBytesLen)%nat
  then Err (ErrInvalidNFSBytesStats ss)
  else
    ns <- atoiLoop ss [] ;;
    n0 <- index ns 0 ;; n1 <- index ns 1 ;; n2 <- index ns 2 ;;
    n3 <- index ns 3 ;; n4 <- index ns 4 ;; n5 <- index ns 5 ;;
    n6 <- index ns 6 ;; n7 <- index ns 7 ;;
    Ok {| Read := n0; Write := n1; DirectRead := n2; DirectWrite := n3;
          ReadTotal := n4; WriteTotal := n5; ReadPages := n6;
          WritePages := n7 |}.

Definition parseNFSEventsStats (ss : list string) : result NFSEventsStats :=
  if negb (List.length ss =? fieldEventsLen)%nat
  then Err (ErrInvalidNFSEventsStats ss)
  else
    ns <- atoiLoop ss [] ;;
    n0 <- index ns 0 ;; n1 <- index ns 1 ;; n2 <- index ns 2 ;;
    n3 <- index ns 3 ;; n4 <- index ns 4 ;; n5 <- index ns 5 ;;
    n6 <- index ns 6 ;; n7 <- index ns 7 ;; n8 <- index ns 8 ;;
    n9 <- index ns 9 ;; n10 <- index ns 10 ;; n11 <- index ns 11 ;;
    n12 <- index ns 12 ;; n13 <- index ns 13 ;; n14 <- index ns 14 ;;
    n15 <- index ns 15 ;; n16 <- index ns 16 ;; n17 <- index ns 17 ;;
    n18 <- index ns 18 ;; n19 <- index ns 19 ;; n20 <- index ns 20 ;;
    n21 <- index ns 21 ;; n22 <- index ns 22 ;; n23 <- index ns 23 ;;
    n24 <- index ns 24 ;; n25 <- index ns 25 ;; n26 <- index ns 26 ;;
    Ok {| InodeRevalidate := n0; DnodeRevalidate := n1;
          DataInvalidate := n2; AttributeInvalidate := n3; VFSOpen := n4;
          VFSLookup := n5; VFSAccess := n6; VFSUpdatePage := n7;
          VFSReadPage := n8; VFSReadPages := n9; VFSWritePage := n10;
          VFSWritePages := n11; VFSGetdents := n12; VFSSetattr := n13;
          VFSFlush := n14; VFSFsync := n15; VFSLock := n16;
          VFSFileRelease := n17; CongestionWait := n18; Truncation := n19;
          WriteExtension := n20; SillyRename := n21; ShortRead := n22;
          ShortWrite := n23; JukeboxDelay := n24; PNFSRead := n25;
          PNFSWrite := n26 |}.

(** [ns] is made with length 0 and capacity [fieldTransport11Len]; the
    appends give it the length of [ss], and [ns[i]] is checked against
    the length. *)
Definition parseNFSTransportStats (ss : list string) (statVersion : string)
  : result NFSTransportStats :=
  _ <- (if String.eqb statVersion statVersion10 then
          if negb (List.length ss =? fieldTransport10Len)%nat
          then Err (ErrInvalidNFSTransportStats10 ss) else Ok tt
        else if String.eqb statVersion statVersion11 then
          if negb (List.length ss =? fieldTransport11Len)%nat
          then Err (ErrInvalidNFSTransportStats11 ss) else Ok tt
        else Err (ErrUnrecognizedTransportVersion statVersion)) ;;
  ns <- atoiLoop ss [] ;;
  n0 <- index ns 0 ;; n1 <- index ns 1 ;; n2 <- index ns 2 ;;
  n3 <- index ns 3 ;; n4 <- index ns 4 ;; n5 <- index ns 5 ;;
  n6 <- index ns 6 ;; n7 <- index ns 7 ;; n8 <- index ns 8 ;;
  n9 <- index ns 9 ;; n10 <- index ns 10 ;; n11 <- index ns 11 ;;
  n12 <- index ns 12 ;;
  Ok {| Port := n0; Bind := n1; Connect := n2; ConnectIdleTime := n3;
        IdleTime := mulDuration n4 Second; Sends := n5; Receives := n6;
        BadTransactionIDs := n7; CumulativeActiveRequests := n8;
        CumulativeBacklog := n9; MaximumRPCSlotsUsed := n10;
        CumulativeSendingQueue := n11; CumulativePendingQueue := n12 |}.

(** ** bufio.Scanner

    A scanner over a reader, with the default split function (lines), is
    the list of the lines it has still to deliver and the error, if any,
    that ends the stream instead of a plain end of file.  The scanner
    latches the error when the failing read happens, and may then still
    hold whole lines in its buffer: [buffered] is their number, so
    [s.Err()] is non-nil as soon as no more than [buffered] lines are
    left. *)
Record Scanner : Type := mkScanner {
  pending : list string;
  buffered : nat;
  failure : option error
}.

Definition withPending (s : Scanner) (lines : list string) : Scanner :=
  {| pending := lines; buffered := buffered s; failure := failure s |}.

(** [s.Scan()] followed by [s.Bytes()]: [None] when [Scan] returns false. *)
Definition Scan (s : Scanner) : option (string * Scanner) :=
  match pending s with
  | [] => None
  | l :: rest => Some (l, withPending s rest)
  end.

(** [s.Err()] *)
Definition ScanErr (s : Scanner) : option error :=
  if (List.length (pending s) <=? buffered s)%nat then failure s else None.

(** What a function ending in [return v, s.Err()] hands back: the pair,
    and the scanner it leaves behind. *)
Inductive returned (A : Type) : Type :=
| Returned (v : A) (err : option error) (rest : Scanner)
| Panicked (p : panic).

Arguments Returned {A} v err rest.
Arguments Panicked {A} p.

(** ** parseNFSOperationStats *)

(** Number of expected fields in each per-operation statistics set. *)
Definition numFields : nat := 9.

(** The body of the loop after the two length tests: one record from the
    fields of one line. *)
Definition parseNFSOperationLine (ss : list string) : result NFSOperationStats :=
  nums <- sliceFrom 1 ss ;;
  ns <- atoiLoop nums [] ;;
  name <- index ss 0 ;;
  n0 <- index ns 0 ;; n1 <- index ns 1 ;; n2 <- index ns 2 ;;
  n3 <- index ns 3 ;; n4 <- index ns 4 ;; n5 <- index ns 5 ;;
  n6 <- index ns 6 ;; n7 <- index ns 7 ;;
  Ok {| Operation := TrimSuffix name ":";
        Requests := n0; Transmissions := n1; MajorTimeouts := n2;
        BytesSent := n3; BytesReceived := n4;
        CumulativeQueueTime := mulDuration n5 Millisecond;
        CumulativeTotalResponseTime := mulDuration n6 Millisecond;
        CumulativeTotalRequestTime := mulDuration n7 Millisecond |}.

(** [for s.Scan() { ... }; return ops, s.Err()] over the lines of [s]. *)
Fixpoint operationStatsLoop (s : Scanner) (lines : list string)
    (ops : list NFSOperationStats) : returned (list NFSOperationStats) :=
  match lines with
  | [] => Returned ops (ScanErr (withPending s [])) (withPending s [])
  | l :: rest =>
      let ss := Fields l in
      if (List.length ss =? 0)%nat then
        (* a blank line: break *)
        Returned ops (ScanErr (withPending s rest)) (withPending s rest)
      else if negb (List.length ss =? numFields)%nat then
        Returned [] (Some (ErrInvalidNFSPerOpStats ss)) (withPending s rest)
      else
        match parseNFSOperationLine ss with
        | Ok op => operationStatsLoop s rest (ops ++ [op])
        | Err e => Returned [] (Some e) (withPending s rest)
        | Panic p => Panicked p
        end
  end.

Definition parseNFSOperationStats (s : Scanner)
  : returned (list NFSOperationStats) :=
  operationStatsLoop s (pending s) [].

(** ** parseMountStatsNFS *)

(** Field indicators for parsing specific types of data. *)
Definition fieldAge : string := "age:".
Definition fieldBytes : string := "bytes:".
Definition fieldEvents : string := "events:".
Definition fieldPerOpStats : string := "per-op".
Definition fieldTransport : string := "xprt:".

Definition setAge (stats : MountStatsNFS) (d : Duration) : MountStatsNFS :=
  {| StatVersion := StatVersion stats; Age := d; Bytes := Bytes stats;
     Events := Events stats; Operations := Operations stats;
     Transport := Transport stats |}.
Definition setBytes (stats : MountStatsNFS) (b : NFSBytesStats)
  : MountStatsNFS :=
  {| StatVersion := StatVersion stats; Age := Age stats; Bytes := b;
     Events := Events stats; Operations := Operations stats;
     Transport := Transport stats |}.
Definition setEvents (stats : MountStatsNFS) (e : NFSEventsStats)
  : MountStatsNFS :=
  {| StatVersion := StatVersion stats; Age := Age stats; Bytes := Bytes stats;
     Events := e; Operations := Operations stats;
     Transport := Transport stats |}.
Definition setTransport (stats : MountStatsNFS) (t : NFSTransportStats)
  : MountStatsNFS :=
  {| StatVersion := StatVersion stats; Age := Age stats; Bytes := Bytes stats;
     Events := Events stats; Operations := Operations stats;
     Transport := t |}.
Definition setOperations (stats : MountStatsNFS)
    (ops : list NFSOperationStats) : MountStatsNFS :=
  {| StatVersion := StatVersion stats; Age := Age stats; Bytes := Bytes stats;
     Events := Events stats; Operations := ops;
     Transport := Transport stats |}.

(** The [switch ss[0]] of the loop. *)
Definition statsSwitch (statVersion : string) (ss : list string)
    (stats : MountStatsNFS) : result MountStatsNFS :=
  t0 <- index ss 0 ;;
  if String.eqb t0 fieldAge then
    (* Age integer is in seconds *)
    t1 <- index ss 1 ;;
    d <- ParseDuration (String.append t1 "s") ;;
    Ok (setAge stats d)
  else if String.eqb t0 fieldBytes then
    rest <- sliceFrom 1 ss ;;
    bstats <- parseNFSBytesStats rest ;;
    Ok (setBytes stats bstats)
  else if String.eqb t0 fieldEvents then
    rest <- sliceFrom 1 ss ;;
    estats <- parseNFSEventsStats rest ;;
    Ok (setEvents stats estats)
  else if String.eqb t0 fieldTransport then
    if (List.length ss <? 3)%nat then Err (ErrNotEnoughNFSTransportStats ss)
    else
      rest <- sliceFrom 2 ss ;;
      tstats <- parseNFSTransportStats rest statVersion ;;
      Ok (setTransport stats tstats)
  else Ok stats.

(** The first loop of [parseMountStatsNFS]: the statistics after it and
    the lines it has not read. *)
Fixpoint statsLoop (statVersion : string) (lines : list string)
    (stats : MountStatsNFS) : result (MountStatsNFS * list string) :=
  match lines with
  | [] => Ok (stats, [])
  | l :: rest =>
      let ss := Fields l in
      if (List.length ss =? 0)%nat then Ok (stats, rest)
      else if (List.length ss <? 2)%nat then Err (ErrNotEnoughNFSStats ss)
      else
        stats' <- statsSwitch statVersion ss stats ;;
        t0 <- index ss 0 ;;
        if String.eqb t0 fieldPerOpStats then Ok (stats', rest)
        else statsLoop statVersion rest stats'
  end.

Definition newMountStatsNFS (statVersion : string) : MountStatsNFS :=
  {| StatVersion := statVersion; Age := 0; Bytes := zeroNFSBytesStats;
     Events := zeroNFSEventsStats; Operations := [];
     Transport := zeroNFSTransportStats |}.

Definition parseMountStatsNFS (s : Scanner) (statVersion : string)
  : result (MountStatsNFS * Scanner) :=
  r <- statsLoop statVersion (pending s) (newMountStatsNFS statVersion) ;;
  let s1 := withPending s (snd r) in
  match ScanErr s1 with
  | Some e => Err e
  | None =>
      (* NFS per-operation stats appear last before the next device entry *)
      match parseNFSOperationStats s1 with
      | Panicked p => Panic p
      | Returned _ (Some e) _ => Err e
      | Returned perOpStats None s2 => Ok (setOperations (fst r) perOpStats, s2)
      end
  end.

(** ** parseMountStats *)

Definition device : string := "device".
Definition statVersionPrefix : string := "statvers=".
Definition nfs3Type : string := "nfs".
Definition nfs4Type : string := "nfs4".

Definition setStats (m : Mount) (stats : MountStatsNFS) : Mount :=
  {| Device := Device m; MountPoint := MountPoint m; Type_ := Type_ m;
     Stats := Some (StatsNFS stats) |}.

(** What one device line adds: the mount, with its statistics when it
    has some, and the scanner after them. *)
Definition parseDeviceEntry (ss : list string) (s : Scanner)
  : result (Mount * Scanner) :=
  m <- parseMount ss ;;
  (* Does this mount also possess statistics information? *)
  if (deviceEntryLen <? List.length ss)%nat then
    (* Only NFSv3 and v4 are supported for parsing statistics *)
    if negb (String.eqb (Type_ m) nfs3Type)
       && negb (String.eqb (Type_ m) nfs4Type)
    then Err (ErrCannotParseFstype (Type_ m))
    else
      t8 <- index ss 8 ;;
      let statVersion := TrimPrefix t8 statVersionPrefix in
      r <- parseMountStatsNFS s statVersion ;;
      Ok (setStats m (fst r), snd r)
  else Ok (m, s).

(** [for s.Scan() { ... }; return mounts, s.Err()].  The statistics of a
    mount take lines off the scanner, so the loop is not structural in
    the lines: [fuel] bounds the number of turns, and [None] is a loop
    cut short by it. *)
Fixpoint mountStatsLoop (fuel : nat) (s : Scanner) (mounts : list Mount)
  : option (returned (list Mount)) :=
  match fuel with
  | O => None
  | S fuel' =>
      match Scan s with
      | None => Some (Returned mounts (ScanErr s) s)
      | Some (l, s1) =>
          (* Only look for device entries in this function *)
          let ss := Fields l in
          match ss with
          | [] => mountStatsLoop fuel' s1 mounts
          | t0 :: _ =>
              if negb (String.eqb t0 device) then mountStatsLoop fuel' s1 mounts
              else
                match parseDeviceEntry ss s1 with
                | Err e => Some (Returned [] (Some e) s1)
                | Panic p => Some (Panicked p)
                | Ok (m, s2) => mountStatsLoop fuel' s2 (mounts ++ [m])
                end
          end
      end
  end.

(** One turn takes at least one line: the lines and one more are fuel
    enough ([parseMountStats_total]). *)
Definition parseMountStats (s : Scanner) : option (returned (list Mount)) :=
  mountStatsLoop (S (List.length (pending s))) s [].

(** A reader that delivers [lines] and then a plain end of file. *)
Definition scannerOf (lines : list string) : Scanner :=
  {| pending := lines; buffered := 0; failure := None |}.

(** ** Integer tokens

    What the text of the format calls an integer: an optional sign and
    decimal digits, of a value that an [int] holds. *)

Fixpoint allDigits (s : string) : bool :=
  match s with
  | EmptyString => true
  | String c rest => isDigit c && allDigits rest
  end.

Fixpoint decimalFrom (acc : Z) (s : string) : Z :=
  match s with
  | EmptyString => acc
  | String c rest => decimalFrom (acc * 10 + digitVal c) rest
  end.

Definition decimal (s : string) : Z := decimalFrom 0 s.

Inductive IntToken : string -> Z -> Prop :=
| IntToken_plain (ds : string) :
    ds <> EmptyString -> allDigits ds = true -> decimal ds <= maxInt64 ->
    IntToken ds (decimal ds)
| IntToken_plus (ds : string) :
    ds <> EmptyString -> allDigits ds = true -> decimal ds <= maxInt64 ->
    IntToken (String "+" ds) (decimal ds)
| IntToken_minus (ds : string) :
    ds <> EmptyString -> allDigits ds = true -> decimal ds <= 2 ^ 63 ->
    IntToken (String "-" ds) (- decimal ds).

(** A token list and the integers it spells. *)
Definition IntTokens (ss : list string) (ns : list Z) : Prop :=
  Forall2 IntToken ss ns.

(** ** The records that a list of integers spells

    The positional reading of the format: the integers of a field group,
    in order, are the fields of its record, in order. *)

Definition bytesOfInts (ns : list Z) : NFSBytesStats :=
  {| Read := nth 0 ns 0; Write := nth 1 ns 0; DirectRead := nth 2 ns 0;
     DirectWrite := nth 3 ns 0; ReadTotal := nth 4 ns 0;
     WriteTotal := nth 5 ns 0; ReadPages := nth 6 ns 0;
     WritePages := nth 7 ns 0 |}.

Definition eventsOfInts (ns : list Z) : NFSEventsStats :=
  {| InodeRevalidate := nth 0 ns 0; DnodeRevalidate := nth 1 ns 0;
     DataInvalidate := nth 2 ns 0; AttributeInvalidate := nth 3 ns 0;
     VFSOpen := nth 4 ns 0; VFSLookup := nth 5 ns 0; VFSAccess := nth 6 ns 0;
     VFSUpdatePage := nth 7 ns 0; VFSReadPage := nth 8 ns 0;
     VFSReadPages := nth 9 ns 0; VFSWritePage := nth 10 ns 0;
     VFSWritePages := nth 11 ns 0; VFSGetdents := nth 12 ns 0;
     VFSSetattr := nth 13 ns 0; VFSFlush := nth 14 ns 0;
     VFSFsync := nth 15 ns 0; VFSLock := nth 16 ns 0;
     VFSFileRelease := nth 17 ns 0; CongestionWait := nth 18 ns 0;
     Truncation := nth 19 ns 0; WriteExtension := nth 20 ns 0;
     SillyRename := nth 21 ns 0; ShortRead := nth 22 ns 0;
     ShortWrite := nth 23 ns 0; JukeboxDelay := nth 24 ns 0;
     PNFSRead := nth 25 ns 0; PNFSWrite := nth 26 ns 0 |}.

(** The field of index 4 is in seconds. *)
Definition transportOfInts (ns : list Z) : NFSTransportStats :=
  {| Port := nth 0 ns 0; Bind := nth 1 ns 0; Connect := nth 2 ns 0;
     ConnectIdleTime := nth 3 ns 0;
     IdleTime := mulDuration (nth 4 ns 0) Second;
     Sends := nth 5 ns 0; Receives := nth 6 ns 0;
     BadTransactionIDs := nth 7 ns 0;
     CumulativeActiveRequests := nth 8 ns 0;
     CumulativeBacklog := nth 9 ns 0; MaximumRPCSlotsUsed := nth 10 ns 0;
     CumulativeSendingQueue := nth 11 ns 0;
     CumulativePendingQueue := nth 12 ns 0 |}.

(** The name loses a trailing colon; the last three fields are in
    milliseconds. *)
Definition operationOfInts (name : string) (ns : list Z) : NFSOperationStats :=
  {| Operation := TrimSuffix name ":";
     Requests := nth 0 ns 0; Transmissions := nth 1 ns 0;
     MajorTimeouts := nth 2 ns 0; BytesSent := nth 3 ns 0;
     BytesReceived := nth 4 ns 0;
     CumulativeQueueTime := mulDuration (nth 5 ns 0) Millisecond;
     CumulativeTotalResponseTime := mulDuration (nth 6 ns 0) Millisecond;
     CumulativeTotalRequestTime := mulDuration (nth 7 ns 0) Millisecond |}.

(** ** The lines of a statistics block *)

(** The lines that the first loop of [parseMountStatsNFS] reads and goes
    past, taking the statistics from [st] to [st']: each has two fields
    or more, is accepted by the switch, and is not the per-op marker. *)
Inductive StatsLines (v : string)
  : list string -> MountStatsNFS -> MountStatsNFS -> Prop :=
| StatsLines_nil (st : MountStatsNFS) : StatsLines v [] st st
| StatsLines_cons (l : string) (ls : list string)
    (st st1 st2 : MountStatsNFS) :
    (2 <= List.length (Fields l))%nat ->
    statsSwitch v (Fields l) st = Ok st1 ->
    nth 0 (Fields l) "" <> fieldPerOpStats ->
    StatsLines v ls st1 st2 ->
    StatsLines v (l :: ls) st st2.

(** The same, line by line and whatever the statistics so far. *)
Definition LineOK (v : string) (l : string) : Prop :=
  (2 <= List.length (Fields l))%nat
  /\ nth 0 (Fields l) "" <> fieldPerOpStats
  /\ exists st1, statsSwitch v (Fields l) (newMountStatsNFS v) = Ok st1.

(** How the first loop ends: at the end of the stream, on a blank line,
    or on the per-op marker; [rest] is what it leaves unread of [tail]. *)
Definition BlockEnd (tail rest : list string) : Prop :=
  (tail = [] /\ rest = [])
  \/ (exists t, tail = t :: rest
      /\ (Fields t = []
          \/ exists t1 ts, Fields t = fieldPerOpStats :: t1 :: ts)).

(** The fields of the last of [lines] whose first field is [key]. *)
Fixpoint lastLine (key : string) (lines : list string)
  : option (list string) :=
  match lines with
  | [] => None
  | l :: ls =>
      match lastLine key ls with
      | Some ss => Some ss
      | None =>
          if String.eqb (nth 0 (Fields l) "") key then Some (Fields l)
          else None
      end
  end.

(** ** The turns of the driver *)


(** ** The lines of a per-operation block *)

(** A line that the per-operation parser reads as the record [op]: nine
    fields, the last eight integers. *)
Definition OpLine (l : string) (op : NFSOperationStats) : Prop :=
  exists name toks ns,
    Fields l = name :: toks /\ List.length toks = 8%nat
    /\ IntTokens toks ns /\ op = operationOfInts name ns.

(** The first field of a line the switch knows nothing about. *)
Definition unknownField (t0 : string) : Prop :=
  t0 <> fieldAge /\ t0 <> fieldBytes /\ t0 <> fieldEvents
  /\ t0 <> fieldTransport /\ t0 <> fieldPerOpStats.

(** A mount has statistics only when its type is nfs or nfs4. *)
Definition statsOnlyOnNFS (m : Mount) : Prop :=
  Stats m = None \/ Type_ m = nfs3Type \/ Type_ m = nfs4Type.

(** The version that a device line announces: its ninth field, without
    the prefix "statvers=" when it has it. *)
Definition announcedVersion (l : string) : string :=
  TrimPrefix (nth 8 (Fields l) "") statVersionPrefix.

(** ** Tactics *)

(** A list whose length is a known numeral, taken apart. *)
Ltac destruct_length ns H :=
  repeat (destruct ns as [|? ns]; cbn [List.length] in H;
          try discriminate H);
  clear H.

(** A concrete line that the loop accepts. *)
Ltac line_ok :=
  split;
  [ vm_compute; lia
  | split; [ vm_compute; discriminate | eexists; vm_compute; reflexivity ] ].

(** * Properties *)

(** ** The library functions on a few inputs *)

Example ParseDuration_5s : ParseDuration "5s" = Ok 5000000000.
Proof. vm_compute. reflexivity. Qed.

Example ParseDuration_5ms : ParseDuration "5ms" = Ok 5000000.
Proof. vm_compute. reflexivity. Qed.

Example ParseDuration_1p5s : ParseDuration "1.5s" = Ok 1500000000.
Proof. vm_compute. reflexivity. Qed.

Example ParseDuration_1h30ms : ParseDuration "-1h30ms" = Ok (-3600030000000).
Proof. vm_compute. reflexivity. Qed.

Example ParseDuration_fraction :
  ParseDuration "0.123456789h" = Ok 444444440400.
Proof. vm_compute. reflexivity. Qed.

Example ParseDuration_too_long :
  ParseDuration "9223372037s" =
    Err (ErrDuration InvalidDuration "9223372037s").
Proof. vm_compute. reflexivity. Qed.

Example ParseDuration_no_unit :
  ParseDuration "5" = Err (ErrDuration MissingUnit "5").
Proof. vm_compute. reflexivity. Qed.

Example Atoi_minus_five : Atoi "-5" = Ok (-5).
Proof. vm_compute. reflexivity. Qed.

Example Atoi_min : Atoi "-9223372036854775808" = Ok (-9223372036854775808).
Proof. vm_compute. reflexivity. Qed.

Example Atoi_above_max :
  Atoi "9223372036854775808" = Err (ErrNum ErrRange "9223372036854775808").
Proof. vm_compute. reflexivity. Qed.

Example Atoi_letters : Atoi "12a" = Err (ErrNum ErrSyntax "12a").
Proof. vm_compute. reflexivity. Qed.

Example Fields_blanks : Fields "  READ:  1 2	3 " = ["READ:"; "1"; "2"; "3"].
Proof. vm_compute. reflexivity. Qed.

Example Fields_no_break_space :
  Fields (String.append "a"
            (String (ascii_of_nat 194) (String (ascii_of_nat 160) "b")))
  = ["a"; "b"].
Proof. vm_compute. reflexivity. Qed.

Example TrimPrefix_statvers : TrimPrefix "statvers=1.1" "statvers=" = "1.1".
Proof. vm_compute. reflexivity. Qed.

Example TrimPrefix_absent : TrimPrefix "1.1" "statvers=" = "1.1".
Proof. vm_compute. reflexivity. Qed.

(** ** Arithmetic on 64 bits *)

Lemma wrap64_small (z : Z) : minInt64 <= z <= maxInt64 -> wrap64 z = z.
Proof.
  unfold wrap64, minInt64, maxInt64. intros H.
  rewrite Z.mod_small; lia.
Qed.

Lemma wrap64_range (z : Z) : minInt64 <= wrap64 z <= maxInt64.
Proof.
  unfold wrap64, minInt64, maxInt64.
  pose proof (Z.mod_pos_bound (z + 2 ^ 63) (2 ^ 64) ltac:(lia)). lia.
Qed.

Lemma wrap64_neg_min : wrap64 (- wrap64 (2 ^ 63)) = - 2 ^ 63.
Proof. reflexivity. Qed.

Lemma mulDuration_exact (n : Z) (unit : Duration) :
  minInt64 <= n * unit <= maxInt64 -> mulDuration n unit = n * unit.
Proof. apply wrap64_small. Qed.

(** ** strings.TrimPrefix and strings.TrimSuffix *)

Lemma substring_all (s : string) : String.substring 0 (String.length s) s = s.
Proof. induction s as [|c s IH]; cbn; [reflexivity | now rewrite IH]. Qed.

Lemma substring_prefix (x y : string) :
  String.substring 0 (String.length x) (String.append x y) = x.
Proof.
  induction x as [|c x IH]; cbn.
  - destruct y; reflexivity.
  - now rewrite IH.
Qed.

Lemma length_append (x y : string) :
  String.length (String.append x y) = (String.length x + String.length y)%nat.
Proof. induction x as [|c x IH]; cbn; [reflexivity | now rewrite IH]. Qed.

Lemma dropBytes_append (x y : string) :
  dropBytes (String.length x) (String.append x y) = y.
Proof.
  unfold dropBytes. induction x as [|c x IH]; cbn.
  - rewrite Nat.sub_0_r. apply substring_all.
  - exact IH.
Qed.

Lemma hasPrefix_append (x y : string) : hasPrefix (String.append x y) x = true.
Proof.
  induction x as [|c x IH]; cbn; [destruct y; reflexivity |].
  now rewrite Ascii.eqb_refl, IH.
Qed.

(** A string that starts with the prefix loses it. *)
Lemma TrimPrefix_append (x y : string) : TrimPrefix (String.append x y) x = y.
Proof.
  unfold TrimPrefix. rewrite hasPrefix_append. apply dropBytes_append.
Qed.

(** A string that ends with the suffix loses it. *)
Lemma TrimSuffix_append (x y : string) : TrimSuffix (String.append x y) y = x.
Proof.
  unfold TrimSuffix, hasSuffix. rewrite length_append.
  replace (String.length x + String.length y - String.length y)%nat
    with (String.length x) by lia.
  rewrite dropBytes_append, String.eqb_refl.
  replace (String.length y <=? String.length x + String.length y)%nat
    with true by (symmetry; apply Nat.leb_le; lia).
  cbn [andb]. apply substring_prefix.
Qed.

(** ** strconv.Atoi accepts the integer tokens and nothing else *)

Lemma isDigit_digitVal (c : ascii) :
  isDigit c = true -> 0 <= digitVal c <= 9.
Proof.
  unfold isDigit, digitVal. intros H.
  apply andb_true_iff in H. destruct H as [H1 H2].
  apply Z.leb_le in H1. apply Z.leb_le in H2. lia.
Qed.

Lemma decimalFrom_ge (s : string) :
  forall acc, 0 <= acc -> allDigits s = true -> acc <= decimalFrom acc s.
Proof.
  induction s as [|c rest IH]; intros acc Hacc Hd; simpl in *.
  - lia.
  - apply andb_true_iff in Hd. destruct Hd as [Hc Hrest].
    pose proof (isDigit_digitVal c Hc).
    specialize (IH (acc * 10 + digitVal c) ltac:(lia) Hrest). lia.
Qed.

(** The loop of [ParseUint] on digits: the decimal value, or the range
    error as soon as the value leaves 64 bits. *)
Lemma parseUintLoop_digits (s : string) :
  forall n, 0 <= n <= maxUint64 -> allDigits s = true ->
  parseUintLoop n s =
    if decimalFrom n s <=? maxUint64 then (decimalFrom n s, None)
    else (maxUint64, Some ErrRange).
Proof.
  induction s as [|c rest IH]; intros n Hn Hd;
    cbn [parseUintLoop allDigits decimalFrom] in *.
  - destruct (Z.leb_spec n maxUint64); [reflexivity | lia].
  - apply andb_true_iff in Hd. destruct Hd as [Hc Hrest]. rewrite Hc.
    pose proof (isDigit_digitVal c Hc) as Hdv.
    pose proof (decimalFrom_ge rest (n * 10 + digitVal c) ltac:(lia) Hrest)
      as Hge.
    unfold uintCutoff, maxUint64 in *.
    change ((2 ^ 64 - 1) / 10 + 1) with 1844674407370955162.
    destruct (Z.leb_spec 1844674407370955162 n) as [Hcut | Hcut].
    + destruct (Z.leb_spec (decimalFrom (n * 10 + digitVal c) rest)
                  (2 ^ 64 - 1)); [lia | reflexivity].
    + destruct (Z_lt_le_dec (n * 10 + digitVal c) (2 ^ 64)) as [Hs | Hb].
      * rewrite (Z.mod_small (n * 10 + digitVal c)) by lia.
        destruct (Z.ltb_spec (n * 10 + digitVal c) (n * 10)); [lia |].
        destruct (Z.ltb_spec (2 ^ 64 - 1) (n * 10 + digitVal c)); [lia |].
        cbn [orb]. apply IH; [lia | assumption].
      * assert (Hm : (n * 10 + digitVal c) mod 2 ^ 64
                     = n * 10 + digitVal c - 2 ^ 64).
        { symmetry. apply Z.mod_unique with (q := 1); lia. }
        rewrite Hm.
        destruct (Z.ltb_spec (n * 10 + digitVal c - 2 ^ 64) (n * 10));
          [| lia].
        cbn [orb].
        destruct (Z.leb_spec (decimalFrom (n * 10 + digitVal c) rest)
                    (2 ^ 64 - 1)); [lia | reflexivity].
Qed.

(** On anything else the loop ends in an error. *)
Lemma parseUintLoop_not_digits (s : string) :
  forall n, allDigits s = false ->
  parseUintLoop n s = (0, Some ErrSyntax)
  \/ parseUintLoop n s = (maxUint64, Some ErrRange).
Proof.
  induction s as [|c rest IH]; intros n Hd; simpl in *.
  - discriminate.
  - destruct (isDigit c) eqn:Hc; simpl in Hd.
    + destruct (uintCutoff <=? n); [right; reflexivity |].
      destruct (_ || _); [right; reflexivity |]. apply IH, Hd.
    + left; reflexivity.
Qed.

Lemma ParseUint_digits (ds : string) :
  ds <> EmptyString -> allDigits ds = true ->
  ParseUint ds =
    if decimal ds <=? maxUint64 then (decimal ds, None)
    else (maxUint64, Some ErrRange).
Proof.
  intros Hne Hd. destruct ds as [|c rest]; [congruence |].
  unfold ParseUint, decimal.
  apply parseUintLoop_digits; [unfold maxUint64; lia | assumption].
Qed.

Lemma ParseUint_not_digits (ds : string) :
  ds = EmptyString \/ allDigits ds = false ->
  ParseUint ds = (0, Some ErrSyntax)
  \/ ParseUint ds = (maxUint64, Some ErrRange).
Proof.
  intros [-> | Hd]; [left; reflexivity |].
  destruct ds as [|c rest]; [discriminate |].
  unfold ParseUint. apply parseUintLoop_not_digits, Hd.
Qed.

Lemma decimal_nonneg (ds : string) : allDigits ds = true -> 0 <= decimal ds.
Proof. intros Hd. apply decimalFrom_ge; [lia | assumption]. Qed.

(** The range check after [ParseUint]: a value exactly when the body is
    made of digits and its decimal value, with the sign, fits 64 bits. *)
Lemma checkIntRange_Ok (neg : bool) (s0 body : string) (n : Z) :
  checkIntRange neg s0 (ParseUint body) = Ok n <->
  body <> EmptyString /\ allDigits body = true /\
  (if neg then decimal body <= 2 ^ 63 /\ n = - decimal body
   else decimal body <= maxInt64 /\ n = decimal body).
Proof.
  destruct (string_dec body EmptyString) as [He | Hne].
  { subst body. split; [| intros [H _]; congruence].
    destruct neg; discriminate. }
  destruct (allDigits body) eqn:Hd.
  - rewrite (ParseUint_digits body Hne Hd).
    pose proof (decimal_nonneg body Hd) as H0.
    unfold maxUint64, maxInt64 in *.
    destruct (Z.leb_spec (decimal body) (2 ^ 64 - 1)) as [Hle | Hgt];
      cbn [checkIntRange].
    + destruct neg; cbn [negb andb].
      * destruct (Z.ltb_spec (2 ^ 63) (decimal body)) as [Hlt | Hge].
        -- split; [discriminate | intros (_ & _ & H & _); lia].
        -- assert (Hw : wrap64 (- wrap64 (decimal body)) = - decimal body).
           { destruct (Z.eq_dec (decimal body) (2 ^ 63)) as [-> | Hn].
             - apply wrap64_neg_min.
             - rewrite (wrap64_small (decimal body))
                 by (unfold minInt64, maxInt64; lia).
               apply wrap64_small. unfold minInt64, maxInt64; lia. }
           rewrite Hw. split.
           ++ intros [= <-]. repeat split; [assumption | lia].
           ++ intros (_ & _ & _ & ->). reflexivity.
      * destruct (Z.leb_spec (2 ^ 63) (decimal body)) as [Hge | Hlt].
        -- split; [discriminate | intros (_ & _ & H & _); lia].
        -- rewrite (wrap64_small (decimal body))
             by (unfold minInt64, maxInt64; lia).
           split.
           ++ intros [= <-]. repeat split; [assumption | lia].
           ++ intros (_ & _ & _ & ->). reflexivity.
    + change (2 ^ 63 <=? 2 ^ 64 - 1) with true.
      change (2 ^ 63 <? 2 ^ 64 - 1) with true.
      destruct neg; cbn [negb andb];
        (split; [discriminate | intros (_ & _ & H & _); lia]).
  - split; [| intros (_ & H & _); discriminate].
    destruct (ParseUint_not_digits body (or_intror Hd)) as [-> | ->];
      unfold maxUint64; cbn [checkIntRange];
      [discriminate |].
    change (2 ^ 63 <=? 2 ^ 64 - 1) with true.
    change (2 ^ 63 <? 2 ^ 64 - 1) with true.
    destruct neg; discriminate.
Qed.

Lemma isDigit_not_sign (c : ascii) :
  isDigit c = true -> Ascii.eqb c "+" = false /\ Ascii.eqb c "-" = false.
Proof.
  intros H. split.
  - destruct (Ascii.eqb_spec c "+") as [-> | _]; [discriminate | reflexivity].
  - destruct (Ascii.eqb_spec c "-") as [-> | _]; [discriminate | reflexivity].
Qed.

(** [strconv.Atoi] returns [n] exactly on the tokens that spell [n]. *)
Lemma Atoi_IntToken (s : string) (n : Z) : Atoi s = Ok n <-> IntToken s n.
Proof.
  unfold Atoi, ParseInt. split.
  - destruct s as [|c rest]; [discriminate |].
    destruct (Ascii.eqb_spec c "-") as [-> | Hm].
    + cbn [orb Ascii.eqb]. intros H.
      change (if (Ascii.eqb "-" "+" || true)%bool then rest
              else String "-" rest) with rest in H.
      apply checkIntRange_Ok in H. destruct H as (Hne & Hd & Hle & ->).
      now constructor.
    + destruct (Ascii.eqb_spec c "+") as [-> | Hp]; cbn [orb]; intros H;
        apply checkIntRange_Ok in H; destruct H as (Hne & Hd & Hle & ->);
        now constructor.
  - intros H. destruct H as [ds Hne Hd Hle | ds Hne Hd Hle | ds Hne Hd Hle].
    + destruct ds as [|c rest]; [congruence |].
      assert (Hc : isDigit c = true).
      { cbn [allDigits] in Hd. apply andb_true_iff in Hd. tauto. }
      destruct (isDigit_not_sign c Hc) as [-> ->]. cbn [orb].
      apply checkIntRange_Ok. auto.
    + change (checkIntRange false (String "+" ds) (ParseUint ds)
              = Ok (decimal ds)).
      apply checkIntRange_Ok. auto.
    + change (checkIntRange true (String "-" ds) (ParseUint ds)
              = Ok (- decimal ds)).
      apply checkIntRange_Ok. auto.
Qed.

Lemma Atoi_no_panic (s : string) (p : panic) : Atoi s <> Panic p.
Proof.
  unfold Atoi, ParseInt. destruct s as [|c rest]; [discriminate |].
  unfold checkIntRange. destruct (ParseUint _) as [un [[|]|]];
    try discriminate;
    destruct (_ && _); try discriminate; destruct (_ && _); discriminate.
Qed.

(** ** The loop of time.ParseDuration does not run out of fuel *)

Lemma leadingInt_length (s : string) :
  forall x v s1, leadingInt x s = Some (v, s1) ->
  (String.length s1 <= String.length s)%nat.
Proof.
  induction s as [|c r IH]; intros x v s1 H; cbn [leadingInt] in H.
  - injection H as _ <-. lia.
  - destruct (isDigit c).
    + destruct (_ <? x); [discriminate |].
      destruct (_ <? _); [discriminate |].
      apply IH in H. cbn [String.length]. lia.
    + injection H as _ <-. lia.
Qed.

Lemma leadingFraction_length (s : string) :
  forall x scale o,
  (String.length (snd (leadingFraction x scale o s)) <= String.length s)%nat.
Proof.
  induction s as [|c r IH]; intros x scale o; cbn [leadingFraction].
  - cbn. lia.
  - cbn [String.length].
    destruct (isDigit c); [| cbn; lia].
    destruct o; [specialize (IH x scale true); lia |].
    destruct (_ <? x); [specialize (IH x scale true); lia |].
    destruct (_ <? _); [specialize (IH x scale true); lia |].
    match goal with
    | |- context [leadingFraction ?a ?b ?c r] => specialize (IH a b c); lia
    end.
Qed.

Lemma splitUnit_length (s : string) :
  (String.length (fst (splitUnit s)) + String.length (snd (splitUnit s))
   = String.length s)%nat.
Proof.
  induction s as [|c r IH]; cbn [splitUnit]; [reflexivity |].
  destruct (_ || _); [reflexivity |].
  destruct (splitUnit r) as [u rem]. cbn [fst snd String.length] in *. lia.
Qed.

(** One turn of the loop takes a unit, at least, off the string. *)
Lemma parseDurationTerm_length (orig s : string) (d d' : Z) (s3 : string) :
  parseDurationTerm orig s d = Ok (d', s3) ->
  (String.length s3 < String.length s)%nat.
Proof.
  unfold parseDurationTerm. destruct s as [|c0 s0]; [discriminate |].
  destruct (negb _); [discriminate |].
  destruct (leadingInt 0 (String c0 s0)) as [[v s1] |] eqn:Hli;
    [| discriminate].
  apply leadingInt_length in Hli.
  assert (G : forall (f : Z) (scale : float64) (s2 : string) (post : bool),
             (String.length s2 <= String.length s1)%nat ->
             (if negb (negb (String.length (String c0 s0)
                             =? String.length s1)%nat) && negb post
              then Err (ErrDuration InvalidDuration orig)
              else
                let '(u, s3) := splitUnit s2 in
                match u with
                | EmptyString => Err (ErrDuration MissingUnit orig)
                | String _ _ =>
                    match unitMap u with
                    | None => Err (ErrDuration (UnknownUnit u) orig)
                    | Some unit =>
                        if 2 ^ 63 / unit <? v
                        then Err (ErrDuration InvalidDuration orig)
                        else
                          v0 <- (let v0 := v * unit in
                                 if 0 <? f then
                                   let v1 :=
                                     (v0 + f64toUint
                                             (f64mul (f64ofZ f)
                                                (f64div (f64ofZ unit) scale)))
                                     mod 2 ^ 64 in
                                   if 2 ^ 63 <? v1
                                   then Err (ErrDuration InvalidDuration orig)
                                   else Ok v1
                                 else Ok v0) ;;
                          (let d0 := (d + v0) mod 2 ^ 64 in
                           if 2 ^ 63 <? d0
                           then Err (ErrDuration InvalidDuration orig)
                           else Ok (d0, s3))
                    end
                end) = Ok (d', s3) ->
             (String.length s3 < String.length (String c0 s0))%nat).
  { intros f scale s2 post Hs2 H.
    destruct (_ && _); [discriminate |].
    pose proof (splitUnit_length s2) as Hsu.
    destruct (splitUnit s2) as [u rem]. cbn [fst snd] in Hsu.
    destruct u as [|cu u']; [discriminate |].
    destruct (unitMap _); [| discriminate].
    destruct (_ <? v); [discriminate |].
    cbv zeta in H.
    destruct (0 <? f).
    - destruct (_ <? _); [discriminate |]. cbn [bind] in H.
      destruct (_ <? _); [discriminate |]. injection H as _ <-.
      cbn [String.length] in *. lia.
    - cbn [bind] in H.
      destruct (_ <? _); [discriminate |]. injection H as _ <-.
      cbn [String.length] in *. lia. }
  destruct s1 as [|c1 s1'].
  - apply G. lia.
  - destruct (Ascii.eqb c1 ".").
    + pose proof (leadingFraction_length s1' 0 (f64ofZ 1) false) as Hlf.
      destruct (leadingFraction 0 (f64ofZ 1) false s1') as [[f scale] s2].
      apply G. cbn [snd String.length] in *. lia.
    + apply G. lia.
Qed.

Lemma parseDurationLoop_fuel (orig : string) (f1 : nat) :
  forall f2 s d,
  (String.length s < f1)%nat -> (String.length s < f2)%nat ->
  parseDurationLoop f1 orig s d = parseDurationLoop f2 orig s d.
Proof.
  induction f1 as [|f1 IH]; intros f2 s d H1 H2; [lia |].
  destruct f2 as [|f2]; [lia |].
  destruct s as [|c r]; [reflexivity |].
  cbn [parseDurationLoop].
  destruct (parseDurationTerm orig (String c r) d) as [[d' s3] | |] eqn:Ht;
    cbn [bind fst snd]; try reflexivity.
  apply parseDurationTerm_length in Ht.
  apply IH; lia.
Qed.

(** ** The conversion loop of the decoders *)

Lemma atoiLoop_Ok (ss : list string) :
  forall acc vs, Forall2 (fun s n => Atoi s = Ok n) ss vs ->
  atoiLoop ss acc = Ok (acc ++ vs).
Proof.
  induction ss as [|s rest IH]; intros acc vs H; inversion H; subst;
    cbn [atoiLoop].
  - now rewrite app_nil_r.
  - match goal with Hs : Atoi s = Ok _ |- _ => rewrite Hs end.
    cbn [bind]. erewrite IH by eassumption.
    now rewrite <- app_assoc.
Qed.

Lemma atoiLoop_inv (ss : list string) :
  forall acc r, atoiLoop ss acc = Ok r ->
  exists vs, Forall2 (fun s n => Atoi s = Ok n) ss vs /\ r = acc ++ vs.
Proof.
  induction ss as [|s rest IH]; intros acc r H; cbn [atoiLoop] in H.
  - injection H as <-. exists []. split; [constructor | now rewrite app_nil_r].
  - destruct (Atoi s) as [n | e | p] eqn:Hs; cbn [bind] in H;
      try discriminate.
    destruct (IH _ _ H) as (vs & Hvs & ->).
    exists (n :: vs). split; [now constructor | now rewrite <- app_assoc].
Qed.

Lemma atoiLoop_no_panic (ss : list string) :
  forall acc p, atoiLoop ss acc <> Panic p.
Proof.
  induction ss as [|s rest IH]; intros acc p; cbn [atoiLoop].
  - discriminate.
  - destruct (Atoi s) as [n | e | q] eqn:Hs; cbn [bind].
    + apply IH.
    + discriminate.
    + now apply Atoi_no_panic in Hs.
Qed.

(** A token that is no integer stops the loop with the error of
    [strconv.Atoi]. *)
Lemma atoiLoop_Err (ss : list string) :
  forall acc, Exists (fun s => forall n, ~ IntToken s n) ss ->
  exists e, atoiLoop ss acc = Err e.
Proof.
  intros acc Hex.
  destruct (atoiLoop ss acc) as [r | e | p] eqn:H.
  - exfalso. apply atoiLoop_inv in H. destruct H as (vs & Hvs & _).
    clear acc r. induction Hvs as [|s n ss' vs' Hs _ IH].
    + inversion Hex.
    + inversion Hex as [? ? Hbad | ? ? Hrest]; subst.
      * apply (Hbad n). now apply Atoi_IntToken.
      * now apply IH.
  - now exists e.
  - now apply atoiLoop_no_panic in H.
Qed.

Lemma IntTokens_Atoi (ss : list string) (ns : list Z) :
  IntTokens ss ns <-> Forall2 (fun s n => Atoi s = Ok n) ss ns.
Proof.
  unfold IntTokens. split; intros H; induction H; constructor;
    try assumption; now apply Atoi_IntToken.
Qed.

Lemma atoiLoop_IntTokens (ss : list string) (ns : list Z) :
  IntTokens ss ns -> atoiLoop ss [] = Ok ns.
Proof. intros H. apply IntTokens_Atoi in H. apply (atoiLoop_Ok ss [] ns H). Qed.

Lemma atoiLoop_IntTokens_inv (ss : list string) (ns : list Z) :
  atoiLoop ss [] = Ok ns -> IntTokens ss ns.
Proof.
  intros H. apply atoiLoop_inv in H. destruct H as (vs & Hvs & ->).
  now apply IntTokens_Atoi.
Qed.

Lemma IntTokens_length (ss : list string) (ns : list Z) :
  IntTokens ss ns -> List.length ns = List.length ss.
Proof. intros H. symmetry. exact (Forall2_length H). Qed.

(** ** The byte-counters decoder *)

Lemma parseNFSBytesStats_Ok (ss : list string) (ns : list Z) :
  List.length ss = 8%nat -> IntTokens ss ns ->
  parseNFSBytesStats ss = Ok (bytesOfInts ns).
Proof.
  intros Hlen Hns. unfold parseNFSBytesStats, fieldBytesLen.
  rewrite Hlen. cbn [Nat.eqb negb].
  rewrite (atoiLoop_IntTokens ss ns Hns). cbn [bind].
  apply IntTokens_length in Hns. rewrite Hlen in Hns.
  destruct_length ns Hns. reflexivity.
Qed.

Lemma parseNFSBytesStats_inv (ss : list string) (r : NFSBytesStats) :
  parseNFSBytesStats ss = Ok r ->
  List.length ss = 8%nat /\ exists ns, IntTokens ss ns /\ r = bytesOfInts ns.
Proof.
  unfold parseNFSBytesStats, fieldBytesLen. intros H.
  destruct (Nat.eqb_spec (List.length ss) 8) as [Hlen | Hlen];
    cbn [negb] in H; [| discriminate].
  split; [assumption |].
  destruct (atoiLoop ss []) as [ns | e | p] eqn:Hloop; cbn [bind] in H;
    try discriminate.
  apply atoiLoop_IntTokens_inv in Hloop. exists ns. split; [assumption |].
  pose proof (IntTokens_length ss ns Hloop) as Hl. rewrite Hlen in Hl.
  destruct_length ns Hl. cbn in H. now injection H as <-.
Qed.

Lemma parseNFSBytesStats_length (ss : list string) :
  List.length ss <> 8%nat ->
  parseNFSBytesStats ss = Err (ErrInvalidNFSBytesStats ss).
Proof.
  intros Hlen. unfold parseNFSBytesStats, fieldBytesLen.
  destruct (Nat.eqb_spec (List.length ss) 8); [contradiction | reflexivity].
Qed.

(** C8.  The byte-counters decoder succeeds exactly on 8 integer tokens;
    it then maps them, in order, to Read, Write, DirectRead, DirectWrite,
    ReadTotal, WriteTotal, ReadPages, WritePages; on any other number of
    tokens it fails with the invalid bytes stats error. *)
Theorem parseNFSBytesStats_eight_ints (ss : list string) :
  ((exists r, parseNFSBytesStats ss = Ok r) <->
   (List.length ss = 8%nat /\ exists ns, IntTokens ss ns))
  /\ (forall ns, List.length ss = 8%nat -> IntTokens ss ns ->
      parseNFSBytesStats ss =
        Ok {| Read := nth 0 ns 0; Write := nth 1 ns 0;
              DirectRead := nth 2 ns 0; DirectWrite := nth 3 ns 0;
              ReadTotal := nth 4 ns 0; WriteTotal := nth 5 ns 0;
              ReadPages := nth 6 ns 0; WritePages := nth 7 ns 0 |})
  /\ (List.length ss <> 8%nat ->
      parseNFSBytesStats ss = Err (ErrInvalidNFSBytesStats ss)).
Proof.
  split; [| split].
  - split.
    + intros [r H]. apply parseNFSBytesStats_inv in H.
      destruct H as (Hlen & ns & Hns & _). eauto.
    + intros (Hlen & ns & Hns). eexists.
      apply (parseNFSBytesStats_Ok ss ns Hlen Hns).
  - intros ns Hlen Hns. apply (parseNFSBytesStats_Ok ss ns Hlen Hns).
  - apply parseNFSBytesStats_length.
Qed.

Lemma parseNFSBytesStats_eight_ints_witness :
  parseNFSBytesStats ["1"; "2"; "3"; "4"; "5"; "6"; "7"; "8"] =
    Ok {| Read := 1; Write := 2; DirectRead := 3; DirectWrite := 4;
          ReadTotal := 5; WriteTotal := 6; ReadPages := 7; WritePages := 8 |}
  /\ parseNFSBytesStats ["1"; "2"; "3"] =
       Err (ErrInvalidNFSBytesStats ["1"; "2"; "3"]).
Proof.
  split.
  - apply (proj1 (proj2 (parseNFSBytesStats_eight_ints
                           ["1"; "2"; "3"; "4"; "5"; "6"; "7"; "8"]))
             [1; 2; 3; 4; 5; 6; 7; 8]).
    + reflexivity.
    + apply IntTokens_Atoi. repeat constructor.
  - apply (proj2 (proj2 (parseNFSBytesStats_eight_ints ["1"; "2"; "3"]))).
    cbn [List.length]. lia.
Defined.

(** ** The event-counters decoder *)

Lemma parseNFSEventsStats_Ok (ss : list string) (ns : list Z) :
  List.length ss = 27%nat -> IntTokens ss ns ->
  parseNFSEventsStats ss = Ok (eventsOfInts ns).
Proof.
  intros Hlen Hns. unfold parseNFSEventsStats, fieldEventsLen.
  rewrite Hlen. cbn [Nat.eqb negb].
  rewrite (atoiLoop_IntTokens ss ns Hns). cbn [bind].
  apply IntTokens_length in Hns. rewrite Hlen in Hns.
  destruct_length ns Hns. reflexivity.
Qed.

(** ** The transport-counters decoder *)

Lemma parseNFSTransportStats_11_Ok (ss : list string) (ns : list Z) :
  List.length ss = 13%nat -> IntTokens ss ns ->
  parseNFSTransportStats ss "1.1" = Ok (transportOfInts ns).
Proof.
  intros Hlen Hns. unfold parseNFSTransportStats, fieldTransport11Len.
  change (String.eqb "1.1" statVersion10) with false.
  change (String.eqb "1.1" statVersion11) with true.
  rewrite Hlen. cbn [Nat.eqb negb bind].
  rewrite (atoiLoop_IntTokens ss ns Hns). cbn [bind].
  apply IntTokens_length in Hns. rewrite Hlen in Hns.
  destruct_length ns Hns. reflexivity.
Qed.

Lemma parseNFSTransportStats_11_length (ss : list string) :
  List.length ss <> 13%nat ->
  parseNFSTransportStats ss "1.1" = Err (ErrInvalidNFSTransportStats11 ss).
Proof.
  intros Hlen. unfold parseNFSTransportStats, fieldTransport11Len.
  change (String.eqb "1.1" statVersion10) with false.
  change (String.eqb "1.1" statVersion11) with true.
  destruct (Nat.eqb_spec (List.length ss) 13); [contradiction | reflexivity].
Qed.

Lemma parseNFSTransportStats_10_length (ss : list string) :
  List.length ss <> 10%nat ->
  parseNFSTransportStats ss "1.0" = Err (ErrInvalidNFSTransportStats10 ss).
Proof.
  intros Hlen. unfold parseNFSTransportStats, fieldTransport10Len.
  change (String.eqb "1.0" statVersion10) with true.
  destruct (Nat.eqb_spec (List.length ss) 10); [contradiction | reflexivity].
Qed.

(** Ten integers under version 1.0: [ns] has length 10, and [ns[10]]
    is out of range. *)
Lemma parseNFSTransportStats_10_ints (ss : list string) (ns : list Z) :
  List.length ss = 10%nat -> IntTokens ss ns ->
  parseNFSTransportStats ss "1.0" = Panic (IndexOutOfRange 10 10).
Proof.
  intros Hlen Hns. unfold parseNFSTransportStats, fieldTransport10Len.
  change (String.eqb "1.0" statVersion10) with true.
  rewrite Hlen. cbn [Nat.eqb negb bind].
  rewrite (atoiLoop_IntTokens ss ns Hns). cbn [bind].
  apply IntTokens_length in Hns. rewrite Hlen in Hns.
  destruct_length ns Hns. reflexivity.
Qed.

Lemma parseNFSTransportStats_version (ss : list string) (v : string) :
  v <> "1.0" -> v <> "1.1" ->
  parseNFSTransportStats ss v = Err (ErrUnrecognizedTransportVersion v).
Proof.
  intros H10 H11. unfold parseNFSTransportStats, statVersion10, statVersion11.
  destruct (String.eqb_spec v "1.0"); [contradiction |].
  destruct (String.eqb_spec v "1.1"); [contradiction |].
  reflexivity.
Qed.

(** C1.  What the transport decoder does with each version.  Under
    version "1.0" it asks for exactly 10 tokens, and on 10 integer
    tokens it does not return: the slice of integers has length 10 and
    the decoder reads its elements 10, 11 and 12, which is an index out
    of range.  Under version "1.1" it asks for exactly 13 tokens and
    decodes them; any other version string is the unrecognized version
    error. *)
Theorem parseNFSTransportStats_by_version (ss : list string) :
  (forall ns, List.length ss = 10%nat -> IntTokens ss ns ->
   parseNFSTransportStats ss "1.0" = Panic (IndexOutOfRange 10 10))
  /\ (List.length ss <> 10%nat ->
      parseNFSTransportStats ss "1.0" = Err (ErrInvalidNFSTransportStats10 ss))
  /\ (forall ns, List.length ss = 13%nat -> IntTokens ss ns ->
      parseNFSTransportStats ss "1.1" =
        Ok {| Port := nth 0 ns 0; Bind := nth 1 ns 0; Connect := nth 2 ns 0;
              ConnectIdleTime := nth 3 ns 0;
              IdleTime := mulDuration (nth 4 ns 0) Second;
              Sends := nth 5 ns 0; Receives := nth 6 ns 0;
              BadTransactionIDs := nth 7 ns 0;
              CumulativeActiveRequests := nth 8 ns 0;
              CumulativeBacklog := nth 9 ns 0;
              MaximumRPCSlotsUsed := nth 10 ns 0;
              CumulativeSendingQueue := nth 11 ns 0;
              CumulativePendingQueue := nth 12 ns 0 |})
  /\ (List.length ss <> 13%nat ->
      parseNFSTransportStats ss "1.1" = Err (ErrInvalidNFSTransportStats11 ss))
  /\ (forall v, v <> "1.0" -> v <> "1.1" ->
      parseNFSTransportStats ss v = Err (ErrUnrecognizedTransportVersion v)).
Proof.
  repeat split.
  - intros ns. apply parseNFSTransportStats_10_ints.
  - apply parseNFSTransportStats_10_length.
  - intros ns Hlen Hns. apply (parseNFSTransportStats_11_Ok ss ns Hlen Hns).
  - apply parseNFSTransportStats_11_length.
  - intros v. apply parseNFSTransportStats_version.
Qed.

Lemma parseNFSTransportStats_by_version_witness :
  parseNFSTransportStats
    ["1"; "2"; "3"; "4"; "5"; "6"; "7"; "8"; "9"; "10"] "1.0"
  = Panic (IndexOutOfRange 10 10)
  /\ parseNFSTransportStats
       ["1"; "2"; "3"; "4"; "5"; "6"; "7"; "8"; "9"; "10"] "2.0"
     = Err (ErrUnrecognizedTransportVersion "2.0").
Proof.
  split.
  - apply (proj1 (parseNFSTransportStats_by_version
                    ["1"; "2"; "3"; "4"; "5"; "6"; "7"; "8"; "9"; "10"])
             [1; 2; 3; 4; 5; 6; 7; 8; 9; 10]).
    + reflexivity.
    + apply IntTokens_Atoi. repeat constructor.
  - apply (proj2 (proj2 (proj2 (proj2 (parseNFSTransportStats_by_version
             ["1"; "2"; "3"; "4"; "5"; "6"; "7"; "8"; "9"; "10"]))))
             "2.0"); discriminate.
Defined.

(** ** The per-operation parser *)

Lemma parseNFSOperationLine_Ok (name : string) (toks : list string)
    (ns : list Z) :
  List.length toks = 8%nat -> IntTokens toks ns ->
  parseNFSOperationLine (name :: toks) = Ok (operationOfInts name ns).
Proof.
  intros Hlen Hns. unfold parseNFSOperationLine.
  cbn [sliceFrom List.length Nat.leb skipn bind].
  rewrite (atoiLoop_IntTokens toks ns Hns). cbn [bind].
  apply IntTokens_length in Hns. rewrite Hlen in Hns.
  destruct_length ns Hns. reflexivity.
Qed.

(** A line of nine fields, the last eight integers, adds its record to
    [ops] and the loop goes on. *)
Lemma operationStatsLoop_line (s : Scanner) (l : string) (rest : list string)
    (ops : list NFSOperationStats) (name : string) (toks : list string)
    (ns : list Z) :
  Fields l = name :: toks -> List.length toks = 8%nat -> IntTokens toks ns ->
  operationStatsLoop s (l :: rest) ops
  = operationStatsLoop s rest (ops ++ [operationOfInts name ns]).
Proof.
  intros Hf Hlen Hns. cbn [operationStatsLoop]. rewrite Hf.
  cbn [List.length]. rewrite Hlen. cbn [Nat.eqb negb numFields].
  now rewrite (parseNFSOperationLine_Ok name toks ns Hlen Hns).
Qed.

(** The records already in [ops] stay in front of what the loop adds. *)
Lemma operationStatsLoop_acc (s : Scanner) (lines : list string) :
  forall ops v s',
  operationStatsLoop s lines [] = Returned v None s' ->
  operationStatsLoop s lines ops = Returned (ops ++ v) None s'.
Proof.
  assert (G : forall ops0 ops v s',
             operationStatsLoop s lines ops0 = Returned v None s' ->
             exists w, v = ops0 ++ w /\
               operationStatsLoop s lines ops = Returned (ops ++ w) None s').
  { induction lines as [|l rest IH]; intros ops0 ops v s' H;
      cbn [operationStatsLoop] in *.
    - injection H as <- He <-. exists []. rewrite !app_nil_r, He. auto.
    - destruct (List.length (Fields l) =? 0)%nat.
      + injection H as <- He <-. exists []. rewrite !app_nil_r, He. auto.
      + destruct (negb _); [discriminate |].
        destruct (parseNFSOperationLine (Fields l)) as [op | e | p];
          try discriminate.
        destruct (IH _ (ops ++ [op]) _ _ H) as (w & -> & Hw).
        exists (op :: w). rewrite <- !app_assoc in *. auto. }
  intros ops v s' H. destruct (G [] ops v s' H) as (w & -> & Hw). exact Hw.
Qed.

Lemma operationStatsLoop_bad_count (s : Scanner) (l : string)
    (rest : list string) (ops : list NFSOperationStats) :
  Fields l <> [] -> List.length (Fields l) <> 9%nat ->
  operationStatsLoop s (l :: rest) ops
  = Returned [] (Some (ErrInvalidNFSPerOpStats (Fields l)))
      (withPending s rest).
Proof.
  intros Hne Hlen. cbn [operationStatsLoop].
  destruct (Fields l) as [|t ts] eqn:Hf; [congruence |].
  cbn [List.length Nat.eqb numFields] in *.
  destruct (Nat.eqb_spec (List.length ts) 8) as [E | _];
    [lia | reflexivity].
Qed.

Lemma operationStatsLoop_withPending (s : Scanner) (x lines : list string) :
  forall ops,
  operationStatsLoop (withPending s x) lines ops
  = operationStatsLoop s lines ops.
Proof.
  induction lines as [|l rest IH]; intros ops; cbn [operationStatsLoop].
  - reflexivity.
  - destruct (List.length (Fields l) =? 0)%nat; [reflexivity |].
    destruct (negb _); [reflexivity |].
    destruct (parseNFSOperationLine (Fields l)); [apply IH | | ]; reflexivity.
Qed.

(** C3.  A line of nine fields whose last eight are integers adds one
    record to what the per-operation parser returns: its name is field 0
    without a trailing colon, its five counters are the first five
    integers, and its three durations are the last three integers times
    a millisecond (64-bit multiplication: exactly [n] milliseconds
    whenever [n] milliseconds fit a duration).  The line
    [READ: 1 2 3 4 5 6 7 8] is an instance.  A non-blank line with another
    number of fields is the invalid per-operations stats error. *)
Theorem parseNFSOperationStats_line (s : Scanner) (l : string)
    (rest : list string) :
  pending s = l :: rest ->
  (forall name toks ns more s',
     Fields l = name :: toks -> List.length toks = 8%nat ->
     IntTokens toks ns ->
     parseNFSOperationStats (withPending s rest) = Returned more None s' ->
     parseNFSOperationStats s =
       Returned
         ({| Operation := TrimSuffix name ":";
             Requests := nth 0 ns 0; Transmissions := nth 1 ns 0;
             MajorTimeouts := nth 2 ns 0; BytesSent := nth 3 ns 0;
             BytesReceived := nth 4 ns 0;
             CumulativeQueueTime := mulDuration (nth 5 ns 0) Millisecond;
             CumulativeTotalResponseTime :=
               mulDuration (nth 6 ns 0) Millisecond;
             CumulativeTotalRequestTime :=
               mulDuration (nth 7 ns 0) Millisecond |} :: more)
         None s')
  /\ (forall x, TrimSuffix (String.append x ":") ":" = x)
  /\ (forall n, -9223372036854 <= n <= 9223372036854 ->
      mulDuration n Millisecond = n * 1000000)
  /\ parseNFSOperationStats (scannerOf ["READ: 1 2 3 4 5 6 7 8"]) =
       Returned
         [{| Operation := "READ"; Requests := 1; Transmissions := 2;
             MajorTimeouts := 3; BytesSent := 4; BytesReceived := 5;
             CumulativeQueueTime := 6 * Millisecond;
             CumulativeTotalResponseTime := 7 * Millisecond;
             CumulativeTotalRequestTime := 8 * Millisecond |}]
         None (scannerOf [])
  /\ (Fields l <> [] -> List.length (Fields l) <> 9%nat ->
      parseNFSOperationStats s =
        Returned [] (Some (ErrInvalidNFSPerOpStats (Fields l)))
          (withPending s rest)).
Proof.
  intros Hp. unfold parseNFSOperationStats. rewrite Hp.
  split; [| split; [| split; [| split]]].
  - intros name toks ns more s' Hf Hlen Hns Hrest.
    cbn [withPending pending] in Hrest.
    rewrite operationStatsLoop_withPending in Hrest.
    rewrite (operationStatsLoop_line s l rest [] name toks ns Hf Hlen Hns).
    exact (operationStatsLoop_acc s rest [operationOfInts name ns] _ _ Hrest).
  - intros x. apply TrimSuffix_append.
  - intros n Hn. apply mulDuration_exact.
    unfold minInt64, maxInt64, Millisecond, Microsecond, Nanosecond. lia.
  - reflexivity.
  - intros Hne Hlen. now apply operationStatsLoop_bad_count.
Qed.

Lemma parseNFSOperationStats_line_witness :
  parseNFSOperationStats (scannerOf ["WRITE: 1 2 3 4 5 -6 7 8"; ""; "x"]) =
    Returned
      [{| Operation := "WRITE"; Requests := 1; Transmissions := 2;
          MajorTimeouts := 3; BytesSent := 4; BytesReceived := 5;
          CumulativeQueueTime := -6000000;
          CumulativeTotalResponseTime := 7000000;
          CumulativeTotalRequestTime := 8000000 |}]
      None (scannerOf ["x"])
  /\ parseNFSOperationStats (scannerOf ["READ: 1 2 3"; ""]) =
       Returned [] (Some (ErrInvalidNFSPerOpStats ["READ:"; "1"; "2"; "3"]))
         (scannerOf [""]).
Proof.
  split.
  - apply (proj1 (parseNFSOperationStats_line
                    (scannerOf ["WRITE: 1 2 3 4 5 -6 7 8"; ""; "x"])
                    "WRITE: 1 2 3 4 5 -6 7 8" [""; "x"] eq_refl)
             "WRITE:" ["1"; "2"; "3"; "4"; "5"; "-6"; "7"; "8"]
             [1; 2; 3; 4; 5; -6; 7; 8] [] (scannerOf ["x"])).
    + reflexivity.
    + reflexivity.
    + apply IntTokens_Atoi. repeat constructor.
    + reflexivity.
  - apply (proj2 (proj2 (proj2 (proj2 (parseNFSOperationStats_line
             (scannerOf ["READ: 1 2 3"; ""]) "READ: 1 2 3" [""] eq_refl))))).
    + vm_compute. discriminate.
    + vm_compute. lia.
Defined.

(** ** Signed tokens *)

(** C9.  The decoders read their integers with [strconv.Atoi], which
    takes a leading minus sign: a minus sign and digits spell the
    negative number (down to -2^63), and the bytes, events, transport and
    per-operation decoders store the integers their tokens spell, negative
    ones as well; with the token "-5" everywhere the counters are -5 and
    the durations -5 seconds and -5 milliseconds. *)
Theorem decoders_accept_signed_tokens :
  (forall ds, ds <> EmptyString -> allDigits ds = true ->
     0 < decimal ds <= 2 ^ 63 ->
     Atoi (String "-" ds) = Ok (- decimal ds) /\ - decimal ds < 0)
  /\ (forall ss ns, List.length ss = 8%nat -> IntTokens ss ns ->
      parseNFSBytesStats ss = Ok (bytesOfInts ns))
  /\ (forall ss ns, List.length ss = 27%nat -> IntTokens ss ns ->
      parseNFSEventsStats ss = Ok (eventsOfInts ns))
  /\ (forall ss ns, List.length ss = 13%nat -> IntTokens ss ns ->
      parseNFSTransportStats ss "1.1" = Ok (transportOfInts ns))
  /\ (forall name toks ns, List.length toks = 8%nat -> IntTokens toks ns ->
      parseNFSOperationLine (name :: toks) = Ok (operationOfInts name ns))
  /\ parseNFSBytesStats (repeat "-5" 8) = Ok (bytesOfInts (repeat (-5) 8))
  /\ parseNFSEventsStats (repeat "-5" 27) = Ok (eventsOfInts (repeat (-5) 27))
  /\ parseNFSTransportStats (repeat "-5" 13) "1.1" =
       Ok {| Port := -5; Bind := -5; Connect := -5; ConnectIdleTime := -5;
             IdleTime := -5 * Second; Sends := -5; Receives := -5;
             BadTransactionIDs := -5; CumulativeActiveRequests := -5;
             CumulativeBacklog := -5; MaximumRPCSlotsUsed := -5;
             CumulativeSendingQueue := -5; CumulativePendingQueue := -5 |}
  /\ parseNFSOperationLine ("READ:" :: repeat "-5" 8) =
       Ok {| Operation := "READ"; Requests := -5; Transmissions := -5;
             MajorTimeouts := -5; BytesSent := -5; BytesReceived := -5;
             CumulativeQueueTime := -5 * Millisecond;
             CumulativeTotalResponseTime := -5 * Millisecond;
             CumulativeTotalRequestTime := -5 * Millisecond |}.
Proof.
  repeat split.
  - apply Atoi_IntToken. constructor; [assumption | assumption | lia].
  - lia.
  - apply parseNFSBytesStats_Ok; assumption.
  - apply parseNFSEventsStats_Ok; assumption.
  - apply parseNFSTransportStats_11_Ok; assumption.
  - apply parseNFSOperationLine_Ok; assumption.
Qed.

Lemma decoders_accept_signed_tokens_witness :
  Atoi "-5" = Ok (-5)
  /\ parseNFSBytesStats ["-1"; "2"; "-3"; "4"; "5"; "6"; "7"; "-8"] =
       Ok {| Read := -1; Write := 2; DirectRead := -3; DirectWrite := 4;
             ReadTotal := 5; WriteTotal := 6; ReadPages := 7;
             WritePages := -8 |}
  /\ parseNFSOperationLine
       ["GETATTR:"; "1"; "2"; "3"; "4"; "5"; "-6"; "-7"; "-8"] =
       Ok {| Operation := "GETATTR"; Requests := 1; Transmissions := 2;
             MajorTimeouts := 3; BytesSent := 4; BytesReceived := 5;
             CumulativeQueueTime := -6000000;
             CumulativeTotalResponseTime := -7000000;
             CumulativeTotalRequestTime := -8000000 |}
  /\ parseNFSEventsStats
       ["-1"; "2"; "3"; "4"; "5"; "6"; "7"; "8"; "9"; "10"; "11"; "12"; "13";
        "14"; "15"; "16"; "17"; "18"; "19"; "20"; "21"; "22"; "23"; "24";
        "25"; "26"; "-27"] =
       Ok (eventsOfInts
             [-1; 2; 3; 4; 5; 6; 7; 8; 9; 10; 11; 12; 13; 14; 15; 16; 17; 18;
              19; 20; 21; 22; 23; 24; 25; 26; -27])
  /\ parseNFSTransportStats
       ["1"; "2"; "3"; "4"; "-5"; "6"; "7"; "8"; "9"; "10"; "11"; "12";
        "-13"] "1.1" =
       Ok (transportOfInts [1; 2; 3; 4; -5; 6; 7; 8; 9; 10; 11; 12; -13]).
Proof.
  split; [| split; [| split; [| split]]].
  - apply (proj1 decoders_accept_signed_tokens "5");
      [discriminate | reflexivity | vm_compute; split; [reflexivity | discriminate]].
  - apply (proj1 (proj2 decoders_accept_signed_tokens)
             ["-1"; "2"; "-3"; "4"; "5"; "6"; "7"; "-8"]
             [-1; 2; -3; 4; 5; 6; 7; -8]).
    + reflexivity.
    + apply IntTokens_Atoi. repeat constructor.
  - apply (proj1 (proj2 (proj2 (proj2 (proj2 decoders_accept_signed_tokens))))
             "GETATTR:" ["1"; "2"; "3"; "4"; "5"; "-6"; "-7"; "-8"]
             [1; 2; 3; 4; 5; -6; -7; -8]).
    + reflexivity.
    + apply IntTokens_Atoi. repeat constructor.
  - apply (proj1 (proj2 (proj2 decoders_accept_signed_tokens))).
    + reflexivity.
    + apply IntTokens_Atoi. repeat constructor.
  - apply (proj1 (proj2 (proj2 (proj2 decoders_accept_signed_tokens)))).
    + reflexivity.
    + apply IntTokens_Atoi. repeat constructor.
Defined.

(** ** The device-line parser *)

Lemma parseMount_short (ss : list string) :
  (List.length ss < 8)%nat -> parseMount ss = Err (ErrInvalidDeviceEntry ss).
Proof.
  intros H. unfold parseMount, deviceEntryLen.
  destruct (Nat.ltb_spec (List.length ss) 8); [reflexivity | lia].
Qed.

(** On eight tokens or more the result is decided by the five anchors. *)
Lemma parseMount_long (a0 a1 a2 a3 a4 a5 a6 a7 : string) (tl : list string) :
  parseMount (a0 :: a1 :: a2 :: a3 :: a4 :: a5 :: a6 :: a7 :: tl) =
    if String.eqb a0 "device" && String.eqb a2 "mounted"
       && String.eqb a3 "on" && String.eqb a5 "with"
       && String.eqb a6 "fstype"
    then Ok {| Device := a1; MountPoint := a4; Type_ := a7; Stats := None |}
    else Err (ErrInvalidDeviceEntry
                (a0 :: a1 :: a2 :: a3 :: a4 :: a5 :: a6 :: a7 :: tl)).
Proof.
  unfold parseMount, deviceEntryLen.
  replace (List.length (a0 :: a1 :: a2 :: a3 :: a4 :: a5 :: a6 :: a7 :: tl)
           <? 8)%nat with false
    by (symmetry; apply Nat.ltb_ge; cbn [List.length]; lia).
  cbn [format checkFormat index nth_error bind].
  destruct (String.eqb a0 "device"); cbn [negb andb bind]; [| reflexivity].
  destruct (String.eqb a2 "mounted"); cbn [negb andb bind]; [| reflexivity].
  destruct (String.eqb a3 "on"); cbn [negb andb bind]; [| reflexivity].
  destruct (String.eqb a5 "with"); cbn [negb andb bind]; [| reflexivity].
  destruct (String.eqb a6 "fstype"); cbn [negb andb bind]; reflexivity.
Qed.

Lemma parseMount_device_line (dev mnt typ : string) (tl : list string) :
  parseMount
    ("device" :: dev :: "mounted" :: "on" :: mnt :: "with" :: "fstype"
     :: typ :: tl)
  = Ok {| Device := dev; MountPoint := mnt; Type_ := typ; Stats := None |}.
Proof. now rewrite parseMount_long. Qed.

(** A list of eight elements or more, taken apart. *)
Lemma list_eight {A : Type} (xs : list A) :
  (8 <= List.length xs)%nat ->
  exists a0 a1 a2 a3 a4 a5 a6 a7 tl,
    xs = a0 :: a1 :: a2 :: a3 :: a4 :: a5 :: a6 :: a7 :: tl.
Proof.
  intros H.
  do 8 (destruct xs as [|? xs]; [cbn [List.length] in H; lia |]).
  repeat eexists.
Qed.

(** C2.  On the tokens of a line, the device-line parser returns the
    record made of tokens 1, 4 and 7 (and no statistics) whenever there
    are at least 8 tokens and tokens 0, 2, 3, 5, 6 are "device",
    "mounted", "on", "with", "fstype"; it fails, with the invalid device
    entry error, whenever there are fewer than 8 tokens or one of the
    five anchors differs. *)
Theorem parseMount_anchors (ss : list string) :
  ((8 <= List.length ss)%nat ->
   nth 0 ss "" = "device" -> nth 2 ss "" = "mounted" -> nth 3 ss "" = "on" ->
   nth 5 ss "" = "with" -> nth 6 ss "" = "fstype" ->
   parseMount ss =
     Ok {| Device := nth 1 ss ""; MountPoint := nth 4 ss "";
           Type_ := nth 7 ss ""; Stats := None |})
  /\ ((List.length ss < 8)%nat ->
      parseMount ss = Err (ErrInvalidDeviceEntry ss))
  /\ (nth 0 ss "" <> "device" \/ nth 2 ss "" <> "mounted"
      \/ nth 3 ss "" <> "on" \/ nth 5 ss "" <> "with"
      \/ nth 6 ss "" <> "fstype" ->
      parseMount ss = Err (ErrInvalidDeviceEntry ss)).
Proof.
  split; [| split].
  - intros Hlen H0 H2 H3 H5 H6.
    destruct (list_eight ss Hlen)
      as (a0 & a1 & a2 & a3 & a4 & a5 & a6 & a7 & tl & ->).
    cbn [nth] in *. subst. rewrite parseMount_long. reflexivity.
  - apply parseMount_short.
  - intros Hbad.
    destruct (Nat.lt_ge_cases (List.length ss) 8) as [Hlt | Hge];
      [now apply parseMount_short |].
    destruct (list_eight ss Hge)
      as (a0 & a1 & a2 & a3 & a4 & a5 & a6 & a7 & tl & ->).
    cbn [nth] in Hbad. rewrite parseMount_long.
    destruct (String.eqb_spec a0 "device"); cbn [andb]; [| reflexivity].
    destruct (String.eqb_spec a2 "mounted"); cbn [andb]; [| reflexivity].
    destruct (String.eqb_spec a3 "on"); cbn [andb]; [| reflexivity].
    destruct (String.eqb_spec a5 "with"); cbn [andb]; [| reflexivity].
    destruct (String.eqb_spec a6 "fstype"); cbn [andb]; [| reflexivity].
    tauto.
Qed.

Lemma parseMount_anchors_witness :
  parseMount (Fields "device /dev/sda1 mounted on / with fstype ext4") =
    Ok {| Device := "/dev/sda1"; MountPoint := "/"; Type_ := "ext4";
          Stats := None |}
  /\ parseMount (Fields "device /dev/sda1 mounted on /") =
       Err (ErrInvalidDeviceEntry ["device"; "/dev/sda1"; "mounted"; "on"; "/"])
  /\ parseMount (Fields "device /dev/sda1 mounted at / with fstype ext4") =
       Err (ErrInvalidDeviceEntry
              ["device"; "/dev/sda1"; "mounted"; "at"; "/"; "with"; "fstype";
               "ext4"]).
Proof.
  split; [| split].
  - apply (proj1 (parseMount_anchors
                    (Fields "device /dev/sda1 mounted on / with fstype ext4")));
      reflexivity.
  - apply (proj1 (proj2 (parseMount_anchors
                           (Fields "device /dev/sda1 mounted on /")))).
    vm_compute. lia.
  - apply (proj2 (proj2 (parseMount_anchors
             (Fields "device /dev/sda1 mounted at / with fstype ext4")))).
    right. right. left. vm_compute. discriminate.
Defined.

(** ** The statistics block *)

Lemma statsLoop_StatsLines (v : string) (pre : list string)
    (st st' : MountStatsNFS) :
  StatsLines v pre st st' ->
  forall rest, statsLoop v (pre ++ rest) st = statsLoop v rest st'.
Proof.
  induction 1 as [st | l ls st st1 st2 Hlen Hsw Hmark _ IH]; intros rest.
  - reflexivity.
  - cbn [app statsLoop]. rewrite Hsw.
    destruct (Fields l) as [|t0 [|t1 ts]];
      cbn [List.length] in Hlen; try lia.
    cbn [List.length Nat.eqb Nat.ltb Nat.leb bind index nth_error].
    cbn [nth] in Hmark.
    destruct (String.eqb_spec t0 fieldPerOpStats); [contradiction |].
    apply IH.
Qed.

Lemma statsLoop_blank (v l : string) (rest : list string)
    (st : MountStatsNFS) :
  Fields l = [] -> statsLoop v (l :: rest) st = Ok (st, rest).
Proof. intros H. cbn [statsLoop]. now rewrite H. Qed.

Lemma statsLoop_marker (v l t1 : string) (ts rest : list string)
    (st : MountStatsNFS) :
  Fields l = fieldPerOpStats :: t1 :: ts ->
  statsLoop v (l :: rest) st = Ok (st, rest).
Proof. intros H. cbn [statsLoop]. now rewrite H. Qed.

Lemma statsLoop_BlockEnd (v : string) (tail rest : list string)
    (st : MountStatsNFS) :
  BlockEnd tail rest -> statsLoop v tail st = Ok (st, rest).
Proof.
  intros [[-> ->] | (t & -> & [Hb | (t1 & ts & Hm)])].
  - reflexivity.
  - now apply statsLoop_blank.
  - now apply (statsLoop_marker v t t1 ts).
Qed.

Lemma ScanErr_no_failure (s : Scanner) (x : list string) :
  failure s = None -> ScanErr (withPending s x) = None.
Proof.
  intros H. unfold ScanErr, withPending. cbn [pending buffered failure].
  rewrite H. now destruct (_ <=? _)%nat.
Qed.

(** After the lines of the block and its end, the statistics are those
    of the block with the operations that the per-operation parser
    reads from the lines left. *)
Lemma parseMountStatsNFS_block (s : Scanner) (v : string)
    (pre tail rest : list string) (st' : MountStatsNFS) :
  StatsLines v pre (newMountStatsNFS v) st' -> BlockEnd tail rest ->
  pending s = pre ++ tail -> ScanErr (withPending s rest) = None ->
  parseMountStatsNFS s v =
    match parseNFSOperationStats (withPending s rest) with
    | Panicked p => Panic p
    | Returned _ (Some e) _ => Err e
    | Returned ops None s2 => Ok (setOperations st' ops, s2)
    end.
Proof.
  intros Hpre Hend Hp He. unfold parseMountStatsNFS. rewrite Hp.
  rewrite (statsLoop_StatsLines v pre _ _ Hpre tail).
  rewrite (statsLoop_BlockEnd v tail rest st' Hend).
  cbn [bind fst snd]. now rewrite He.
Qed.

(** Whether the switch accepts a line does not depend on the statistics
    read so far. *)
Lemma statsSwitch_independent (v : string) (ss : list string)
    (st st1 st2 : MountStatsNFS) :
  statsSwitch v ss st = Ok st1 -> exists st3, statsSwitch v ss st2 = Ok st3.
Proof.
  unfold statsSwitch. destruct (index ss 0) as [t0 | |]; cbn [bind];
    try discriminate.
  destruct (String.eqb t0 fieldAge).
  { destruct (index ss 1); cbn [bind]; try discriminate.
    destruct (ParseDuration _); cbn [bind]; try discriminate. eauto. }
  destruct (String.eqb t0 fieldBytes).
  { destruct (sliceFrom 1 ss); cbn [bind]; try discriminate.
    destruct (parseNFSBytesStats _); cbn [bind]; try discriminate. eauto. }
  destruct (String.eqb t0 fieldEvents).
  { destruct (sliceFrom 1 ss); cbn [bind]; try discriminate.
    destruct (parseNFSEventsStats _); cbn [bind]; try discriminate. eauto. }
  destruct (String.eqb t0 fieldTransport).
  { destruct (_ <? _)%nat; try discriminate.
    destruct (sliceFrom 2 ss); cbn [bind]; try discriminate.
    destruct (parseNFSTransportStats _ _); cbn [bind]; try discriminate.
    eauto. }
  eauto.
Qed.

Lemma StatsLines_of_LineOK (v : string) (pre : list string) :
  Forall (LineOK v) pre ->
  forall st, exists st', StatsLines v pre st st'.
Proof.
  induction 1 as [|l ls (Hlen & Hmark & st1 & Hsw) _ IH]; intros st.
  - exists st. constructor.
  - destruct (statsSwitch_independent v _ _ _ st Hsw) as (st3 & Hsw3).
    destruct (IH st3) as (st' & Hst').
    exists st'. econstructor; eassumption.
Qed.

(** What one turn of the switch does to each part of the statistics:
    the part named by the first field is replaced by what its decoder
    returns, the others are kept. *)
Lemma statsSwitch_fields (v t0 t1 : string) (ts : list string)
    (st st1 : MountStatsNFS) :
  statsSwitch v (t0 :: t1 :: ts) st = Ok st1 ->
  StatVersion st1 = StatVersion st /\ Operations st1 = Operations st
  /\ (if String.eqb t0 fieldAge
      then ParseDuration (String.append t1 "s") = Ok (Age st1)
      else Age st1 = Age st)
  /\ (if String.eqb t0 fieldBytes
      then parseNFSBytesStats (t1 :: ts) = Ok (Bytes st1)
      else Bytes st1 = Bytes st)
  /\ (if String.eqb t0 fieldEvents
      then parseNFSEventsStats (t1 :: ts) = Ok (Events st1)
      else Events st1 = Events st)
  /\ (if String.eqb t0 fieldTransport
      then parseNFSTransportStats ts v = Ok (Transport st1)
      else Transport st1 = Transport st).
Proof.
  unfold statsSwitch.
  cbn [index nth_error bind sliceFrom List.length Nat.leb skipn].
  destruct (String.eqb_spec t0 fieldAge) as [-> | _].
  { destruct (ParseDuration _) as [d | |]; cbn [bind]; try discriminate.
    intros [= <-]. cbn. repeat split. }
  destruct (String.eqb_spec t0 fieldBytes) as [-> | _].
  { destruct (parseNFSBytesStats _) as [b | |]; cbn [bind];
      try discriminate.
    intros [= <-]. cbn. repeat split. }
  destruct (String.eqb_spec t0 fieldEvents) as [-> | _].
  { destruct (parseNFSEventsStats _) as [e | |]; cbn [bind];
      try discriminate.
    intros [= <-]. cbn. repeat split. }
  destruct (String.eqb_spec t0 fieldTransport) as [-> | _].
  { destruct (_ <? _)%nat; try discriminate.
    destruct (parseNFSTransportStats _ _) as [t | |]; cbn [bind];
      try discriminate.
    intros [= <-]. cbn. repeat split. }
  intros [= <-]. repeat split.
Qed.

(** The statistics after the lines of a block: each part is what the
    decoder of its kind returns on the last line of that kind, and is
    left as it was when the block has no line of that kind. *)
Lemma StatsLines_last (v : string) (pre : list string)
    (st st' : MountStatsNFS) :
  StatsLines v pre st st' ->
  StatVersion st' = StatVersion st /\ Operations st' = Operations st
  /\ match lastLine fieldAge pre with
     | None => Age st' = Age st
     | Some ss => ParseDuration (String.append (nth 1 ss "") "s") = Ok (Age st')
     end
  /\ match lastLine fieldBytes pre with
     | None => Bytes st' = Bytes st
     | Some ss => parseNFSBytesStats (skipn 1 ss) = Ok (Bytes st')
     end
  /\ match lastLine fieldEvents pre with
     | None => Events st' = Events st
     | Some ss => parseNFSEventsStats (skipn 1 ss) = Ok (Events st')
     end
  /\ match lastLine fieldTransport pre with
     | None => Transport st' = Transport st
     | Some ss => parseNFSTransportStats (skipn 2 ss) v = Ok (Transport st')
     end.
Proof.
  induction 1 as [st | l ls st st1 st2 Hlen Hsw Hmark _ IH].
  - cbn. repeat split.
  - destruct (Fields l) as [|t0 [|t1 ts]] eqn:Hf;
      cbn [List.length] in Hlen; try lia.
    apply statsSwitch_fields in Hsw.
    destruct Hsw as (Hv1 & Ho1 & Ha1 & Hb1 & He1 & Ht1).
    destruct IH as (Hv & Ho & Ha & Hb & He & Ht).
    cbn [lastLine]. rewrite Hf. cbn [nth].
    repeat split.
    + congruence.
    + congruence.
    + destruct (lastLine fieldAge ls); [exact Ha |].
      destruct (String.eqb t0 fieldAge); cbn [nth]; congruence.
    + destruct (lastLine fieldBytes ls); [exact Hb |].
      destruct (String.eqb t0 fieldBytes); cbn [skipn]; congruence.
    + destruct (lastLine fieldEvents ls); [exact He |].
      destruct (String.eqb t0 fieldEvents); cbn [skipn]; congruence.
    + destruct (lastLine fieldTransport ls); [exact Ht |].
      destruct (String.eqb t0 fieldTransport); cbn [skipn]; congruence.
Qed.

(** C10.  A statistics block needs none of the age, bytes, events and
    xprt lines.  Whenever each line of the block is one the loop accepts
    by itself, and the block ends at the end of the stream, on a blank
    line or on the per-op marker, and the per-operation parser returns
    [ops] on the lines left, the statistics parser returns a record with
    these operations and the version it was given, in which each of the
    age, the byte counters, the event counters and the transport
    counters is zero when the block has no line of its kind, and is
    otherwise what the last line of its kind decodes to. *)
Theorem parseMountStatsNFS_lines_optional (v : string)
    (pre tail rest : list string) (ops : list NFSOperationStats)
    (s2 : Scanner) :
  Forall (LineOK v) pre -> BlockEnd tail rest ->
  parseNFSOperationStats (scannerOf rest) = Returned ops None s2 ->
  exists r,
    parseMountStatsNFS (scannerOf (pre ++ tail)) v = Ok (r, s2)
    /\ StatVersion r = v /\ Operations r = ops
    /\ match lastLine "age:" pre with
       | None => Age r = 0
       | Some ss => ParseDuration (String.append (nth 1 ss "") "s") = Ok (Age r)
       end
    /\ match lastLine "bytes:" pre with
       | None => Bytes r = zeroNFSBytesStats
       | Some ss => parseNFSBytesStats (skipn 1 ss) = Ok (Bytes r)
       end
    /\ match lastLine "events:" pre with
       | None => Events r = zeroNFSEventsStats
       | Some ss => parseNFSEventsStats (skipn 1 ss) = Ok (Events r)
       end
    /\ match lastLine "xprt:" pre with
       | None => Transport r = zeroNFSTransportStats
       | Some ss => parseNFSTransportStats (skipn 2 ss) v = Ok (Transport r)
       end.
Proof.
  intros Hpre Hend Hops.
  destruct (StatsLines_of_LineOK v pre Hpre (newMountStatsNFS v))
    as (st' & Hst).
  exists (setOperations st' ops). split.
  - rewrite (parseMountStatsNFS_block (scannerOf (pre ++ tail)) v pre tail
               rest st' Hst Hend eq_refl
               (ScanErr_no_failure (scannerOf (pre ++ tail)) rest eq_refl)).
    change (withPending (scannerOf (pre ++ tail)) rest) with (scannerOf rest).
    now rewrite Hops.
  - destruct (StatsLines_last v pre _ _ Hst) as (Hv & _ & Ha & Hb & He & Ht).
    cbn [setOperations StatVersion Operations Age Bytes Events Transport].
    repeat split; assumption.
Qed.

Lemma parseMountStatsNFS_lines_optional_witness :
  exists r,
    parseMountStatsNFS
      (scannerOf (["bytes: 1 2 3 4 5 6 7 8"; "age: 5"; "age: 7"]
                  ++ ["per-op statistics"; "READ: 1 2 3 4 5 6 7 8"; ""]))
      "1.1"
    = Ok (r, scannerOf [])
    /\ StatVersion r = "1.1"
    /\ Operations r = [operationOfInts "READ:" [1; 2; 3; 4; 5; 6; 7; 8]]
    /\ ParseDuration "7s" = Ok (Age r)
    /\ parseNFSBytesStats ["1"; "2"; "3"; "4"; "5"; "6"; "7"; "8"]
       = Ok (Bytes r)
    /\ Events r = zeroNFSEventsStats
    /\ Transport r = zeroNFSTransportStats.
Proof.
  apply (parseMountStatsNFS_lines_optional "1.1"
           ["bytes: 1 2 3 4 5 6 7 8"; "age: 5"; "age: 7"]
           ["per-op statistics"; "READ: 1 2 3 4 5 6 7 8"; ""]
           ["READ: 1 2 3 4 5 6 7 8"; ""]
           [operationOfInts "READ:" [1; 2; 3; 4; 5; 6; 7; 8]]
           (scannerOf [])).
  - repeat (apply Forall_cons; [line_ok |]). apply Forall_nil.
  - right. eexists. split; [reflexivity |]. right. eexists _, _. reflexivity.
  - reflexivity.
Defined.

(** C4.  Where the first loop of the statistics parser ends without the
    per-op marker.  At the end of the stream the per-operation parser
    finds nothing and the statistics have no operations.  On a blank line
    the loop has read that line, and the per-operation parser goes on
    with the lines after it: the result is what it makes of them, the
    operations it reads there or its error. *)
Theorem parseMountStatsNFS_without_marker (s : Scanner) (v : string)
    (pre : list string) (st' : MountStatsNFS) :
  StatsLines v pre (newMountStatsNFS v) st' -> failure s = None ->
  (pending s = pre ->
   parseMountStatsNFS s v = Ok (setOperations st' [], withPending s []))
  /\ (forall blank rest, pending s = pre ++ blank :: rest ->
      Fields blank = [] ->
      parseMountStatsNFS s v =
        match parseNFSOperationStats (withPending s rest) with
        | Panicked p => Panic p
        | Returned _ (Some e) _ => Err e
        | Returned ops None s2 => Ok (setOperations st' ops, s2)
        end).
Proof.
  intros Hpre Hf. split.
  - intros Hp.
    rewrite (parseMountStatsNFS_block s v pre [] [] st' Hpre
               (or_introl (conj eq_refl eq_refl))
               (eq_trans Hp (eq_sym (app_nil_r pre)))
               (ScanErr_no_failure s [] Hf)).
    unfold parseNFSOperationStats. cbn [pending withPending].
    cbn [operationStatsLoop].
    change (withPending (withPending s []) []) with (withPending s []).
    now rewrite (ScanErr_no_failure s [] Hf).
  - intros blank rest Hp Hb.
    apply (parseMountStatsNFS_block s v pre (blank :: rest) rest st' Hpre);
      [| assumption | now apply ScanErr_no_failure].
    right. exists blank. auto.
Qed.

Lemma parseMountStatsNFS_without_marker_witness :
  parseMountStatsNFS
    (scannerOf
       ["age: 5"; ""; "device /dev/sda1 mounted on / with fstype ext4"])
    "1.1"
  = Err (ErrInvalidNFSPerOpStats
           ["device"; "/dev/sda1"; "mounted"; "on"; "/"; "with"; "fstype";
            "ext4"])
  /\ parseMountStatsNFS (scannerOf ["age: 5"; ""; "READ: 1 2 3 4 5 6 7 8"])
       "1.1"
     = Ok (setOperations (setAge (newMountStatsNFS "1.1") (5 * Second))
             [operationOfInts "READ:" [1; 2; 3; 4; 5; 6; 7; 8]],
           scannerOf [])
  /\ parseMountStatsNFS (scannerOf ["age: 5"]) "1.1"
     = Ok (setOperations (setAge (newMountStatsNFS "1.1") (5 * Second)) [],
           scannerOf []).
Proof.
  assert (H : StatsLines "1.1" ["age: 5"] (newMountStatsNFS "1.1")
                (setAge (newMountStatsNFS "1.1") (5 * Second))).
  { econstructor; [vm_compute; lia | reflexivity | vm_compute; discriminate
                   | constructor]. }
  split; [| split].
  - exact (proj2 (parseMountStatsNFS_without_marker
                    (scannerOf ["age: 5"; "";
                       "device /dev/sda1 mounted on / with fstype ext4"])
                    "1.1" ["age: 5"] _ H eq_refl)
             "" ["device /dev/sda1 mounted on / with fstype ext4"]
             eq_refl eq_refl).
  - exact (proj2 (parseMountStatsNFS_without_marker
                    (scannerOf ["age: 5"; ""; "READ: 1 2 3 4 5 6 7 8"])
                    "1.1" ["age: 5"] _ H eq_refl)
             "" ["READ: 1 2 3 4 5 6 7 8"] eq_refl eq_refl).
  - exact (proj1 (parseMountStatsNFS_without_marker
                    (scannerOf ["age: 5"]) "1.1" ["age: 5"] _ H eq_refl)
             eq_refl).
Defined.

(** ** The stat version *)

(** An xprt line of three fields or more under a version that is
    neither "1.0" nor "1.1" ends the loop with the version error. *)
Lemma statsLoop_xprt_version (v l t1 t2 : string) (ts rest : list string)
    (st : MountStatsNFS) :
  v <> "1.0" -> v <> "1.1" ->
  Fields l = fieldTransport :: t1 :: t2 :: ts ->
  statsLoop v (l :: rest) st = Err (ErrUnrecognizedTransportVersion v).
Proof.
  intros H10 H11 Hf. cbn [statsLoop]. rewrite Hf.
  cbn [List.length Nat.eqb Nat.ltb Nat.leb].
  unfold statsSwitch.
  cbn [index nth_error bind List.length Nat.ltb Nat.leb sliceFrom skipn].
  change (String.eqb fieldTransport fieldAge) with false.
  change (String.eqb fieldTransport fieldBytes) with false.
  change (String.eqb fieldTransport fieldEvents) with false.
  change (String.eqb fieldTransport fieldTransport) with true.
  cbv iota.
  now rewrite (parseNFSTransportStats_version (t2 :: ts) v H10 H11).
Qed.

(** C5, as the code has it.  The version of a device line of type nfs or
    nfs4 is checked by the transport decoder only: when the statistics
    loop reaches an xprt line of three fields or more, past lines it
    accepts, a version that is neither "1.0" nor "1.1" makes the parse of
    the mount fail with the unrecognized version error. *)
Theorem parseDeviceEntry_unrecognized_version (s : Scanner)
    (dev mnt typ v : string) (extra pre : list string) (l : string)
    (rest : list string) (st' : MountStatsNFS) (t1 t2 : string)
    (ts : list string) :
  typ = "nfs" \/ typ = "nfs4" -> v <> "1.0" -> v <> "1.1" ->
  pending s = pre ++ l :: rest ->
  StatsLines v pre (newMountStatsNFS v) st' ->
  Fields l = "xprt:" :: t1 :: t2 :: ts ->
  parseDeviceEntry
    ("device" :: dev :: "mounted" :: "on" :: mnt :: "with" :: "fstype"
     :: typ :: String.append "statvers=" v :: extra) s
  = Err (ErrUnrecognizedTransportVersion v).
Proof.
  intros Htyp H10 H11 Hp Hpre Hf. unfold parseDeviceEntry.
  rewrite parseMount_device_line. cbn [bind Type_].
  change (deviceEntryLen <?
          List.length
            ("device" :: dev :: "mounted" :: "on" :: mnt :: "with"
             :: "fstype" :: typ :: String.append "statvers=" v :: extra))%nat
    with true.
  cbv iota.
  replace (negb (String.eqb typ nfs3Type) && negb (String.eqb typ nfs4Type))
    with false by (destruct Htyp as [-> | ->]; reflexivity).
  cbn [index nth_error bind].
  change (String.append "statvers=" v)
    with (String.append statVersionPrefix v).
  rewrite TrimPrefix_append.
  unfold parseMountStatsNFS. rewrite Hp.
  rewrite (statsLoop_StatsLines v pre _ _ Hpre (l :: rest)).
  now rewrite (statsLoop_xprt_version v l t1 t2 ts rest st' H10 H11 Hf).
Qed.

Lemma parseDeviceEntry_unrecognized_version_witness :
  parseDeviceEntry
    (Fields "device srv:/x mounted on /mnt with fstype nfs4 statvers=2.0")
    (scannerOf ["age: 5"; "xprt: tcp 1 2 3 4 5 6 7 8 9 10 11 12 13"])
  = Err (ErrUnrecognizedTransportVersion "2.0").
Proof.
  apply (parseDeviceEntry_unrecognized_version
           (scannerOf ["age: 5"; "xprt: tcp 1 2 3 4 5 6 7 8 9 10 11 12 13"])
           "srv:/x" "/mnt" "nfs4" "2.0" [] ["age: 5"]
           "xprt: tcp 1 2 3 4 5 6 7 8 9 10 11 12 13" []
           (setAge (newMountStatsNFS "2.0") (5 * Second))
           "tcp" "1"
           ["2"; "3"; "4"; "5"; "6"; "7"; "8"; "9"; "10"; "11"; "12"; "13"]).
  - right. reflexivity.
  - discriminate.
  - discriminate.
  - reflexivity.
  - econstructor;
      [vm_compute; lia | reflexivity | vm_compute; discriminate | constructor].
  - reflexivity.
Defined.

(** The claim C5 fails as stated: with no xprt line after it, a device
    line of type nfs with version 2.0 is parsed, and the version is kept
    as it is. *)
Lemma statVersion_unchecked_without_xprt :
  parseMountStats
    (scannerOf
       ["device srv:/x mounted on /mnt with fstype nfs statvers=2.0";
        "age: 5"])
  = Some (Returned
            [{| Device := "srv:/x"; MountPoint := "/mnt"; Type_ := "nfs";
                Stats := Some (StatsNFS
                                 (setAge (newMountStatsNFS "2.0")
                                    (5 * Second))) |}]
            None (scannerOf [])).
Proof. vm_compute. reflexivity. Qed.

(** ** The driver *)

Lemma statsLoop_length (v : string) (lines : list string) :
  forall st st' rest, statsLoop v lines st = Ok (st', rest) ->
  (List.length rest <= List.length lines)%nat.
Proof.
  induction lines as [|l ls IH]; intros st st' rest H; cbn [statsLoop] in H.
  - injection H as _ <-. lia.
  - cbn [List.length].
    destruct (List.length (Fields l) =? 0)%nat.
    { injection H as _ <-. lia. }
    destruct (List.length (Fields l) <? 2)%nat; [discriminate |].
    destruct (statsSwitch v (Fields l) st) as [st1 | |]; cbn [bind] in H;
      try discriminate.
    destruct (index (Fields l) 0) as [t0 | |]; cbn [bind] in H;
      try discriminate.
    destruct (String.eqb t0 fieldPerOpStats).
    + injection H as _ <-. lia.
    + apply IH in H. lia.
Qed.

Lemma operationStatsLoop_length (s : Scanner) (lines : list string) :
  forall ops v e s', operationStatsLoop s lines ops = Returned v e s' ->
  (List.length (pending s') <= List.length lines)%nat.
Proof.
  induction lines as [|l ls IH]; intros ops v e s' H;
    cbn [operationStatsLoop] in H.
  - injection H as _ _ <-. cbn. lia.
  - cbn [List.length].
    destruct (List.length (Fields l) =? 0)%nat.
    { injection H as _ _ <-. cbn. lia. }
    destruct (negb _).
    { injection H as _ _ <-. cbn. lia. }
    destruct (parseNFSOperationLine (Fields l)) as [op | e' | p].
    + apply IH in H. lia.
    + injection H as _ _ <-. cbn. lia.
    + discriminate.
Qed.

Lemma parseMountStatsNFS_length (s s2 : Scanner) (v : string)
    (r : MountStatsNFS) :
  parseMountStatsNFS s v = Ok (r, s2) ->
  (List.length (pending s2) <= List.length (pending s))%nat.
Proof.
  unfold parseMountStatsNFS. intros H.
  destruct (statsLoop v (pending s) (newMountStatsNFS v)) as [[st' rest] | |]
    eqn:Hloop; cbn [bind fst snd] in H; try discriminate.
  apply statsLoop_length in Hloop.
  destruct (ScanErr _); [discriminate |].
  unfold parseNFSOperationStats in H. cbn [pending withPending] in H.
  destruct (operationStatsLoop _ rest []) as [ops [e |] s3 | p] eqn:Hops;
    try discriminate.
  apply operationStatsLoop_length in Hops.
  injection H as _ <-. lia.
Qed.

Lemma parseDeviceEntry_length (ss : list string) (s s2 : Scanner)
    (m : Mount) :
  parseDeviceEntry ss s = Ok (m, s2) ->
  (List.length (pending s2) <= List.length (pending s))%nat.
Proof.
  unfold parseDeviceEntry. intros H.
  destruct (parseMount ss) as [m0 | |]; cbn [bind] in H; try discriminate.
  destruct (_ <? _)%nat.
  - destruct (_ && _); [discriminate |].
    destruct (index ss 8) as [t8 | |]; cbn [bind] in H; try discriminate.
    destruct (parseMountStatsNFS s _) as [[r s3] | |] eqn:Hnfs;
      cbn [bind fst snd] in H; try discriminate.
    apply parseMountStatsNFS_length in Hnfs.
    injection H as _ <-. exact Hnfs.
  - injection H as _ <-. lia.
Qed.

Lemma Scan_length (s s1 : Scanner) (l : string) :
  Scan s = Some (l, s1) ->
  List.length (pending s) = S (List.length (pending s1)).
Proof.
  unfold Scan. destruct (pending s) as [|l0 rest] eqn:Hp; [discriminate |].
  intros [= _ <-]. reflexivity.
Qed.



(** The fuel that [parseMountStats] gives the loop is enough: the driver
    returns or panics on every scanner. *)
Lemma mountStatsLoop_total (fuel : nat) :
  forall s ms, (List.length (pending s) < fuel)%nat ->
  exists r, mountStatsLoop fuel s ms = Some r.
Proof.
  induction fuel as [|fuel IH]; intros s ms Hlt; [lia |].
  cbn [mountStatsLoop].
  destruct (Scan s) as [[l s1] |] eqn:Hscan; [| eauto].
  pose proof (Scan_length s s1 l Hscan) as Hlen.
  destruct (Fields l) as [|t0 ts]; [apply IH; lia |].
  destruct (negb _); [apply IH; lia |].
  destruct (parseDeviceEntry _ s1) as [[m s2] | e | p] eqn:Hentry; eauto.
  apply parseDeviceEntry_length in Hentry. apply IH. lia.
Qed.

Lemma parseMountStats_total (s : Scanner) :
  exists r, parseMountStats s = Some r.
Proof. apply mountStatsLoop_total. lia. Qed.






(** ** The age line *)

Lemma leadingInt_digits (ds : string) :
  forall x, allDigits ds = true -> 0 <= x -> decimalFrom x ds <= 2 ^ 63 ->
  leadingInt x (String.append ds "s") = Some (decimalFrom x ds, "s").
Proof.
  induction ds as [|c r IH]; intros x Hd Hx Hle;
    cbn [String.append leadingInt allDigits decimalFrom] in *.
  - reflexivity.
  - apply andb_true_iff in Hd. destruct Hd as [Hc Hr]. rewrite Hc.
    pose proof (isDigit_digitVal c Hc) as Hdv.
    pose proof (decimalFrom_ge r (x * 10 + digitVal c) ltac:(lia) Hr) as Hge.
    change (2 ^ 63 / 10) with 922337203685477580.
    change (2 ^ 63) with 9223372036854775808 in *.
    destruct (Z.ltb_spec 922337203685477580 x); [lia |].
    destruct (Z.ltb_spec 9223372036854775808 (x * 10 + digitVal c)); [lia |].
    apply IH; [assumption | lia | assumption].
Qed.

Lemma length_append_s (r : string) :
  (String.length (String.append r "s") =? 0)%nat = false.
Proof. rewrite length_append. cbn [String.length]. apply Nat.eqb_neq. lia. Qed.

(** Digits and the unit "s": one turn of the loop of [ParseDuration]
    gives the seconds, unless they leave 64 bits. *)
Lemma parseDurationTerm_seconds (orig : string) (c : ascii) (r : string) :
  allDigits (String c r) = true -> decimal (String c r) <= 2 ^ 63 ->
  parseDurationTerm orig (String.append (String c r) "s") 0 =
    if 9223372036 <? decimal (String c r)
    then Err (ErrDuration InvalidDuration orig)
    else Ok (decimal (String c r) * 1000000000, EmptyString).
Proof.
  intros Hd Hle.
  pose proof (decimal_nonneg _ Hd) as H0.
  unfold parseDurationTerm.
  rewrite (leadingInt_digits (String c r) 0 Hd ltac:(lia) Hle).
  fold (decimal (String c r)).
  cbn [String.append String.length Nat.eqb].
  assert (Hc : isDigit c = true).
  { cbn [allDigits] in Hd. apply andb_true_iff in Hd. tauto. }
  rewrite Hc, orb_true_r, length_append_s.
  cbn [negb andb].
  change (Ascii.eqb "s" ".") with false. cbv iota.
  change (splitUnit "s") with ("s", EmptyString).
  cbv iota beta zeta.
  change (unitMap "s") with (Some Second).
  cbv iota beta.
  change (2 ^ 63 / Second) with 9223372036.
  destruct (Z.ltb_spec 9223372036 (decimal (String c r))); [reflexivity |].
  change (0 <? 0) with false. cbn [bind].
  change Second with 1000000000.
  rewrite Z.add_0_l, Z.mod_small by lia.
  change (2 ^ 63) with 9223372036854775808.
  destruct (Z.ltb_spec 9223372036854775808
              (decimal (String c r) * 1000000000)); [lia | reflexivity].
Qed.

Lemma parseDurationLoop_seconds (orig : string) (c : ascii) (r : string) :
  allDigits (String c r) = true -> decimal (String c r) <= 2 ^ 63 ->
  parseDurationLoop
    (S (String.length (String.append (String c r) "s"))) orig
    (String.append (String c r) "s") 0 =
    if 9223372036 <? decimal (String c r)
    then Err (ErrDuration InvalidDuration orig)
    else Ok (decimal (String c r) * 1000000000).
Proof.
  intros Hd Hle.
  pose proof (parseDurationTerm_seconds orig c r Hd Hle) as Hterm.
  rewrite length_append. cbn [String.length]. rewrite Nat.add_1_r.
  cbn [String.append parseDurationLoop] in *. rewrite Hterm.
  destruct (9223372036 <? decimal (String c r)); reflexivity.
Qed.

Lemma eqb_digits_s_zero (c : ascii) (r : string) :
  String.eqb (String c (String.append r "s")) "0" = false.
Proof.
  cbn [String.eqb]. destruct (Ascii.eqb c "0"); [| reflexivity].
  destruct r; reflexivity.
Qed.

(** [ParseDuration] on digits, with or without a sign, and "s". *)
Lemma ParseDuration_seconds (tok : string) (n : Z) :
  IntToken tok n ->
  ParseDuration (String.append tok "s") =
    if (-9223372036 <=? n) && (n <=? 9223372036) then Ok (n * Second)
    else Err (ErrDuration InvalidDuration (String.append tok "s")).
Proof.
  intros [ds Hne Hd Hle | ds Hne Hd Hle | ds Hne Hd Hle];
    destruct ds as [|c r]; try congruence;
    pose proof (decimal_nonneg _ Hd) as H0;
    assert (Hc : isDigit c = true)
      by (cbn [allDigits] in Hd; apply andb_true_iff in Hd; tauto);
    unfold maxInt64 in *; unfold ParseDuration.
  - destruct (isDigit_not_sign c Hc) as [Hp Hm].
    cbn [String.append]. rewrite Hp, Hm. cbn [orb].
    rewrite eqb_digits_s_zero. cbn [String.eqb].
    change (String c (String.append r "s"))
      with (String.append (String c r) "s").
    rewrite (parseDurationLoop_seconds _ c r Hd ltac:(lia)).
    destruct (Z.leb_spec (-9223372036) (decimal (String c r))); [| lia].
    destruct (Z.ltb_spec 9223372036 (decimal (String c r)));
      destruct (Z.leb_spec (decimal (String c r)) 9223372036); try lia;
      cbn [bind andb]; [reflexivity |].
    change (2 ^ 63 - 1) with 9223372036854775807.
    change Second with 1000000000.
    destruct (Z.ltb_spec 9223372036854775807
                (decimal (String c r) * 1000000000)); [lia | reflexivity].
  - cbn [String.append Ascii.eqb Bool.eqb orb]. cbv iota.
    change (Ascii.eqb "+" "-") with false.
    change (Ascii.eqb "+" "+") with true.
    cbn [orb]. rewrite eqb_digits_s_zero. cbn [String.eqb].
    change (String c (String.append r "s"))
      with (String.append (String c r) "s").
    rewrite (parseDurationLoop_seconds _ c r Hd ltac:(lia)).
    destruct (Z.leb_spec (-9223372036) (decimal (String c r))); [| lia].
    destruct (Z.ltb_spec 9223372036 (decimal (String c r)));
      destruct (Z.leb_spec (decimal (String c r)) 9223372036); try lia;
      cbn [bind andb]; [reflexivity |].
    change (2 ^ 63 - 1) with 9223372036854775807.
    change Second with 1000000000.
    destruct (Z.ltb_spec 9223372036854775807
                (decimal (String c r) * 1000000000)); [lia | reflexivity].
  - cbn [String.append].
    change (Ascii.eqb "-" "-") with true.
    cbn [orb]. rewrite eqb_digits_s_zero. cbn [String.eqb].
    change (String c (String.append r "s"))
      with (String.append (String c r) "s").
    rewrite (parseDurationLoop_seconds _ c r Hd Hle).
    destruct (Z.leb_spec (- decimal (String c r)) 9223372036); [| lia].
    rewrite andb_true_r.
    destruct (Z.ltb_spec 9223372036 (decimal (String c r)));
      destruct (Z.leb_spec (-9223372036) (- decimal (String c r))); try lia;
      cbn [bind]; [reflexivity |].
    change Second with 1000000000.
    rewrite (wrap64_small (decimal (String c r) * 1000000000))
      by (unfold minInt64, maxInt64; lia).
    rewrite wrap64_small by (unfold minInt64, maxInt64; lia).
    f_equal. lia.
Qed.

(** A token that starts with no sign, digit or point is no duration. *)
Lemma ParseDuration_no_number (c : ascii) (r : string) :
  isDigit c = false -> c <> "+"%char -> c <> "-"%char -> c <> "."%char ->
  ParseDuration (String.append (String c r) "s") =
    Err (ErrDuration InvalidDuration (String.append (String c r) "s")).
Proof.
  intros Hc Hp Hm Hdot. unfold ParseDuration. cbn [String.append].
  destruct (Ascii.eqb_spec c "-"); [contradiction |].
  destruct (Ascii.eqb_spec c "+"); [contradiction |].
  cbn [orb]. rewrite eqb_digits_s_zero. cbn [String.eqb].
  cbn [String.length parseDurationLoop].
  unfold parseDurationTerm.
  destruct (Ascii.eqb_spec c "."); [contradiction |].
  rewrite Hc. reflexivity.
Qed.

Lemma statsSwitch_age (v tok : string) (ts : list string)
    (st : MountStatsNFS) :
  statsSwitch v ("age:" :: tok :: ts) st =
    d <- ParseDuration (String.append tok "s") ;; Ok (setAge st d).
Proof. reflexivity. Qed.

(** C6, as the code has it.  On an age line the second token, with "s"
    put after it, is read by [time.ParseDuration].  An integer token
    between -9223372036 and 9223372036 gives that number of seconds as
    the age; an integer token outside fails (the seconds do not fit a
    duration); a token that starts with no sign, digit or point fails. *)
Theorem age_line_duration (v tok : string) (ts : list string)
    (st : MountStatsNFS) :
  (forall n, IntToken tok n -> -9223372036 <= n <= 9223372036 ->
     statsSwitch v ("age:" :: tok :: ts) st = Ok (setAge st (n * Second)))
  /\ (forall n, IntToken tok n -> n < -9223372036 \/ 9223372036 < n ->
      statsSwitch v ("age:" :: tok :: ts) st =
        Err (ErrDuration InvalidDuration (String.append tok "s")))
  /\ (forall c r, tok = String c r -> isDigit c = false ->
      c <> "+"%char -> c <> "-"%char -> c <> "."%char ->
      statsSwitch v ("age:" :: tok :: ts) st =
        Err (ErrDuration InvalidDuration (String.append tok "s"))).
Proof.
  rewrite statsSwitch_age. split; [| split].
  - intros n Hn Hr. rewrite (ParseDuration_seconds tok n Hn).
    destruct (Z.leb_spec (-9223372036) n); [| lia].
    destruct (Z.leb_spec n 9223372036); [| lia]. reflexivity.
  - intros n Hn Hr. rewrite (ParseDuration_seconds tok n Hn).
    destruct (Z.leb_spec (-9223372036) n);
      destruct (Z.leb_spec n 9223372036); try lia; reflexivity.
  - intros c r -> Hc Hp Hm Hdot.
    now rewrite (ParseDuration_no_number c r Hc Hp Hm Hdot).
Qed.

Lemma age_line_duration_witness :
  statsSwitch "1.1" ["age:"; "-7"] (newMountStatsNFS "1.1") =
    Ok (setAge (newMountStatsNFS "1.1") (-7 * Second))
  /\ statsSwitch "1.1" ["age:"; "9223372037"] (newMountStatsNFS "1.1") =
       Err (ErrDuration InvalidDuration "9223372037s")
  /\ statsSwitch "1.1" ["age:"; "x5"] (newMountStatsNFS "1.1") =
       Err (ErrDuration InvalidDuration "x5s").
Proof.
  split; [| split].
  - apply (proj1 (age_line_duration "1.1" "-7" [] (newMountStatsNFS "1.1"))
             (-7)).
    + apply Atoi_IntToken. reflexivity.
    + lia.
  - apply (proj1 (proj2 (age_line_duration "1.1" "9223372037" []
                           (newMountStatsNFS "1.1"))) 9223372037).
    + apply Atoi_IntToken. reflexivity.
    + lia.
  - apply (proj2 (proj2 (age_line_duration "1.1" "x5" []
                           (newMountStatsNFS "1.1"))) "x"%char "5");
      [reflexivity | reflexivity | discriminate | discriminate | discriminate].
Defined.

(** The claim C6 fails as stated: the tokens "5m" and "1.5" are no
    integers, and the age line is parsed all the same, as 5
    milliseconds and as a second and a half. *)
Lemma age_token_not_integer_accepted :
  (forall n, ~ IntToken "5m" n)
  /\ statsSwitch "1.1" (Fields "age: 5m") (newMountStatsNFS "1.1") =
       Ok (setAge (newMountStatsNFS "1.1") (5 * Millisecond))
  /\ parseMountStatsNFS (scannerOf ["age: 5m"]) "1.1" =
       Ok (setAge (newMountStatsNFS "1.1") (5 * Millisecond), scannerOf [])
  /\ (forall n, ~ IntToken "1.5" n)
  /\ statsSwitch "1.1" (Fields "age: 1.5") (newMountStatsNFS "1.1") =
       Ok (setAge (newMountStatsNFS "1.1") 1500000000).
Proof.
  repeat split.
  - intros n H. apply Atoi_IntToken in H. discriminate H.
  - intros n H. apply Atoi_IntToken in H. discriminate H.
Qed.

(** * Further properties *)

(** ** The decoders: exact shapes, bad tokens, no panic *)

Lemma parseNFSEventsStats_inv (ss : list string) (r : NFSEventsStats) :
  parseNFSEventsStats ss = Ok r ->
  List.length ss = 27%nat /\ exists ns, IntTokens ss ns /\ r = eventsOfInts ns.
Proof.
  unfold parseNFSEventsStats, fieldEventsLen. intros H.
  destruct (Nat.eqb_spec (List.length ss) 27) as [Hlen | Hlen];
    cbn [negb] in H; [| discriminate].
  split; [assumption |].
  destruct (atoiLoop ss []) as [ns | e | p] eqn:Hloop; cbn [bind] in H;
    try discriminate.
  apply atoiLoop_IntTokens_inv in Hloop. exists ns. split; [assumption |].
  pose proof (IntTokens_length ss ns Hloop) as Hl. rewrite Hlen in Hl.
  destruct_length ns Hl. cbn in H. now injection H as <-.
Qed.

(** X1.  The event-counters decoder returns a record exactly on 27
    integer tokens, and the record has them in the order of the fields;
    on any other number of tokens it fails with the invalid events stats
    error. *)
Theorem parseNFSEventsStats_27_ints (ss : list string) :
  (forall r, parseNFSEventsStats ss = Ok r <->
     List.length ss = 27%nat
     /\ exists ns, IntTokens ss ns /\ r = eventsOfInts ns)
  /\ (List.length ss <> 27%nat ->
      parseNFSEventsStats ss = Err (ErrInvalidNFSEventsStats ss)).
Proof.
  split.
  - intros r. split; [apply parseNFSEventsStats_inv |].
    intros (Hlen & ns & Hns & ->). now apply parseNFSEventsStats_Ok.
  - intros Hlen. unfold parseNFSEventsStats, fieldEventsLen.
    destruct (Nat.eqb_spec (List.length ss) 27); [contradiction | reflexivity].
Qed.

Lemma parseNFSEventsStats_27_ints_witness :
  parseNFSEventsStats
    ["1"; "2"; "3"; "4"; "5"; "6"; "7"; "8"; "9"; "10"; "11"; "12"; "13";
     "14"; "15"; "16"; "17"; "18"; "19"; "20"; "21"; "22"; "23"; "24"; "25";
     "26"; "27"]
  = Ok (eventsOfInts
          [1; 2; 3; 4; 5; 6; 7; 8; 9; 10; 11; 12; 13; 14; 15; 16; 17; 18; 19;
           20; 21; 22; 23; 24; 25; 26; 27])
  /\ parseNFSEventsStats ["1"; "2"] = Err (ErrInvalidNFSEventsStats ["1"; "2"]).
Proof.
  split.
  - apply (proj1 (parseNFSEventsStats_27_ints _)). split; [reflexivity |].
    eexists. split; [| reflexivity].
    apply IntTokens_Atoi. repeat constructor.
  - apply (proj2 (parseNFSEventsStats_27_ints ["1"; "2"])).
    cbn [List.length]. lia.
Defined.

Lemma parseNFSTransportStats_11_inv (ss : list string)
    (r : NFSTransportStats) :
  parseNFSTransportStats ss "1.1" = Ok r ->
  List.length ss = 13%nat
  /\ exists ns, IntTokens ss ns /\ r = transportOfInts ns.
Proof.
  unfold parseNFSTransportStats, fieldTransport11Len.
  change (String.eqb "1.1" statVersion10) with false.
  change (String.eqb "1.1" statVersion11) with true.
  cbv iota. intros H.
  destruct (Nat.eqb_spec (List.length ss) 13) as [Hlen | Hlen];
    cbn [negb bind] in H; [| discriminate].
  split; [assumption |].
  destruct (atoiLoop ss []) as [ns | e | p] eqn:Hloop; cbn [bind] in H;
    try discriminate.
  apply atoiLoop_IntTokens_inv in Hloop. exists ns. split; [assumption |].
  pose proof (IntTokens_length ss ns Hloop) as Hl. rewrite Hlen in Hl.
  destruct_length ns Hl. cbn in H. now injection H as <-.
Qed.

(** X2.  Under version "1.1" the transport decoder returns a record
    exactly on 13 integer tokens.  The field of index 3 (the connect idle
    time) is then the integer as it is, and the field of index 4 (the
    idle time) is the integer times a second: exactly that number of
    seconds when it is between -9223372036 and 9223372036. *)
Theorem parseNFSTransportStats_11_exact (ss : list string) :
  (forall r, parseNFSTransportStats ss "1.1" = Ok r <->
     List.length ss = 13%nat
     /\ exists ns, IntTokens ss ns /\ r = transportOfInts ns)
  /\ (forall ns, List.length ss = 13%nat -> IntTokens ss ns ->
      -9223372036 <= nth 4 ns 0 <= 9223372036 ->
      exists r, parseNFSTransportStats ss "1.1" = Ok r
        /\ ConnectIdleTime r = nth 3 ns 0
        /\ IdleTime r = nth 4 ns 0 * 1000000000).
Proof.
  split.
  - intros r. split; [apply parseNFSTransportStats_11_inv |].
    intros (Hlen & ns & Hns & ->). now apply parseNFSTransportStats_11_Ok.
  - intros ns Hlen Hns Hr. exists (transportOfInts ns).
    split; [now apply parseNFSTransportStats_11_Ok |].
    split; [reflexivity |].
    cbn [transportOfInts IdleTime]. apply mulDuration_exact.
    unfold minInt64, maxInt64, Second, Millisecond, Microsecond, Nanosecond.
    lia.
Qed.

Lemma parseNFSTransportStats_11_exact_witness :
  exists r,
    parseNFSTransportStats
      ["1"; "2"; "3"; "40"; "-5"; "6"; "7"; "8"; "9"; "10"; "11"; "12"; "13"]
      "1.1" = Ok r
    /\ ConnectIdleTime r = 40 /\ IdleTime r = -5 * 1000000000.
Proof.
  apply (proj2 (parseNFSTransportStats_11_exact
                  ["1"; "2"; "3"; "40"; "-5"; "6"; "7"; "8"; "9"; "10"; "11";
                   "12"; "13"])
           [1; 2; 3; 40; -5; 6; 7; 8; 9; 10; 11; 12; 13]).
  - reflexivity.
  - apply IntTokens_Atoi. repeat constructor.
  - cbn [nth]. lia.
Defined.

Lemma Atoi_Err_shape (s : string) (e : error) :
  Atoi s = Err e -> exists k, e = ErrNum k s.
Proof.
  unfold Atoi, ParseInt. destruct s as [|c rest].
  - intros [= <-]. eauto.
  - unfold checkIntRange. destruct (ParseUint _) as [un [[|]|]];
      repeat (destruct (_ && _)); intros [= <-]; eauto.
Qed.

Lemma Atoi_not_IntToken (s : string) :
  (forall n, ~ IntToken s n) -> exists k, Atoi s = Err (ErrNum k s).
Proof.
  intros Hbad. destruct (Atoi s) as [n | e | p] eqn:H.
  - exfalso. apply (Hbad n). now apply Atoi_IntToken.
  - destruct (Atoi_Err_shape s e H) as (k & ->). eauto.
  - now apply Atoi_no_panic in H.
Qed.

(** The conversion loop stops at the first token that is no integer,
    with the error of that token. *)
Lemma atoiLoop_first_bad (good : list string) (ns : list Z) (bad : string)
    (rest : list string) (e : error) :
  IntTokens good ns -> Atoi bad = Err e ->
  forall acc, atoiLoop (good ++ bad :: rest) acc = Err e.
Proof.
  intros Hgood Hbad. apply IntTokens_Atoi in Hgood.
  induction Hgood as [|s n ss' ns' Hs _ IH]; intros acc;
    cbn [app atoiLoop].
  - now rewrite Hbad.
  - rewrite Hs. cbn [bind]. apply IH.
Qed.

(** X3.  A token that is no integer, after tokens that are, makes each
    decoder fail with the error of [strconv.Atoi] on that very token, for
    the sequences that have the number of tokens the decoder asks for
    (8 for bytes, 27 for events, 13 and 10 for the transport under "1.1"
    and "1.0", 8 after the name for an operation). *)
Theorem decoders_first_bad_token (good : list string) (ns : list Z)
    (bad : string) (rest : list string) :
  IntTokens good ns -> (forall n, ~ IntToken bad n) ->
  exists k,
    Atoi bad = Err (ErrNum k bad)
    /\ (List.length (good ++ bad :: rest) = 8%nat ->
        parseNFSBytesStats (good ++ bad :: rest) = Err (ErrNum k bad))
    /\ (List.length (good ++ bad :: rest) = 27%nat ->
        parseNFSEventsStats (good ++ bad :: rest) = Err (ErrNum k bad))
    /\ (List.length (good ++ bad :: rest) = 13%nat ->
        parseNFSTransportStats (good ++ bad :: rest) "1.1"
        = Err (ErrNum k bad))
    /\ (List.length (good ++ bad :: rest) = 10%nat ->
        parseNFSTransportStats (good ++ bad :: rest) "1.0"
        = Err (ErrNum k bad))
    /\ (List.length (good ++ bad :: rest) = 8%nat ->
        forall name,
        parseNFSOperationLine (name :: good ++ bad :: rest)
        = Err (ErrNum k bad)).
Proof.
  intros Hgood Hbad.
  destruct (Atoi_not_IntToken bad Hbad) as (k & Hk). exists k.
  pose proof (atoiLoop_first_bad good ns bad rest _ Hgood Hk []) as Hloop.
  split; [exact Hk |].
  repeat split; intros Hlen.
  - unfold parseNFSBytesStats, fieldBytesLen. rewrite Hlen, Hloop.
    reflexivity.
  - unfold parseNFSEventsStats, fieldEventsLen. rewrite Hlen, Hloop.
    reflexivity.
  - unfold parseNFSTransportStats, fieldTransport11Len.
    change (String.eqb "1.1" statVersion10) with false.
    change (String.eqb "1.1" statVersion11) with true.
    rewrite Hlen, Hloop. reflexivity.
  - unfold parseNFSTransportStats, fieldTransport10Len.
    change (String.eqb "1.0" statVersion10) with true.
    rewrite Hlen, Hloop. reflexivity.
  - intros name. unfold parseNFSOperationLine.
    cbn [sliceFrom List.length Nat.leb skipn bind]. rewrite Hloop.
    reflexivity.
Qed.

Lemma decoders_first_bad_token_witness :
  parseNFSBytesStats ["1"; "2"; "x3"; "4"; "y"; "6"; "7"; "8"]
  = Err (ErrNum ErrSyntax "x3")
  /\ parseNFSOperationLine
       ["READ:"; "1"; "2"; "3"; "99999999999999999999"; "5"; "6"; "7"; "8"]
     = Err (ErrNum ErrRange "99999999999999999999").
Proof.
  split.
  - destruct (decoders_first_bad_token ["1"; "2"] [1; 2] "x3"
                ["4"; "y"; "6"; "7"; "8"])
      as (k & Hk & Hb & _).
    + apply IntTokens_Atoi. repeat constructor.
    + intros n H. apply Atoi_IntToken in H. vm_compute in H. discriminate H.
    + vm_compute in Hk. injection Hk as <-. apply Hb. reflexivity.
  - destruct (decoders_first_bad_token ["1"; "2"; "3"] [1; 2; 3]
                "99999999999999999999" ["5"; "6"; "7"; "8"])
      as (k & Hk & _ & _ & _ & _ & Ho).
    + apply IntTokens_Atoi. repeat constructor.
    + intros n H. apply Atoi_IntToken in H. vm_compute in H. discriminate H.
    + vm_compute in Hk. injection Hk as <-. apply Ho. reflexivity.
Defined.

(** X4.  Under version "1.0" the transport decoder never returns a
    record: whatever the tokens, it fails with an error or stops on the
    index out of range. *)
Theorem parseNFSTransportStats_10_never_Ok (ss : list string) :
  (exists e, parseNFSTransportStats ss "1.0" = Err e)
  \/ parseNFSTransportStats ss "1.0" = Panic (IndexOutOfRange 10 10).
Proof.
  destruct (Nat.eq_dec (List.length ss) 10) as [Hlen | Hlen].
  - destruct (atoiLoop ss []) as [ns | e | p] eqn:Hloop.
    + right. apply atoiLoop_IntTokens_inv in Hloop.
      now apply (parseNFSTransportStats_10_ints ss ns).
    + left. exists e. unfold parseNFSTransportStats, fieldTransport10Len.
      change (String.eqb "1.0" statVersion10) with true.
      rewrite Hlen, Hloop. reflexivity.
    + now apply atoiLoop_no_panic in Hloop.
  - left. eexists. now apply parseNFSTransportStats_10_length.
Qed.

Lemma parseNFSBytesStats_no_panic (ss : list string) (p : panic) :
  parseNFSBytesStats ss <> Panic p.
Proof.
  unfold parseNFSBytesStats, fieldBytesLen.
  destruct (Nat.eqb_spec (List.length ss) 8) as [Hlen | _]; cbn [negb];
    [| discriminate].
  destruct (atoiLoop ss []) as [ns | e | q] eqn:Hloop; cbn [bind].
  - apply atoiLoop_IntTokens_inv, IntTokens_length in Hloop.
    rewrite Hlen in Hloop. destruct_length ns Hloop. discriminate.
  - discriminate.
  - now apply atoiLoop_no_panic in Hloop.
Qed.

Lemma parseNFSEventsStats_no_panic (ss : list string) (p : panic) :
  parseNFSEventsStats ss <> Panic p.
Proof.
  unfold parseNFSEventsStats, fieldEventsLen.
  destruct (Nat.eqb_spec (List.length ss) 27) as [Hlen | _]; cbn [negb];
    [| discriminate].
  destruct (atoiLoop ss []) as [ns | e | q] eqn:Hloop; cbn [bind].
  - apply atoiLoop_IntTokens_inv, IntTokens_length in Hloop.
    rewrite Hlen in Hloop. destruct_length ns Hloop. discriminate.
  - discriminate.
  - now apply atoiLoop_no_panic in Hloop.
Qed.

Lemma parseNFSTransportStats_no_panic (ss : list string) (v : string)
    (p : panic) :
  v <> "1.0" -> parseNFSTransportStats ss v <> Panic p.
Proof.
  intros Hv. unfold parseNFSTransportStats, statVersion10, statVersion11.
  destruct (String.eqb_spec v "1.0"); [contradiction |].
  destruct (String.eqb_spec v "1.1"); [| discriminate].
  unfold fieldTransport11Len.
  destruct (Nat.eqb_spec (List.length ss) 13) as [Hlen | _];
    cbn [negb bind]; [| discriminate].
  destruct (atoiLoop ss []) as [ns | err | q] eqn:Hloop; cbn [bind].
  - apply atoiLoop_IntTokens_inv, IntTokens_length in Hloop.
    rewrite Hlen in Hloop. destruct_length ns Hloop. discriminate.
  - discriminate.
  - now apply atoiLoop_no_panic in Hloop.
Qed.

Lemma parseNFSOperationLine_no_panic (ss : list string) (p : panic) :
  List.length ss = 9%nat -> parseNFSOperationLine ss <> Panic p.
Proof.
  intros Hlen. destruct ss as [|name toks]; [discriminate Hlen |].
  cbn [List.length] in Hlen. injection Hlen as Hlen.
  unfold parseNFSOperationLine.
  cbn [sliceFrom List.length Nat.leb skipn bind].
  destruct (atoiLoop toks []) as [ns | e | q] eqn:Hloop; cbn [bind].
  - apply atoiLoop_IntTokens_inv, IntTokens_length in Hloop.
    rewrite Hlen in Hloop. destruct_length ns Hloop. discriminate.
  - discriminate.
  - now apply atoiLoop_no_panic in Hloop.
Qed.

Lemma operationStatsLoop_no_panic (s : Scanner) (lines : list string) :
  forall ops p, operationStatsLoop s lines ops <> Panicked p.
Proof.
  induction lines as [|l rest IH]; intros ops p; cbn [operationStatsLoop].
  - discriminate.
  - destruct (List.length (Fields l) =? 0)%nat; [discriminate |].
    unfold numFields.
    destruct (Nat.eqb_spec (List.length (Fields l)) 9) as [Hlen | _];
      cbn [negb]; [| discriminate].
    destruct (parseNFSOperationLine (Fields l)) as [op | e | q] eqn:Hop.
    + apply IH.
    + discriminate.
    + now apply parseNFSOperationLine_no_panic in Hop.
Qed.

(** ** The per-operation block *)

Lemma operationStatsLoop_lines (s : Scanner) (lines : list string)
    (ops : list NFSOperationStats) (tail : list string) :
  Forall2 OpLine lines ops ->
  forall acc,
  operationStatsLoop s (lines ++ tail) acc
  = operationStatsLoop s tail (acc ++ ops).
Proof.
  induction 1 as [|l op ls ops' (name & toks & ns & Hf & Hlen & Hns & ->) _ IH];
    intros acc; cbn [app].
  - now rewrite app_nil_r.
  - rewrite (operationStatsLoop_line s l _ acc name toks ns Hf Hlen Hns).
    rewrite IH, <- app_assoc. reflexivity.
Qed.



(** ** The statistics block: short lines, unknown lines, whole blocks *)

(** X6.  In a statistics block, after lines that the loop accepts, a
    line of one field only - the word per-op alone as well - is the not
    enough information error, and an xprt line of two fields is the not
    enough information for transport error, under any version. *)
Theorem parseMountStatsNFS_short_line (s : Scanner) (v : string)
    (pre : list string) (l : string) (rest : list string)
    (st' : MountStatsNFS) :
  StatsLines v pre (newMountStatsNFS v) st' ->
  pending s = pre ++ l :: rest ->
  (forall t, Fields l = [t] ->
     parseMountStatsNFS s v = Err (ErrNotEnoughNFSStats [t]))
  /\ (forall t1, Fields l = ["xprt:"; t1] ->
      parseMountStatsNFS s v
      = Err (ErrNotEnoughNFSTransportStats ["xprt:"; t1])).
Proof.
  intros Hpre Hp. unfold parseMountStatsNFS. rewrite Hp.
  rewrite (statsLoop_StatsLines v pre _ _ Hpre (l :: rest)).
  split.
  - intros t Hf. cbn [statsLoop]. now rewrite Hf.
  - intros t1 Hf. cbn [statsLoop]. now rewrite Hf.
Qed.

Lemma parseMountStatsNFS_short_line_witness :
  parseMountStatsNFS (scannerOf ["age: 5"; "per-op"; "READ: 1 2 3 4 5 6 7 8"])
    "1.1"
  = Err (ErrNotEnoughNFSStats ["per-op"])
  /\ parseMountStatsNFS (scannerOf ["age: 5"; "xprt: tcp"]) "3.0"
     = Err (ErrNotEnoughNFSTransportStats ["xprt:"; "tcp"]).
Proof.
  split.
  - apply (proj1 (parseMountStatsNFS_short_line
                    (scannerOf ["age: 5"; "per-op"; "READ: 1 2 3 4 5 6 7 8"])
                    "1.1" ["age: 5"] "per-op" ["READ: 1 2 3 4 5 6 7 8"]
                    (setAge (newMountStatsNFS "1.1") (5 * Second))
                    ltac:(econstructor;
                          [vm_compute; lia | reflexivity
                          | vm_compute; discriminate | constructor])
                    eq_refl) "per-op").
    reflexivity.
  - apply (proj2 (parseMountStatsNFS_short_line
                    (scannerOf ["age: 5"; "xprt: tcp"])
                    "3.0" ["age: 5"] "xprt: tcp" []
                    (setAge (newMountStatsNFS "3.0") (5 * Second))
                    ltac:(econstructor;
                          [vm_compute; lia | reflexivity
                          | vm_compute; discriminate | constructor])
                    eq_refl) "tcp").
    reflexivity.
Defined.

Lemma statsSwitch_unknown (v t0 t1 : string) (ts : list string)
    (st : MountStatsNFS) :
  unknownField t0 -> statsSwitch v (t0 :: t1 :: ts) st = Ok st.
Proof.
  intros (Ha & Hb & He & Ht & _). unfold statsSwitch.
  cbn [index nth_error bind].
  destruct (String.eqb_spec t0 fieldAge); [contradiction |].
  destruct (String.eqb_spec t0 fieldBytes); [contradiction |].
  destruct (String.eqb_spec t0 fieldEvents); [contradiction |].
  destruct (String.eqb_spec t0 fieldTransport); [contradiction |].
  reflexivity.
Qed.

(** X7.  A line of two fields or more whose first field is none of
    age:, bytes:, events:, xprt: and per-op changes nothing: among the
    lines that the loop accepts, the statistics parser returns the same
    with and without it. *)
Theorem parseMountStatsNFS_unknown_line (s : Scanner) (v : string)
    (pre : list string) (l : string) (rest : list string)
    (st' : MountStatsNFS) (t0 t1 : string) (ts : list string) :
  StatsLines v pre (newMountStatsNFS v) st' ->
  Fields l = t0 :: t1 :: ts -> unknownField t0 ->
  parseMountStatsNFS (withPending s (pre ++ l :: rest)) v
  = parseMountStatsNFS (withPending s (pre ++ rest)) v.
Proof.
  intros Hpre Hf Hu. unfold parseMountStatsNFS. cbn [pending withPending].
  rewrite !(statsLoop_StatsLines v pre _ _ Hpre).
  cbn [statsLoop]. rewrite Hf.
  cbn [List.length Nat.eqb Nat.ltb Nat.leb index nth_error].
  rewrite (statsSwitch_unknown v t0 t1 ts st' Hu). cbn [bind].
  destruct Hu as (_ & _ & _ & _ & Hm).
  destruct (String.eqb_spec t0 fieldPerOpStats); [contradiction |].
  reflexivity.
Qed.

Lemma parseMountStatsNFS_unknown_line_witness :
  parseMountStatsNFS
    (scannerOf ["age: 5"; "per-operation x"; "bytes: 1 2 3 4 5 6 7 8"]) "1.1"
  = parseMountStatsNFS
      (scannerOf ["age: 5"; "bytes: 1 2 3 4 5 6 7 8"]) "1.1".
Proof.
  apply (parseMountStatsNFS_unknown_line (scannerOf []) "1.1" ["age: 5"]
           "per-operation x" ["bytes: 1 2 3 4 5 6 7 8"]
           (setAge (newMountStatsNFS "1.1") (5 * Second))
           "per-operation" "x" []).
  - econstructor;
      [vm_compute; lia | reflexivity | vm_compute; discriminate | constructor].
  - reflexivity.
  - repeat split; discriminate.
Defined.

(** X8.  A whole block - lines that the loop accepts, the per-op marker,
    per-operation lines and a blank line - is read up to its blank line
    and no further: the statistics parser returns the statistics with the
    version it was given and one operation for each per-operation line,
    and leaves the scanner on the lines after the blank line. *)
Theorem parseMountStatsNFS_whole_block (s : Scanner) (v : string)
    (pre : list string) (marker t1 : string) (ts oplines : list string)
    (ops : list NFSOperationStats) (blank : string) (rest : list string) :
  Forall (LineOK v) pre -> Fields marker = "per-op" :: t1 :: ts ->
  Forall2 OpLine oplines ops -> Fields blank = [] -> failure s = None ->
  pending s = pre ++ marker :: oplines ++ blank :: rest ->
  exists r,
    parseMountStatsNFS s v = Ok (r, withPending s rest)
    /\ StatVersion r = v /\ Operations r = ops
    /\ List.length (Operations r) = List.length oplines.
Proof.
  intros Hpre Hm Hops Hb Hf Hp.
  destruct (StatsLines_of_LineOK v pre Hpre (newMountStatsNFS v))
    as (st' & Hst).
  exists (setOperations st' ops). split.
  - rewrite (parseMountStatsNFS_block s v pre
               (marker :: oplines ++ blank :: rest)
               (oplines ++ blank :: rest) st' Hst).
    + unfold parseNFSOperationStats. cbn [pending withPending].
      rewrite operationStatsLoop_withPending.
      rewrite (operationStatsLoop_lines s oplines ops _ Hops).
      cbn [operationStatsLoop app]. rewrite Hb. cbn [List.length Nat.eqb].
      now rewrite (ScanErr_no_failure s rest Hf).
    + right. exists marker. split; [reflexivity |]. right. eauto.
    + exact Hp.
    + now apply ScanErr_no_failure.
  - destruct (StatsLines_last v pre _ _ Hst) as (Hv & _).
    cbn [setOperations StatVersion Operations].
    repeat split; [exact Hv |]. symmetry. exact (Forall2_length Hops).
Qed.

Lemma parseMountStatsNFS_whole_block_witness :
  exists r,
    parseMountStatsNFS
      (scannerOf (["age: 5"; "bytes: 1 2 3 4 5 6 7 8"]
                  ++ "per-op statistics"
                  :: ["READ: 1 2 3 4 5 6 7 8"]
                  ++ "" :: ["device /dev/sda1 mounted on / with fstype ext4"]))
      "1.1"
    = Ok (r, scannerOf ["device /dev/sda1 mounted on / with fstype ext4"])
    /\ StatVersion r = "1.1"
    /\ Operations r = [operationOfInts "READ:" [1; 2; 3; 4; 5; 6; 7; 8]]
    /\ List.length (Operations r) = 1%nat.
Proof.
  apply (parseMountStatsNFS_whole_block
           (scannerOf (["age: 5"; "bytes: 1 2 3 4 5 6 7 8"]
                       ++ "per-op statistics"
                       :: ["READ: 1 2 3 4 5 6 7 8"]
                       ++ "" :: ["device /dev/sda1 mounted on / with fstype ext4"]))
           "1.1" ["age: 5"; "bytes: 1 2 3 4 5 6 7 8"]
           "per-op statistics" "statistics" []
           ["READ: 1 2 3 4 5 6 7 8"]
           [operationOfInts "READ:" [1; 2; 3; 4; 5; 6; 7; 8]]
           "" ["device /dev/sda1 mounted on / with fstype ext4"]).
  - repeat (apply Forall_cons; [line_ok |]). apply Forall_nil.
  - reflexivity.
  - apply Forall2_cons; [| apply Forall2_nil].
    exists "READ:", ["1"; "2"; "3"; "4"; "5"; "6"; "7"; "8"],
      [1; 2; 3; 4; 5; 6; 7; 8].
    repeat split. apply IntTokens_Atoi. repeat constructor.
  - reflexivity.
  - reflexivity.
  - reflexivity.
Defined.

(** ** What a device entry returns *)

Lemma statsLoop_StatVersion (v : string) (lines : list string) :
  forall st st' rest, statsLoop v lines st = Ok (st', rest) ->
  StatVersion st' = StatVersion st.
Proof.
  induction lines as [|l ls IH]; intros st st' rest H; cbn [statsLoop] in H.
  - now injection H as <- _.
  - destruct (Fields l) as [|t0 [|t1 ts]] eqn:Hf;
      cbn [List.length Nat.eqb Nat.ltb Nat.leb] in H.
    + now injection H as <- _.
    + discriminate.
    + destruct (statsSwitch v (t0 :: t1 :: ts) st) as [st1 | |] eqn:Hsw;
        cbn [bind index nth_error] in H; try discriminate.
      apply statsSwitch_fields in Hsw. destruct Hsw as (Hv & _).
      destruct (String.eqb t0 fieldPerOpStats).
      * injection H as <- _. exact Hv.
      * apply IH in H. congruence.
Qed.

Lemma parseMountStatsNFS_StatVersion (s s2 : Scanner) (v : string)
    (r : MountStatsNFS) :
  parseMountStatsNFS s v = Ok (r, s2) -> StatVersion r = v.
Proof.
  unfold parseMountStatsNFS. intros H.
  destruct (statsLoop v (pending s) (newMountStatsNFS v)) as [[st' rest] | |]
    eqn:Hloop; cbn [bind fst snd] in H; try discriminate.
  apply statsLoop_StatVersion in Hloop.
  destruct (ScanErr _); [discriminate |].
  destruct (parseNFSOperationStats _) as [ops [e |] s3 | p];
    try discriminate.
  injection H as <- _. exact Hloop.
Qed.

Lemma parseMount_Ok_inv (ss : list string) (m : Mount) :
  parseMount ss = Ok m ->
  (8 <= List.length ss)%nat
  /\ m = {| Device := nth 1 ss ""; MountPoint := nth 4 ss "";
            Type_ := nth 7 ss ""; Stats := None |}.
Proof.
  intros H. destruct (Nat.lt_ge_cases (List.length ss) 8) as [Hlt | Hge].
  - rewrite (parseMount_short ss Hlt) in H. discriminate.
  - split; [exact Hge |].
    destruct (list_eight ss Hge)
      as (a0 & a1 & a2 & a3 & a4 & a5 & a6 & a7 & tl & ->).
    rewrite parseMount_long in H. destruct (_ && _); [| discriminate].
    now injection H as <-.
Qed.

(** X9.  What a device entry that parses is made of: the device, the
    mount point and the type are fields 1, 4 and 7 of the line; a line of
    8 fields gives no statistics and reads nothing from the stream; a
    longer line gives statistics, its type is then nfs or nfs4, and the
    version of the statistics is field 8 of the line without the prefix
    "statvers=". *)
Theorem parseDeviceEntry_Ok_inv (ss : list string) (s s2 : Scanner)
    (m : Mount) :
  parseDeviceEntry ss s = Ok (m, s2) ->
  Device m = nth 1 ss "" /\ MountPoint m = nth 4 ss ""
  /\ Type_ m = nth 7 ss ""
  /\ ((List.length ss = 8%nat /\ Stats m = None /\ s2 = s)
      \/ ((8 < List.length ss)%nat
          /\ (Type_ m = "nfs" \/ Type_ m = "nfs4")
          /\ exists st, Stats m = Some (StatsNFS st)
               /\ StatVersion st = TrimPrefix (nth 8 ss "") "statvers=")).
Proof.
  unfold parseDeviceEntry. intros H.
  destruct (parseMount ss) as [m0 | |] eqn:Hm; cbn [bind] in H;
    try discriminate.
  apply parseMount_Ok_inv in Hm. destruct Hm as (Hlen & ->).
  unfold deviceEntryLen in H. cbn [Type_] in H.
  destruct (Nat.ltb_spec 8 (List.length ss)) as [Hlt | Hle].
  - unfold nfs3Type, nfs4Type in H.
    destruct (String.eqb_spec (nth 7 ss "") "nfs") as [H3 | H3];
      destruct (String.eqb_spec (nth 7 ss "") "nfs4") as [H4 | H4];
      cbn [negb andb] in H; try discriminate;
      (unfold index in H;
       destruct (nth_error ss 8) as [t8 |] eqn:H8; cbn [bind] in H;
       [| discriminate];
       rewrite <- (nth_error_nth ss 8 "" H8) in H;
       destruct (parseMountStatsNFS s _) as [[r s3] | |] eqn:Hnfs;
       cbn [bind fst snd] in H; try discriminate;
       apply parseMountStatsNFS_StatVersion in Hnfs;
       injection H as <- <-; cbn [setStats Device MountPoint Type_ Stats];
       repeat split; right; (split; [exact Hlt |]);
       (split; [tauto |]); exists r; split; [reflexivity | exact Hnfs]).
  - injection H as <- <-. cbn. repeat split. left. repeat split. lia.
Qed.

Lemma parseDeviceEntry_Ok_inv_witness :
  exists st,
    Stats {| Device := "srv:/x"; MountPoint := "/mnt"; Type_ := "nfs4";
             Stats := Some (StatsNFS (setAge (newMountStatsNFS "vers=7")
                                        (5 * Second))) |}
    = Some (StatsNFS st)
    /\ StatVersion st = "vers=7".
Proof.
  destruct (parseDeviceEntry_Ok_inv
              (Fields "device srv:/x mounted on /mnt with fstype nfs4 vers=7")
              (scannerOf ["age: 5"]) (scannerOf [])
              {| Device := "srv:/x"; MountPoint := "/mnt"; Type_ := "nfs4";
                 Stats := Some (StatsNFS (setAge (newMountStatsNFS "vers=7")
                                            (5 * Second))) |}
              eq_refl)
    as (_ & _ & _ & [(Hlen & _) | (_ & _ & st & Hst & Hv)]).
  - discriminate Hlen.
  - exists st. split; [exact Hst | exact Hv].
Defined.

(** ** No index out of range but under version 1.0 *)

Lemma parseDurationTerm_no_panic (orig s : string) (d : Z) (p : panic) :
  parseDurationTerm orig s d <> Panic p.
Proof.
  unfold parseDurationTerm.
  repeat (cbn [bind];
          match goal with
          | |- context [match ?x with _ => _ end] => destruct x
          end);
    cbn [bind]; discriminate.
Qed.

Lemma parseDurationLoop_no_panic (fuel : nat) (orig : string) :
  forall s d p, parseDurationLoop fuel orig s d <> Panic p.
Proof.
  induction fuel as [|fuel IH]; intros s d p; destruct s as [|c r];
    cbn [parseDurationLoop]; try discriminate.
  destruct (parseDurationTerm orig (String c r) d) as [[d' s3] | e | q]
    eqn:Ht; cbn [bind fst snd].
  - apply IH.
  - discriminate.
  - now apply parseDurationTerm_no_panic in Ht.
Qed.

Lemma ParseDuration_no_panic (orig : string) (p : panic) :
  ParseDuration orig <> Panic p.
Proof.
  unfold ParseDuration.
  destruct (match orig with
            | EmptyString => (false, orig)
            | String c rest =>
                if (Ascii.eqb c "-" || Ascii.eqb c "+")%bool
                then (Ascii.eqb c "-", rest) else (false, orig)
            end) as [neg s].
  destruct (String.eqb s "0"); [discriminate |].
  destruct (String.eqb s ""); [discriminate |].
  destruct (parseDurationLoop _ orig s 0) as [d | e | q] eqn:Hl;
    cbn [bind].
  - destruct neg; [discriminate |]. destruct (_ <? d); discriminate.
  - discriminate.
  - now apply parseDurationLoop_no_panic in Hl.
Qed.

Lemma statsSwitch_no_panic (v t0 t1 : string) (ts : list string)
    (st : MountStatsNFS) (p : panic) :
  v <> "1.0" -> statsSwitch v (t0 :: t1 :: ts) st <> Panic p.
Proof.
  intros Hv. unfold statsSwitch.
  cbn [index nth_error bind sliceFrom List.length Nat.leb skipn].
  destruct (String.eqb t0 fieldAge).
  { destruct (ParseDuration _) as [d | e | q] eqn:H; cbn [bind];
      try discriminate. now apply ParseDuration_no_panic in H. }
  destruct (String.eqb t0 fieldBytes).
  { destruct (parseNFSBytesStats _) as [b | e | q] eqn:H; cbn [bind];
      try discriminate. now apply parseNFSBytesStats_no_panic in H. }
  destruct (String.eqb t0 fieldEvents).
  { destruct (parseNFSEventsStats _) as [b | e | q] eqn:H; cbn [bind];
      try discriminate. now apply parseNFSEventsStats_no_panic in H. }
  destruct (String.eqb t0 fieldTransport); [| discriminate].
  destruct ts as [|t2 ts]; [discriminate |].
  cbn [Nat.ltb Nat.leb List.length skipn bind].
  destruct (parseNFSTransportStats _ v) as [b | e | q] eqn:H; cbn [bind];
    try discriminate.
  now apply parseNFSTransportStats_no_panic in H.
Qed.

Lemma statsLoop_no_panic (v : string) (lines : list string) :
  v <> "1.0" -> forall st p, statsLoop v lines st <> Panic p.
Proof.
  intros Hv. induction lines as [|l ls IH]; intros st p; cbn [statsLoop].
  - discriminate.
  - destruct (Fields l) as [|t0 [|t1 ts]];
      cbn [List.length Nat.eqb Nat.ltb Nat.leb]; try discriminate.
    destruct (statsSwitch v (t0 :: t1 :: ts) st) as [st1 | e | q] eqn:Hsw;
      cbn [bind index nth_error].
    + destruct (String.eqb t0 fieldPerOpStats); [discriminate | apply IH].
    + discriminate.
    + now apply statsSwitch_no_panic in Hsw.
Qed.

Lemma parseMountStatsNFS_no_panic (s : Scanner) (v : string) (p : panic) :
  v <> "1.0" -> parseMountStatsNFS s v <> Panic p.
Proof.
  intros Hv. unfold parseMountStatsNFS.
  destruct (statsLoop v (pending s) (newMountStatsNFS v)) as [[st' rest] | |]
    eqn:Hloop; cbn [bind fst snd].
  - destruct (ScanErr _); [discriminate |].
    unfold parseNFSOperationStats.
    destruct (operationStatsLoop _ _ []) as [ops [e |] s3 | q] eqn:Hops;
      try discriminate.
    now apply operationStatsLoop_no_panic in Hops.
  - discriminate.
  - now apply statsLoop_no_panic in Hloop.
Qed.

Lemma parseMount_no_panic (ss : list string) (p : panic) :
  parseMount ss <> Panic p.
Proof.
  destruct (Nat.lt_ge_cases (List.length ss) 8) as [Hlt | Hge].
  - now rewrite (parseMount_short ss Hlt).
  - destruct (list_eight ss Hge)
      as (a0 & a1 & a2 & a3 & a4 & a5 & a6 & a7 & tl & ->).
    rewrite parseMount_long. destruct (_ && _); discriminate.
Qed.

Lemma parseDeviceEntry_no_panic (ss : list string) (s : Scanner)
    (p : panic) :
  TrimPrefix (nth 8 ss "") statVersionPrefix <> "1.0" ->
  parseDeviceEntry ss s <> Panic p.
Proof.
  intros Hv. unfold parseDeviceEntry.
  destruct (parseMount ss) as [m | e | q] eqn:Hm; cbn [bind].
  - unfold deviceEntryLen.
    destruct (Nat.ltb_spec 8 (List.length ss)) as [Hlt | _];
      [| discriminate].
    destruct (_ && _); [discriminate |].
    unfold index. destruct (nth_error ss 8) as [t8 |] eqn:H8.
    + cbn [bind]. rewrite (nth_error_nth ss 8 "" H8) in Hv.
      destruct (parseMountStatsNFS s _) as [[r s3] | e | q] eqn:Hnfs;
        cbn [bind]; try discriminate.
      now apply parseMountStatsNFS_no_panic in Hnfs.
    + apply nth_error_None in H8. lia.
  - discriminate.
  - now apply parseMount_no_panic in Hm.
Qed.

(** ** The scanner only moves forward *)

Lemma statsLoop_suffix (v : string) (lines : list string) :
  forall st st' rest, statsLoop v lines st = Ok (st', rest) ->
  exists read, lines = read ++ rest.
Proof.
  induction lines as [|l ls IH]; intros st st' rest H; cbn [statsLoop] in H.
  - injection H as _ <-. now exists [].
  - destruct (List.length (Fields l) =? 0)%nat.
    { injection H as _ <-. now exists [l]. }
    destruct (List.length (Fields l) <? 2)%nat; [discriminate |].
    destruct (statsSwitch v (Fields l) st) as [st1 | |]; cbn [bind] in H;
      try discriminate.
    destruct (index (Fields l) 0) as [t0 | |]; cbn [bind] in H;
      try discriminate.
    destruct (String.eqb t0 fieldPerOpStats).
    + injection H as _ <-. now exists [l].
    + destruct (IH _ _ _ H) as (read & ->). now exists (l :: read).
Qed.

Lemma operationStatsLoop_suffix (s : Scanner) (lines : list string) :
  forall ops v e s', operationStatsLoop s lines ops = Returned v e s' ->
  (exists read, lines = read ++ pending s')
  /\ buffered s' = buffered s /\ failure s' = failure s.
Proof.
  induction lines as [|l ls IH]; intros ops v e s' H;
    cbn [operationStatsLoop] in H.
  - injection H as _ _ <-. split; [now exists [] | now split].
  - destruct (List.length (Fields l) =? 0)%nat.
    { injection H as _ _ <-. split; [now exists [l] | now split]. }
    destruct (negb _).
    { injection H as _ _ <-. split; [now exists [l] | now split]. }
    destruct (parseNFSOperationLine (Fields l)) as [op | e' | p].
    + destruct (IH _ _ _ _ H) as ((read & ->) & Hb & Hf).
      split; [now exists (l :: read) | now split].
    + injection H as _ _ <-. split; [now exists [l] | now split].
    + discriminate.
Qed.

Lemma parseMountStatsNFS_suffix (s s2 : Scanner) (v : string)
    (r : MountStatsNFS) :
  parseMountStatsNFS s v = Ok (r, s2) ->
  (exists read, pending s = read ++ pending s2)
  /\ buffered s2 = buffered s /\ failure s2 = failure s.
Proof.
  unfold parseMountStatsNFS. intros H.
  destruct (statsLoop v (pending s) (newMountStatsNFS v)) as [[st' rest] | |]
    eqn:Hloop; cbn [bind fst snd] in H; try discriminate.
  apply statsLoop_suffix in Hloop. destruct Hloop as (read1 & Hr1).
  destruct (ScanErr _); [discriminate |].
  unfold parseNFSOperationStats in H. cbn [pending withPending] in H.
  destruct (operationStatsLoop _ rest []) as [ops [e |] s3 | p] eqn:Hops;
    try discriminate.
  apply operationStatsLoop_suffix in Hops.
  destruct Hops as ((read2 & Hr2) & Hb & Hf).
  injection H as _ <-.
  split; [| split; assumption].
  exists (read1 ++ read2). rewrite Hr1, Hr2. now rewrite app_assoc.
Qed.

Lemma parseDeviceEntry_suffix (ss : list string) (s s2 : Scanner)
    (m : Mount) :
  parseDeviceEntry ss s = Ok (m, s2) ->
  (exists read, pending s = read ++ pending s2)
  /\ buffered s2 = buffered s /\ failure s2 = failure s.
Proof.
  unfold parseDeviceEntry. intros H.
  destruct (parseMount ss) as [m0 | |]; cbn [bind] in H; try discriminate.
  destruct (_ <? _)%nat.
  - destruct (_ && _); [discriminate |].
    destruct (index ss 8) as [t8 | |]; cbn [bind] in H; try discriminate.
    destruct (parseMountStatsNFS s _) as [[r s3] | |] eqn:Hnfs;
      cbn [bind fst snd] in H; try discriminate.
    apply parseMountStatsNFS_suffix in Hnfs.
    injection H as _ <-. exact Hnfs.
  - injection H as _ <-. split; [now exists [] | now split].
Qed.

(** ** The driver, entry by entry *)

(** X10.  A device line of exactly 8 fields gives its mount, without
    statistics, whatever its type, and takes nothing from the stream.
    With more fields and a type that is neither nfs nor nfs4 it fails
    with the cannot parse error on that type, whatever the stream. *)
Theorem parseDeviceEntry_without_statistics (dev mnt typ : string)
    (extra : list string) (s : Scanner) :
  parseDeviceEntry
    ["device"; dev; "mounted"; "on"; mnt; "with"; "fstype"; typ] s
  = Ok ({| Device := dev; MountPoint := mnt; Type_ := typ; Stats := None |},
        s)
  /\ (extra <> [] -> typ <> "nfs" -> typ <> "nfs4" ->
      parseDeviceEntry
        ("device" :: dev :: "mounted" :: "on" :: mnt :: "with" :: "fstype"
         :: typ :: extra) s
      = Err (ErrCannotParseFstype typ)).
Proof.
  unfold parseDeviceEntry. rewrite !parseMount_device_line. split.
  - reflexivity.
  - intros Hne H3 H4. cbn [bind Type_].
    destruct extra as [|x extra]; [congruence |].
    change (deviceEntryLen <?
            List.length
              ("device" :: dev :: "mounted" :: "on" :: mnt :: "with"
               :: "fstype" :: typ :: x :: extra))%nat with true.
    cbv iota. unfold nfs3Type, nfs4Type.
    destruct (String.eqb_spec typ "nfs"); [contradiction |].
    destruct (String.eqb_spec typ "nfs4"); [contradiction |].
    reflexivity.
Qed.

Lemma parseDeviceEntry_without_statistics_witness :
  parseDeviceEntry
    (Fields "device /dev/sda1 mounted on / with fstype ext4 statvers=1.1")
    (scannerOf ["age: 5"])
  = Err (ErrCannotParseFstype "ext4").
Proof.
  apply (proj2 (parseDeviceEntry_without_statistics "/dev/sda1" "/" "ext4"
                  ["statvers=1.1"] (scannerOf ["age: 5"])));
    discriminate.
Defined.

Lemma mountStatsLoop_skip (fuel : nat) (s s1 : Scanner) (l : string)
    (ms : list Mount) :
  Scan s = Some (l, s1) -> nth 0 (Fields l) "" <> device ->
  mountStatsLoop (S fuel) s ms = mountStatsLoop fuel s1 ms.
Proof.
  intros Hscan Hnot. cbn [mountStatsLoop]. rewrite Hscan.
  destruct (Fields l) as [|t0 ts]; [reflexivity |].
  cbn [nth] in Hnot.
  destruct (String.eqb_spec t0 device); [contradiction | reflexivity].
Qed.

Lemma parseMountStats_skip (s s1 : Scanner) (l : string) :
  Scan s = Some (l, s1) -> nth 0 (Fields l) "" <> device ->
  parseMountStats s = parseMountStats s1.
Proof.
  intros Hscan Hnot. unfold parseMountStats.
  rewrite (Scan_length s s1 l Hscan).
  now apply mountStatsLoop_skip with (l := l).
Qed.

(** X11.  A stream in which no line has "device" as its first field
    (blank lines, statistics lines on their own, anything else) gives no
    mount, and no error but the one of the stream if it has one. *)
Theorem parseMountStats_no_device_line (lines : list string) (b : nat)
    (f : option error) :
  Forall (fun l => nth 0 (Fields l) "" <> "device") lines ->
  parseMountStats {| pending := lines; buffered := b; failure := f |}
  = Some (Returned [] f {| pending := []; buffered := b; failure := f |}).
Proof.
  induction 1 as [|l ls Hl _ IH].
  - reflexivity.
  - rewrite (parseMountStats_skip
               {| pending := l :: ls; buffered := b; failure := f |}
               {| pending := ls; buffered := b; failure := f |} l eq_refl Hl).
    exact IH.
Qed.

Lemma parseMountStats_no_device_line_witness :
  parseMountStats
    {| pending := [""; "age: 5"; "devices x"; "  "]; buffered := 1;
       failure := Some (ErrStream "read error") |}
  = Some (Returned [] (Some (ErrStream "read error"))
            {| pending := []; buffered := 1;
               failure := Some (ErrStream "read error") |}).
Proof.
  apply (parseMountStats_no_device_line
           [""; "age: 5"; "devices x"; "  "] 1
           (Some (ErrStream "read error"))).
  repeat (apply Forall_cons; [vm_compute; discriminate |]). apply Forall_nil.
Defined.

Lemma mountStatsLoop_fuel_S (fuel : nat) :
  forall s ms r, mountStatsLoop fuel s ms = Some r ->
  mountStatsLoop (S fuel) s ms = Some r.
Proof.
  induction fuel as [|fuel IH]; intros s ms r H; [discriminate |].
  cbn [mountStatsLoop] in H. cbn [mountStatsLoop].
  destruct (Scan s) as [[l s1] |]; [| exact H].
  destruct (Fields l) as [|t0 ts]; [now apply IH |].
  destruct (negb _); [now apply IH |].
  destruct (parseDeviceEntry _ s1) as [[m s2] | e | p]; try exact H.
  now apply IH.
Qed.

Lemma mountStatsLoop_fuel_le (f f' : nat) (s : Scanner) (ms : list Mount)
    (r : returned (list Mount)) :
  (f <= f')%nat -> mountStatsLoop f s ms = Some r ->
  mountStatsLoop f' s ms = Some r.
Proof.
  induction 1 as [|f' _ IH]; intros H; [exact H |].
  apply mountStatsLoop_fuel_S, IH, H.
Qed.

(** The mounts already found stay in front of those the loop adds. *)
Lemma mountStatsLoop_acc (fuel : nat) :
  forall s ms0 ms v s',
  mountStatsLoop fuel s ms0 = Some (Returned v None s') ->
  exists w, v = ms0 ++ w
    /\ mountStatsLoop fuel s ms = Some (Returned (ms ++ w) None s').
Proof.
  induction fuel as [|fuel IH]; intros s ms0 ms v s' H; [discriminate |].
  cbn [mountStatsLoop] in *.
  destruct (Scan s) as [[l s1] |].
  - destruct (Fields l) as [|t0 ts]; [now apply IH |].
    destruct (negb _); [now apply IH |].
    destruct (parseDeviceEntry _ s1) as [[m s2] | e | p]; try discriminate.
    destruct (IH _ _ (ms ++ [m]) _ _ H) as (w & -> & Hw).
    exists (m :: w). rewrite <- !app_assoc in *. auto.
  - injection H as <- He <-. exists []. rewrite !app_nil_r, He. auto.
Qed.

(** X12.  The mounts come in the order of the device lines: when a
    device entry parses and the driver, run on the stream after the
    entry, returns mounts without error, then the driver run on the whole
    stream returns the mount of the entry followed by those mounts. *)
Theorem parseMountStats_cons (s s1 s2 s' : Scanner) (l : string) (m : Mount)
    (ms : list Mount) :
  Scan s = Some (l, s1) -> nth 0 (Fields l) "" = "device" ->
  parseDeviceEntry (Fields l) s1 = Ok (m, s2) ->
  parseMountStats s2 = Some (Returned ms None s') ->
  parseMountStats s = Some (Returned (m :: ms) None s').
Proof.
  intros Hscan Hdev Hentry Hrest. unfold parseMountStats in *.
  pose proof (Scan_length s s1 l Hscan) as Hlen.
  pose proof (parseDeviceEntry_length _ _ _ _ Hentry) as Hlen2.
  rewrite Hlen. cbn [mountStatsLoop]. rewrite Hscan.
  destruct (Fields l) as [|t0 ts] eqn:Hf; [discriminate Hdev |].
  cbn [nth] in Hdev. subst t0.
  change (String.eqb "device" device) with true. cbn [negb].
  rewrite Hentry. cbn [app].
  apply (mountStatsLoop_fuel_le _ (S (List.length (pending s1))))
    in Hrest; [| lia].
  destruct (mountStatsLoop_acc _ _ [] [m] _ _ Hrest) as (w & Hw & Hacc).
  cbn [app] in Hw. subst w. exact Hacc.
Qed.

Lemma parseMountStats_cons_witness :
  parseMountStats
    (scannerOf
       ["device srv:/x mounted on /mnt with fstype nfs statvers=1.1";
        "age: 5"; "per-op statistics"; "";
        "device /dev/sda1 mounted on / with fstype ext4"])
  = Some (Returned
            [{| Device := "srv:/x"; MountPoint := "/mnt"; Type_ := "nfs";
                Stats := Some (StatsNFS (setAge (newMountStatsNFS "1.1")
                                           (5 * Second))) |};
             {| Device := "/dev/sda1"; MountPoint := "/"; Type_ := "ext4";
                Stats := None |}]
            None (scannerOf [])).
Proof.
  apply (parseMountStats_cons
           (scannerOf
              ["device srv:/x mounted on /mnt with fstype nfs statvers=1.1";
               "age: 5"; "per-op statistics"; "";
               "device /dev/sda1 mounted on / with fstype ext4"])
           (scannerOf
              ["age: 5"; "per-op statistics"; "";
               "device /dev/sda1 mounted on / with fstype ext4"])
           (scannerOf ["device /dev/sda1 mounted on / with fstype ext4"])
           (scannerOf [])
           "device srv:/x mounted on /mnt with fstype nfs statvers=1.1").
  - reflexivity.
  - reflexivity.
  - vm_compute. reflexivity.
  - vm_compute. reflexivity.
Defined.

(** ** Invariants of the result *)

Lemma parseDeviceEntry_statsOnlyOnNFS (ss : list string) (s s2 : Scanner)
    (m : Mount) :
  parseDeviceEntry ss s = Ok (m, s2) -> statsOnlyOnNFS m.
Proof.
  unfold parseDeviceEntry, statsOnlyOnNFS. intros H.
  destruct (parseMount ss) as [m0 | |] eqn:Hm; cbn [bind] in H;
    try discriminate.
  apply parseMount_Ok_inv in Hm. destruct Hm as (_ & ->).
  cbn [Type_] in H.
  destruct (_ <? _)%nat.
  - destruct (String.eqb_spec (nth 7 ss "") nfs3Type) as [H3 | H3];
      destruct (String.eqb_spec (nth 7 ss "") nfs4Type) as [H4 | H4];
      cbn [negb andb] in H; try discriminate;
      (destruct (index ss 8) as [t8 | |]; cbn [bind] in H;
       try discriminate;
       destruct (parseMountStatsNFS s _) as [[r s3] | |];
       cbn [bind fst snd] in H; try discriminate;
       injection H as <- _; cbn [setStats Type_]; tauto).
  - injection H as <- _. left. reflexivity.
Qed.

Lemma mountStatsLoop_statsOnlyOnNFS (fuel : nat) :
  forall s ms0 v e s', Forall statsOnlyOnNFS ms0 ->
  mountStatsLoop fuel s ms0 = Some (Returned v e s') ->
  Forall statsOnlyOnNFS v.
Proof.
  induction fuel as [|fuel IH]; intros s ms0 v e s' Hinv H;
    [discriminate |].
  cbn [mountStatsLoop] in H.
  destruct (Scan s) as [[l s1] |].
  - destruct (Fields l) as [|t0 ts]; [now apply (IH _ _ _ _ _ Hinv H) |].
    destruct (negb _); [now apply (IH _ _ _ _ _ Hinv H) |].
    destruct (parseDeviceEntry _ s1) as [[m s2] | err | p] eqn:Hentry;
      try discriminate.
    + apply parseDeviceEntry_statsOnlyOnNFS in Hentry.
      apply (IH s2 (ms0 ++ [m]) v e s'); [| exact H].
      apply Forall_app. split; [exact Hinv | now constructor].
    + injection H as <- _ _. constructor.
  - injection H as <- _ _. exact Hinv.
Qed.

(** X13.  Whatever the stream, and with or without an error beside
    them, the mounts that the driver returns have statistics only when
    their type is nfs or nfs4. *)
Theorem parseMountStats_statsOnlyOnNFS (s s' : Scanner) (ms : list Mount)
    (e : option error) :
  parseMountStats s = Some (Returned ms e s') ->
  Forall (fun m => Stats m = None \/ Type_ m = "nfs" \/ Type_ m = "nfs4") ms.
Proof.
  intros H. unfold parseMountStats in H.
  exact (mountStatsLoop_statsOnlyOnNFS _ _ [] _ _ _ (Forall_nil _) H).
Qed.

Lemma parseMountStats_statsOnlyOnNFS_witness :
  Forall (fun m => Stats m = None \/ Type_ m = "nfs" \/ Type_ m = "nfs4")
    [{| Device := "srv:/x"; MountPoint := "/mnt"; Type_ := "nfs4";
        Stats := Some (StatsNFS (setAge (newMountStatsNFS "1.1")
                                   (5 * Second))) |};
     {| Device := "/dev/sda1"; MountPoint := "/"; Type_ := "ext4";
        Stats := None |}].
Proof.
  apply (parseMountStats_statsOnlyOnNFS
           (scannerOf
              ["device srv:/x mounted on /mnt with fstype nfs4 statvers=1.1";
               "age: 5"; "per-op statistics"; "";
               "device /dev/sda1 mounted on / with fstype ext4"])
           (scannerOf []) _ None).
  vm_compute. reflexivity.
Defined.

Lemma mountStatsLoop_no_panic (fuel : nat) :
  forall s ms, (List.length (pending s) < fuel)%nat ->
  Forall (fun l => nth 0 (Fields l) "" = device ->
                   announcedVersion l <> "1.0") (pending s) ->
  exists v e s', mountStatsLoop fuel s ms = Some (Returned v e s').
Proof.
  induction fuel as [|fuel IH]; intros s ms Hlt Hv; [lia |].
  cbn [mountStatsLoop]. unfold Scan.
  destruct (pending s) as [|l rest] eqn:Hp; [eauto |].
  cbn [List.length] in Hlt. inversion Hv as [|? ? Hl Hrest]; subst.
  unfold announcedVersion in Hl.
  destruct (Fields l) as [|t0 ts] eqn:Hf.
  { apply IH; [cbn; lia | exact Hrest]. }
  destruct (String.eqb_spec t0 device) as [-> | _]; cbn [negb].
  2: { apply IH; [cbn; lia | exact Hrest]. }
  specialize (Hl eq_refl).
  destruct (parseDeviceEntry _ (withPending s rest)) as [[m s2] | err | p]
    eqn:Hentry.
  - pose proof (parseDeviceEntry_length _ _ _ _ Hentry) as Hlen.
    apply parseDeviceEntry_suffix in Hentry.
    destruct Hentry as ((read & Hread) & _). cbn [pending withPending] in *.
    apply IH; [lia |]. rewrite Hread in Hrest.
    apply Forall_app in Hrest. tauto.
  - eauto.
  - now apply parseDeviceEntry_no_panic in Hentry.
Qed.

(** X14.  The driver returns - mounts, or an error - on every stream in
    which no device line announces the version "1.0": in
    [parseMountStats] and what it calls no index is out of range but the
    one of the transport decoder under that version. *)
Theorem parseMountStats_returns (s : Scanner) :
  Forall (fun l => nth 0 (Fields l) "" = "device" ->
                   announcedVersion l <> "1.0") (pending s) ->
  exists ms e s', parseMountStats s = Some (Returned ms e s').
Proof. intros H. apply mountStatsLoop_no_panic; [lia | exact H]. Qed.

Lemma parseMountStats_returns_witness :
  exists ms e s',
    parseMountStats
      (scannerOf
         ["device srv:/x mounted on /mnt with fstype nfs statvers=1.1";
          "xprt: tcp 1 2 3 4 5 6 7 8 9 10"; "bytes: 1.0"])
    = Some (Returned ms e s').
Proof.
  apply (parseMountStats_returns
           (scannerOf
              ["device srv:/x mounted on /mnt with fstype nfs statvers=1.1";
               "xprt: tcp 1 2 3 4 5 6 7 8 9 10"; "bytes: 1.0"])).
  repeat (apply Forall_cons; [vm_compute; discriminate |]). apply Forall_nil.
Defined.

Lemma operationStatsLoop_no_error (s : Scanner) (lines : list string) :
  forall ops v s', operationStatsLoop s lines ops = Returned v None s' ->
  ScanErr s' = None.
Proof.
  induction lines as [|l ls IH]; intros ops v s' H;
    cbn [operationStatsLoop] in H.
  - injection H as _ He <-. exact He.
  - destruct (List.length (Fields l) =? 0)%nat.
    { injection H as _ He <-. exact He. }
    destruct (negb _); [discriminate |].
    destruct (parseNFSOperationLine (Fields l)) as [op | e' | p];
      try discriminate.
    now apply IH in H.
Qed.

(** X15.  The statistics parser only moves forward, and does not return
    statistics past an error of the stream: when it returns statistics,
    the scanner it leaves holds a suffix of the lines it was given, at
    least one line shorter unless the stream was at its end, with the
    same latched error, and the scanner reports no error at that point. *)
Theorem parseMountStatsNFS_forward (s s2 : Scanner) (v : string)
    (r : MountStatsNFS) :
  parseMountStatsNFS s v = Ok (r, s2) ->
  (exists read, pending s = read ++ pending s2
     /\ (pending s <> [] -> read <> []))
  /\ buffered s2 = buffered s /\ failure s2 = failure s
  /\ ScanErr s2 = None.
Proof.
  intros H.
  destruct (parseMountStatsNFS_suffix s s2 v r H) as ((read & Hr) & Hb & Hf).
  split; [| split; [exact Hb | split; [exact Hf |]]].
  - exists read. split; [exact Hr |]. intros Hne ->. cbn [app] in Hr.
    unfold parseMountStatsNFS in H.
    destruct (pending s) as [|l rest] eqn:Hp; [congruence |].
    cbn [statsLoop] in H.
    assert (Hlen : (List.length (pending s2) <= List.length rest)%nat).
    { destruct (List.length (Fields l) =? 0)%nat.
      - cbn [bind fst snd] in H. destruct (ScanErr _); [discriminate |].
        unfold parseNFSOperationStats in H. cbn [pending withPending] in H.
        destruct (operationStatsLoop _ rest []) as [ops [e |] s3 | p]
          eqn:Hops; try discriminate.
        apply operationStatsLoop_length in Hops. now injection H as _ <-.
      - destruct (List.length (Fields l) <? 2)%nat; [discriminate |].
        destruct (statsSwitch v (Fields l) _) as [st1 | |];
          cbn [bind] in H; try discriminate.
        destruct (index (Fields l) 0) as [t0 | |]; cbn [bind] in H;
          try discriminate.
        destruct (String.eqb t0 fieldPerOpStats).
        + cbn [bind fst snd] in H. destruct (ScanErr _); [discriminate |].
          unfold parseNFSOperationStats in H.
          cbn [pending withPending] in H.
          destruct (operationStatsLoop _ rest []) as [ops [e |] s3 | p]
            eqn:Hops; try discriminate.
          apply operationStatsLoop_length in Hops. now injection H as _ <-.
        + destruct (statsLoop v rest st1) as [[st' rest'] | |] eqn:Hloop;
            cbn [bind fst snd] in H; try discriminate.
          apply statsLoop_length in Hloop.
          destruct (ScanErr _); [discriminate |].
          unfold parseNFSOperationStats in H.
          cbn [pending withPending] in H.
          destruct (operationStatsLoop _ rest' []) as [ops [e |] s3 | p]
            eqn:Hops; try discriminate.
          apply operationStatsLoop_length in Hops.
          injection H as _ <-. lia. }
    rewrite <- Hr in Hlen. cbn [List.length] in Hlen. lia.
  - unfold parseMountStatsNFS in H.
    destruct (statsLoop v (pending s) (newMountStatsNFS v))
      as [[st' rest] | |]; cbn [bind fst snd] in H; try discriminate.
    destruct (ScanErr _); [discriminate |].
    unfold parseNFSOperationStats in H.
    destruct (operationStatsLoop _ _ []) as [ops [e |] s3 | p] eqn:Hops;
      try discriminate.
    apply operationStatsLoop_no_error in Hops. now injection H as _ <-.
Qed.

Lemma parseMountStatsNFS_forward_witness :
  (exists read,
     ["age: 5"; "per-op statistics"; ""; "device x"] = read ++ ["device x"]
     /\ (["age: 5"; "per-op statistics"; ""; "device x"] <> [] -> read <> []))
  /\ buffered (scannerOf ["device x"]) = 0%nat
  /\ failure (scannerOf ["device x"]) = None
  /\ ScanErr (scannerOf ["device x"]) = None.
Proof.
  apply (parseMountStatsNFS_forward
           (scannerOf ["age: 5"; "per-op statistics"; ""; "device x"])
           (scannerOf ["device x"]) "1.1"
           (setAge (newMountStatsNFS "1.1") (5 * Second))).
  vm_compute. reflexivity.
Defined.

(** ** Errors of the stream *)

Lemma ScanErr_at_end (s : Scanner) :
  ScanErr (withPending s []) = failure s.
Proof. reflexivity. Qed.

(** X16.  An error of the stream that cuts a statistics block short is
    what the statistics parser returns, in place of statistics: when the
    stream ends on its error after lines that the first loop accepts, or
    after the per-op marker and per-operation lines, the result is that
    error. *)
Theorem parseMountStatsNFS_stream_error (s : Scanner) (v : string)
    (pre : list string) (e : error) :
  Forall (LineOK v) pre -> failure s = Some e ->
  (pending s = pre -> parseMountStatsNFS s v = Err e)
  /\ (forall marker t1 ts oplines ops,
      Fields marker = "per-op" :: t1 :: ts -> Forall2 OpLine oplines ops ->
      pending s = pre ++ marker :: oplines ->
      parseMountStatsNFS s v = Err e).
Proof.
  intros Hpre Hf.
  destruct (StatsLines_of_LineOK v pre Hpre (newMountStatsNFS v))
    as (st' & Hst).
  split.
  - intros Hp. unfold parseMountStatsNFS. rewrite Hp.
    rewrite <- (app_nil_r pre) at 1.
    rewrite (statsLoop_StatsLines v pre _ _ Hst []).
    cbn [statsLoop bind fst snd]. now rewrite ScanErr_at_end, Hf.
  - intros marker t1 ts oplines ops Hm Hops Hp.
    unfold parseMountStatsNFS. rewrite Hp.
    rewrite (statsLoop_StatsLines v pre _ _ Hst (marker :: oplines)).
    rewrite (statsLoop_marker v marker t1 ts oplines st' Hm).
    cbn [bind fst snd].
    destruct (ScanErr (withPending s oplines)) as [e' |] eqn:He.
    + unfold ScanErr in He. cbn [pending buffered failure withPending] in He.
      destruct (_ <=? _)%nat; [| discriminate]. congruence.
    + unfold parseNFSOperationStats. cbn [pending withPending].
      rewrite operationStatsLoop_withPending.
      rewrite <- (app_nil_r oplines).
      rewrite (operationStatsLoop_lines s oplines ops [] Hops).
      cbn [operationStatsLoop app]. now rewrite ScanErr_at_end, Hf.
Qed.

Lemma parseMountStatsNFS_stream_error_witness :
  parseMountStatsNFS
    {| pending := ["age: 5"; "per-op statistics"; "READ: 1 2 3 4 5 6 7 8"];
       buffered := 0; failure := Some (ErrStream "read error") |} "1.1"
  = Err (ErrStream "read error")
  /\ parseMountStatsNFS
       {| pending := ["age: 5"]; buffered := 0;
          failure := Some (ErrStream "read error") |} "1.1"
     = Err (ErrStream "read error").
Proof.
  assert (H : Forall (LineOK "1.1") ["age: 5"]).
  { apply Forall_cons; [line_ok | apply Forall_nil]. }
  split.
  - apply (proj2 (parseMountStatsNFS_stream_error
                    {| pending := ["age: 5"; "per-op statistics";
                                   "READ: 1 2 3 4 5 6 7 8"];
                       buffered := 0;
                       failure := Some (ErrStream "read error") |}
                    "1.1" ["age: 5"] (ErrStream "read error") H eq_refl)
             "per-op statistics" "statistics" [] ["READ: 1 2 3 4 5 6 7 8"]
             [operationOfInts "READ:" [1; 2; 3; 4; 5; 6; 7; 8]]).
    + reflexivity.
    + apply Forall2_cons; [| apply Forall2_nil].
      exists "READ:", ["1"; "2"; "3"; "4"; "5"; "6"; "7"; "8"],
        [1; 2; 3; 4; 5; 6; 7; 8].
      repeat split. apply IntTokens_Atoi. repeat constructor.
    + reflexivity.
  - apply (proj1 (parseMountStatsNFS_stream_error
                    {| pending := ["age: 5"]; buffered := 0;
                       failure := Some (ErrStream "read error") |}
                    "1.1" ["age: 5"] (ErrStream "read error") H eq_refl)).
    reflexivity.
Defined.

Lemma mountStatsLoop_keeps_error (fuel : nat) :
  forall s ms v e s' err, failure s = Some err ->
  mountStatsLoop fuel s ms = Some (Returned v e s') ->
  exists e', e = Some e'.
Proof.
  induction fuel as [|fuel IH]; intros s ms v e s' err Hf H;
    [discriminate |].
  cbn [mountStatsLoop] in H. unfold Scan in H.
  destruct (pending s) as [|l rest] eqn:Hp.
  - injection H as _ <- _. unfold ScanErr. rewrite Hp, Hf. cbn. eauto.
  - assert (Hf1 : failure (withPending s rest) = Some err) by exact Hf.
    destruct (Fields l) as [|t0 ts]; [now apply (IH _ _ _ _ _ _ Hf1 H) |].
    destruct (negb _); [now apply (IH _ _ _ _ _ _ Hf1 H) |].
    destruct (parseDeviceEntry _ _) as [[m s2] | e0 | p] eqn:Hentry;
      try discriminate.
    + apply parseDeviceEntry_suffix in Hentry.
      destruct Hentry as (_ & _ & Hf2). rewrite Hf1 in Hf2.
      now apply (IH _ _ _ _ _ _ Hf2 H).
    + injection H as _ <- _. eauto.
Qed.

(** X17.  An error of the stream is never lost: on a stream that ends
    on an error, whatever the driver returns comes with an error (the
    one of the stream, or the one of a device entry met before it). *)
Theorem parseMountStats_stream_error (s s' : Scanner) (err : error)
    (ms : list Mount) (e : option error) :
  failure s = Some err ->
  parseMountStats s = Some (Returned ms e s') ->
  exists e', e = Some e'.
Proof.
  intros Hf H. exact (mountStatsLoop_keeps_error _ _ _ _ _ _ _ Hf H).
Qed.

Lemma parseMountStats_stream_error_witness :
  exists e', Some (ErrStream "read error") = Some e'.
Proof.
  apply (parseMountStats_stream_error
           {| pending := ["device /dev/sda1 mounted on / with fstype ext4";
                          "device /dev/sdb1 mounted on /b with fstype ext4"];
              buffered := 1; failure := Some (ErrStream "read error") |}
           {| pending := []; buffered := 1;
              failure := Some (ErrStream "read error") |}
           (ErrStream "read error")
           [{| Device := "/dev/sda1"; MountPoint := "/"; Type_ := "ext4";
               Stats := None |};
            {| Device := "/dev/sdb1"; MountPoint := "/b"; Type_ := "ext4";
               Stats := None |}]
           (Some (ErrStream "read error"))).
  - reflexivity.
  - vm_compute. reflexivity.
Defined.
